(** * claude-tokenizer: the API route and the client input controller

    A shallow embedding of [src/app/api/route.ts] (the [POST] handler and its
    two helper estimators) and of [src/components/tokenComponents.tsx] (the
    [debounce] utility, the two request handlers of [TokenizerInput] and the
    [TokenMetrics] panel), followed by the properties of the specification
    that concern them.

    Conventions of the embedding.
    - Text that is measured, trimmed or sent to a vendor is a JavaScript
      string: a list of UTF-16 code units ([list N]); [.length] is the length
      of that list.  Identifiers (model names, media types, field values,
      file names) are [string]s.
    - JavaScript numbers that the code handles are integers (byte counts,
      token counts) and are modelled in [Z]; where the code computes with
      them the result is rounded as a double is ([round_double]).
    - [null] is [None].
    - The component between two renders is a [Page]: the state cells of
      [TokenizerInput], the debounced function [useCallback] holds, and the
      timers of the page; a step is an event handler followed by the render
      and its effect.
    - The three vendors are opaque: they are fields of a [world] record and
      every call to one of them is recorded in a log, so that "no vendor call
      occurs" is a statement about that log. *)

From Stdlib Require Import String Ascii.
From Stdlib.Strings Require Import Byte.
From Stdlib Require Import ZArith NArith List Bool Lia.
Import ListNotations.

Local Open Scope string_scope.
Local Open Scope list_scope.
Local Open Scope Z_scope.

(** ** JavaScript strings *)

Abbreviation jsstring := (list N).

(** [s.length] *)
Definition js_length (s : jsstring) : Z := Z.of_nat (length s).

(** The code units matched by [WhiteSpace] and [LineTerminator], that is the
    ones [String.prototype.trim] removes. *)
Definition is_white_space (c : N) : bool :=
  ((0x09 <=? c) && (c <=? 0x0D) || (c =? 0x20) || (c =? 0xA0) || (c =? 0x1680)
   || (0x2000 <=? c) && (c <=? 0x200A) || (c =? 0x2028) || (c =? 0x2029)
   || (c =? 0x202F) || (c =? 0x205F) || (c =? 0x3000) || (c =? 0xFEFF))%N.

Fixpoint trimStart (s : jsstring) : jsstring :=
  match s with
  | [] => []
  | c :: s' => if is_white_space c then trimStart s' else s
  end.

Definition trimEnd (s : jsstring) : jsstring := rev (trimStart (rev s)).

(** [s.trim()] *)
Definition trim (s : jsstring) : jsstring := trimEnd (trimStart s).

(** Truthiness of a JavaScript string: only the empty string is falsy. *)
Definition truthy (s : jsstring) : bool :=
  match s with [] => false | _ :: _ => true end.

Definition truthy_str (s : string) : bool :=
  match s with EmptyString => false | String _ _ => true end.

(** [s.startsWith(p)], [s.includes(p)], [s.endsWith(p)] on identifiers. *)
Definition startsWith (s p : string) : bool := String.prefix p s.

Fixpoint includes (s p : string) : bool :=
  String.prefix p s ||
  match s with
  | EmptyString => false
  | String _ s' => includes s' p
  end.

Definition endsWith (s p : string) : bool :=
  (String.length p <=? String.length s)%nat &&
  String.eqb (substring (String.length s - String.length p) (String.length p) s) p.

(** ** JavaScript numbers

    An integer is held in a double.  Up to [2^53] in magnitude every integer
    is a double; beyond, [round_double x] is the double nearest to [x], the
    one with the even significand when two are as near (the overflow to
    infinity, beyond [2^1024], is out of reach of the code). *)

Definition MAX_EXACT : Z := 9007199254740992.   (* 2^53 *)

Definition round_double (x : Z) : Z :=
  let a := Z.abs x in
  if a <=? MAX_EXACT then x
  else
    let q := 2 ^ (Z.log2 a - 52) in
    let k := a / q in
    let r := a mod q in
    let k' := if 2 * r <? q then k
              else if q <? 2 * r then k + 1
              else if Z.even k then k else k + 1 in
    Z.sgn x * (k' * q).

(** [a - b] *)
Definition js_minus (a b : Z) : Z := round_double (a - b).

(** ** Platform functions used by the route *)

(** *** [new TextDecoder().decode(bytes)]

    The UTF-8 decoder of the Encoding standard, in replacement mode (the
    default of [TextDecoder]): the state is the code point under
    construction, the number of continuation bytes seen and needed, and the
    range allowed for the next byte.  An ill-formed sequence yields U+FFFD and
    the offending byte is read again from the initial state. *)

Record utf8_state := {
  code_point : N;
  bytes_seen : N;
  bytes_needed : N;
  lower_boundary : N;
  upper_boundary : N
}.

Definition utf8_initial : utf8_state :=
  {| code_point := 0; bytes_seen := 0; bytes_needed := 0;
     lower_boundary := 0x80; upper_boundary := 0xBF |}.

Definition REPLACEMENT : N := 0xFFFD.

(** The handler when no continuation byte is awaited. *)
Definition utf8_lead (b : N) : utf8_state * list N :=
  (if b <=? 0x7F then (utf8_initial, [b])
   else if (0xC2 <=? b) && (b <=? 0xDF) then
     ({| code_point := N.land b 0x1F; bytes_seen := 0; bytes_needed := 1;
         lower_boundary := 0x80; upper_boundary := 0xBF |}, [])
   else if (0xE0 <=? b) && (b <=? 0xEF) then
     ({| code_point := N.land b 0xF; bytes_seen := 0; bytes_needed := 2;
         lower_boundary := if b =? 0xE0 then 0xA0 else 0x80;
         upper_boundary := if b =? 0xED then 0x9F else 0xBF |}, [])
   else if (0xF0 <=? b) && (b <=? 0xF4) then
     ({| code_point := N.land b 0x7; bytes_seen := 0; bytes_needed := 3;
         lower_boundary := if b =? 0xF0 then 0x90 else 0x80;
         upper_boundary := if b =? 0xF4 then 0x8F else 0xBF |}, [])
   else (utf8_initial, [REPLACEMENT]))%N.

Definition utf8_handler (st : utf8_state) (b : N) : utf8_state * list N :=
  (if bytes_needed st =? 0 then utf8_lead b
   else if negb ((lower_boundary st <=? b) && (b <=? upper_boundary st)) then
     let '(st', out) := utf8_lead b in (st', REPLACEMENT :: out)
   else
     let cp := N.lor (N.shiftl (code_point st) 6) (N.land b 0x3F) in
     let seen := bytes_seen st + 1 in
     if seen =? bytes_needed st then (utf8_initial, [cp])
     else ({| code_point := cp; bytes_seen := seen;
              bytes_needed := bytes_needed st;
              lower_boundary := 0x80; upper_boundary := 0xBF |}, []))%N.

Fixpoint utf8_run (st : utf8_state) (bytes : list byte) : list N :=
  match bytes with
  | [] => if (bytes_needed st =? 0)%N then [] else [REPLACEMENT]
  | b :: rest =>
      let '(st', out) := utf8_handler st (Byte.to_N b) in
      out ++ utf8_run st' rest
  end.

(** A leading byte order mark is dropped ([ignoreBOM] is false by default). *)
Definition strip_bom (bytes : list byte) : list byte :=
  match bytes with
  | a :: b :: c :: rest =>
      if Byte.eqb a xef && Byte.eqb b xbb && Byte.eqb c xbf then rest
      else bytes
  | _ => bytes
  end.

(** A code point as UTF-16 code units. *)
Definition utf16_units (cp : N) : jsstring :=
  (if cp <? 0x10000 then [cp]
   else [0xD800 + (cp - 0x10000) / 0x400; 0xDC00 + (cp - 0x10000) mod 0x400])%N.

Definition TextDecoder_decode (bytes : list byte) : jsstring :=
  flat_map utf16_units (utf8_run utf8_initial (strip_bom bytes)).

(** *** [Buffer.from(bytes).toString('base64')] *)

Definition base64_alphabet : string :=
  "ABCDEFGHIJKLMNOPQRSTUVWXYZabcdefghijklmnopqrstuvwxyz0123456789+/".

Definition base64_digit (n : N) : ascii :=
  match String.get (N.to_nat n) base64_alphabet with
  | Some c => c
  | None => "="%char
  end.

Fixpoint base64 (bytes : list byte) : string :=
  match bytes with
  | [] => EmptyString
  | [a] =>
      let a := Byte.to_N a in
      String (base64_digit (a / 4))
        (String (base64_digit ((a mod 4) * 16)) "==")
  | [a; b] =>
      let a := Byte.to_N a in
      let b := Byte.to_N b in
      String (base64_digit (a / 4))
        (String (base64_digit ((a mod 4) * 16 + b / 16))
           (String (base64_digit ((b mod 16) * 4)) "="))
  | a :: b :: c :: rest =>
      let a := Byte.to_N a in
      let b := Byte.to_N b in
      let c := Byte.to_N c in
      String (base64_digit (a / 4))
        (String (base64_digit ((a mod 4) * 16 + b / 16))
           (String (base64_digit ((b mod 16) * 4 + c / 64))
              (String (base64_digit (c mod 64)) (base64 rest))))
  end%N.

(** ** Vendors, and the monad of the route

    A computation either returns or throws, and records the vendor calls it
    made on the way; [await] is sequencing. *)

Inductive Content :=
| TextContent (text : jsstring)
| DocumentBlock (media_type data : string)
| ImageBlock (media_type data : string).

Inductive vendor_call :=
| CallAnthropic (betas : list string) (model : string) (content : Content)
| CallGPT4o (text : jsstring)
| CallGemini (model : string) (text : jsstring).

(** The environment of a request: the optional credential and the behaviour
    of the three vendors; [None] is a call that throws. *)
Record world := {
  GEMINI_API_KEY : option string;
  (** [anthropic.beta.messages.countTokens]: the [input_tokens] of the count *)
  anthropic_countTokens : list string -> string -> Content -> option Z;
  (** [encodingForModel('gpt-4o').encode]: the tokens *)
  gpt4o_encode : jsstring -> option (list N);
  (** [genAI.getGenerativeModel({model}).countTokens]: the [totalTokens] *)
  gemini_countTokens : string -> string -> jsstring -> option Z
}.

Definition M (A : Type) : Type := (option A * list vendor_call)%type.

Definition ret {A} (a : A) : M A := (Some a, []).

Definition throw {A} : M A := (None, []).

Definition bind {A B} (m : M A) (k : A -> M B) : M B :=
  match m with
  | (Some a, log) => let '(r, log') := k a in (r, log ++ log')
  | (None, log) => (None, log)
  end.

(** [try { m } catch (error) { handler }] *)
Definition try_catch {A} (m : M A) (handler : M A) : M A :=
  match m with
  | (Some a, log) => (Some a, log)
  | (None, log) => let '(r, log') := handler in (r, log ++ log')
  end.

(** A vendor call: logged, then its outcome. *)
Definition call {A} (c : vendor_call) (outcome : option A) : M A :=
  (outcome, [c]).

(** A step that may throw and calls no vendor. *)
Definition attempt {A} (outcome : option A) : M A := (outcome, []).

Notation "'await' x <- c ; k" := (bind c (fun x => k))
  (at level 10, x name, c at level 100, k at level 200).

Definition result {A} (m : M A) : option A := fst m.
Definition calls {A} (m : M A) : list vendor_call := snd m.

(** ** The request and the response of [POST /api] *)

Module Api.

Record File := {
  name : string;
  type : string;
  bytes : list byte
}.

(** The fields read from a multipart body. *)
Record FormData := {
  form_file : option File;
  form_model : option string;
  form_fileType : option string
}.

(** The fields read from a JSON body. *)
Record JsonData := {
  json_text : option jsstring;
  json_model : option string
}.

(** A request: its [content-type] header, and what [req.formData()] and
    [req.json()] give for its body ([None]: the body does not parse that way
    and the call throws). *)
Record Request := {
  content_type : option string;
  req_formData : option FormData;
  req_json : option JsonData
}.

(** The object of a success response:
    [{...count, fileChars, model, gpt4oTokens, geminiTokens}]. *)
Record TokenResult := {
  input_tokens : Z;
  fileChars : Z;
  model : string;
  gpt4oTokens : option Z;
  geminiTokens : option Z
}.

(** The two responses the route builds: [Response.json(result)], which has
    status 200, and [Response.json({ error }, { status: 500 })], whose body
    has the single field [error]. *)
Inductive Response :=
| Response_json (data : TokenResult)
| Response_json_500 (error : string).

Definition status (r : Response) : Z :=
  match r with
  | Response_json _ => 200
  | Response_json_500 _ => 500
  end.

(** [response.ok] *)
Definition ok (r : Response) : bool := (200 <=? status r) && (status r <=? 299).

End Api.

(** ** [src/app/api/route.ts]

    The route with the three vendors and the image branch: the second of the
    two revisions in the file (its lines 102-294). *)

Module Route.

Import Api.

Definition DEFAULT_MODEL : string := "claude-3-7-sonnet-20250219".

(** [a || b] on an optional string: [b] when [a] is absent or empty. *)
Definition or_else (a : option string) (b : string) : string :=
  match a with
  | Some s => if truthy_str s then s else b
  | None => b
  end.

(** [a || ''] on an optional text. *)
Definition or_empty (a : option jsstring) : jsstring :=
  match a with
  | Some s => s
  | None => []
  end.

(** [fileType === k] *)
Definition strict_eq (a : option string) (k : string) : bool :=
  match a with
  | Some s => String.eqb s k
  | None => false
  end.

Definition getGPT4oTokenCount (w : world) (text : jsstring) : M (option Z) :=
  try_catch
    (await tokens <- call (CallGPT4o text) (gpt4o_encode w text);
     ret (Some (Z.of_nat (length tokens))))
    (ret None).

Definition getGeminiTokenCount (w : world) (text : jsstring) : M (option Z) :=
  try_catch
    (match GEMINI_API_KEY w with
     | Some key =>
         if truthy_str key then
           await totalTokens <-
             call (CallGemini "gemini-1.5-flash" text)
                  (gemini_countTokens w key "gemini-1.5-flash" text);
           ret (Some totalTokens)
         else ret None
     | None => ret None
     end)
    (ret None).

(** The media type sent with an image (lines 216-220). *)
Definition mediaType (file_type : string) : string :=
  if String.eqb file_type "image/png" then "image/png"
  else if String.eqb file_type "image/gif" then "image/gif"
  else if String.eqb file_type "image/webp" then "image/webp"
  else "image/jpeg".

(** The tail of [POST] (lines 270-286), reached by every path that has not
    returned: the text count and the response. *)
Definition count_text (w : world) (text : jsstring) (fileChars : Z)
    (model : string) (gpt4oTokens geminiTokens : option Z) : M Response :=
  await count <-
    call (CallAnthropic ["token-counting-2024-11-01"] model (TextContent text))
         (anthropic_countTokens w ["token-counting-2024-11-01"] model
            (TextContent text));
  ret (Response_json
         {| input_tokens := count; fileChars := fileChars; model := model;
            gpt4oTokens := gpt4oTokens; geminiTokens := geminiTokens |}).

Definition POST_body (w : world) (req : Request) : M Response :=
  let contentType := or_else (content_type req) EmptyString in
  if includes contentType "multipart/form-data" then
    await formData <- attempt (req_formData req);
    let model := or_else (form_model formData) DEFAULT_MODEL in
    match form_file formData with
    | Some file =>
        let fileContent := bytes file in
        let fileChars := Z.of_nat (length fileContent) in
        if strict_eq (form_fileType formData) "pdf" then
          let base64Content := base64 fileContent in
          await count <-
            call (CallAnthropic
                    ["token-counting-2024-11-01"; "pdfs-2024-09-25"] model
                    (DocumentBlock "application/pdf" base64Content))
                 (anthropic_countTokens w
                    ["token-counting-2024-11-01"; "pdfs-2024-09-25"] model
                    (DocumentBlock "application/pdf" base64Content));
          ret (Response_json
                 {| input_tokens := count; fileChars := fileChars;
                    model := model;
                    gpt4oTokens := None; geminiTokens := None |})
        else if strict_eq (form_fileType formData) "image" then
          let base64Content := base64 fileContent in
          await count <-
            call (CallAnthropic ["token-counting-2024-11-01"] model
                    (ImageBlock (mediaType (type file)) base64Content))
                 (anthropic_countTokens w ["token-counting-2024-11-01"] model
                    (ImageBlock (mediaType (type file)) base64Content));
          ret (Response_json
                 {| input_tokens := count; fileChars := fileChars;
                    model := model;
                    gpt4oTokens := None; geminiTokens := None |})
        else
          let text := TextDecoder_decode fileContent in
          await gpt4oTokens <- getGPT4oTokenCount w text;
          await geminiTokens <- getGeminiTokenCount w text;
          count_text w text fileChars model gpt4oTokens geminiTokens
    | None => count_text w [] 0 model None None
    end
  else
    await jsonData <- attempt (req_json req);
    let text := or_empty (json_text jsonData) in
    let model := or_else (json_model jsonData) DEFAULT_MODEL in
    await gpt4oTokens <- getGPT4oTokenCount w text;
    await geminiTokens <- getGeminiTokenCount w text;
    count_text w text 0 model gpt4oTokens geminiTokens.

Definition POST (w : world) (req : Request) : M Response :=
  try_catch (POST_body w req)
            (ret (Response_json_500 "Failed to count tokens")).

End Route.

(** ** [src/components/tokenComponents.tsx] *)

Module TokenComponents.

Import Api.

(** *** Timers and [debounce]

    The timer queue of the page: the clock in milliseconds, the next timer
    id, and the scheduled callbacks in the order they were scheduled.  A
    callback of [debounce] is [() => func(...args)], so it is kept as its
    [args].  A debounced function is the closure over [delay] and the
    variable [timeoutId], which starts [undefined]. *)

Section Debounce.

Variable A : Type.

Record timer := { timer_id : nat; due : nat; args : A }.

Record Timers := { now : nat; next_id : nat; pending : list timer }.

Definition setTimeout (a : A) (delay : nat) (tm : Timers) : nat * Timers :=
  (next_id tm,
   {| now := now tm;
      next_id := S (next_id tm);
      pending := pending tm ++
                 [{| timer_id := next_id tm; due := (now tm + delay)%nat;
                     args := a |}] |}).

Definition clearTimeout (id : option nat) (tm : Timers) : Timers :=
  match id with
  | None => tm
  | Some i =>
      {| now := now tm;
         next_id := next_id tm;
         pending := filter (fun t => negb (timer_id t =? i)%nat) (pending tm) |}
  end.

(** One millisecond passes: the callbacks that are due run, in order, and
    leave the queue.  The result lists the [args] that [func] was called
    with. *)
Definition tick (tm : Timers) : list A * Timers :=
  let now' := S (now tm) in
  (map args (filter (fun t => (due t <=? now')%nat) (pending tm)),
   {| now := now';
      next_id := next_id tm;
      pending := filter (fun t => negb (due t <=? now')%nat) (pending tm) |}).

Record Debounced := { delay : nat; timeoutId : option nat }.

Definition debounce (delay : nat) : Debounced :=
  {| delay := delay; timeoutId := None |}.

(** A call [debounced(...args)]. *)
Definition invoke (d : Debounced) (a : A) (tm : Timers) : Debounced * Timers :=
  let tm1 := clearTimeout (timeoutId d) tm in
  let '(id, tm2) := setTimeout a (delay d) tm1 in
  ({| delay := delay d; timeoutId := Some id |}, tm2).

(** A debounced function at work: its closure, the timer queue, and the
    arguments [func] has been called with so far. *)
Record Running := {
  closure : Debounced;
  timers : Timers;
  dispatched : list A
}.

Inductive event :=
| Invoke (a : A)   (* the debounced function is called *)
| Tick.            (* one millisecond passes *)

Definition step (s : Running) (e : event) : Running :=
  match e with
  | Invoke a =>
      let '(d, tm) := invoke (closure s) a (timers s) in
      {| closure := d; timers := tm; dispatched := dispatched s |}
  | Tick =>
      let '(fired, tm) := tick (timers s) in
      {| closure := closure s; timers := tm;
         dispatched := dispatched s ++ fired |}
  end.

Definition run (s : Running) (evs : list event) : Running :=
  fold_left step evs s.

(** A debounced function just created, on a page with no timer yet. *)
Definition start (d : Debounced) : Running :=
  {| closure := d;
     timers := {| now := 0; next_id := 1; pending := [] |};
     dispatched := [] |}.

(** The arguments of the latest call among [evs]. *)
Fixpoint latest (evs : list event) : option A :=
  match evs with
  | [] => None
  | e :: evs' =>
      match latest evs' with
      | Some a => Some a
      | None => match e with Invoke a => Some a | Tick => None end
      end
  end.

End Debounce.

Arguments timer_id {A}.
Arguments due {A}.
Arguments args {A}.
Arguments now {A}.
Arguments next_id {A}.
Arguments pending {A}.
Arguments setTimeout {A}.
Arguments clearTimeout {A}.
Arguments tick {A}.
Arguments closure {A}.
Arguments timers {A}.
Arguments dispatched {A}.
Arguments Invoke {A}.
Arguments Tick {A}.
Arguments invoke {A}.
Arguments step {A}.
Arguments run {A}.
Arguments start {A}.
Arguments latest {A}.

(** *** Models and file categories *)

Record ClaudeModel := { model_id : string; model_name : string }.

Definition CLAUDE_MODELS : list ClaudeModel :=
  [ {| model_id := "claude-3-7-sonnet-20250219"; model_name := "Claude 3.7 Sonnet" |};
    {| model_id := "claude-3-5-sonnet-20241022"; model_name := "Claude 3.5 Sonnet" |};
    {| model_id := "claude-3-5-haiku-20241022"; model_name := "Claude 3.5 Haiku" |};
    {| model_id := "claude-3-opus-20240229"; model_name := "Claude 3 Opus" |};
    {| model_id := "claude-3-sonnet-20240229"; model_name := "Claude 3 Sonnet" |};
    {| model_id := "claude-3-haiku-20240307"; model_name := "Claude 3 Haiku" |} ].

Inductive FileTypeCategory := Image | Pdf | Text | Unknown.

(** The category as the string appended to the form. *)
Definition category_string (c : FileTypeCategory) : string :=
  match c with
  | Image => "image"
  | Pdf => "pdf"
  | Text => "text"
  | Unknown => "unknown"
  end.

Definition getFileTypeCategory (file : File) : FileTypeCategory :=
  if startsWith (type file) "image/" then Image
  else if String.eqb (type file) "application/pdf" then Pdf
  else if includes (type file) "text"
          || includes (type file) "javascript"
          || includes (type file) "json"
          || includes (type file) "html"
          || includes (type file) "css"
          || endsWith (name file) ".md"
          || endsWith (name file) ".csv" then Text
  else Unknown.

(** *** The state of [TokenizerInput] *)

Record Stats := {
  tokens : option Z;
  gpt4oTokens : option Z;
  geminiTokens : option Z;
  chars : Z;
  fileName : option string
}.

Record State := {
  text : jsstring;
  file : option File;
  fileType : FileTypeCategory;
  filePreview : option string;
  selectedModel : string;
  stats : Stats;
  error : option string;
  isProcessing : bool;
  showModelDropdown : bool
}.

Definition initial : State :=
  {| text := [];
     file := None;
     fileType := Unknown;
     filePreview := None;
     selectedModel := "claude-3-7-sonnet-20250219";
     stats := {| tokens := None; gpt4oTokens := None; geminiTokens := None;
                 chars := 0; fileName := None |};
     error := None;
     isProcessing := false;
     showModelDropdown := false |}.

Definition setText (v : jsstring) (s : State) : State :=
  {| text := v; file := file s; fileType := fileType s;
     filePreview := filePreview s; selectedModel := selectedModel s;
     stats := stats s; error := error s; isProcessing := isProcessing s;
     showModelDropdown := showModelDropdown s |}.

Definition setFile (v : option File) (s : State) : State :=
  {| text := text s; file := v; fileType := fileType s;
     filePreview := filePreview s; selectedModel := selectedModel s;
     stats := stats s; error := error s; isProcessing := isProcessing s;
     showModelDropdown := showModelDropdown s |}.

Definition setFileType (v : FileTypeCategory) (s : State) : State :=
  {| text := text s; file := file s; fileType := v;
     filePreview := filePreview s; selectedModel := selectedModel s;
     stats := stats s; error := error s; isProcessing := isProcessing s;
     showModelDropdown := showModelDropdown s |}.

Definition setFilePreview (v : option string) (s : State) : State :=
  {| text := text s; file := file s; fileType := fileType s;
     filePreview := v; selectedModel := selectedModel s;
     stats := stats s; error := error s; isProcessing := isProcessing s;
     showModelDropdown := showModelDropdown s |}.

Definition setSelectedModel (v : string) (s : State) : State :=
  {| text := text s; file := file s; fileType := fileType s;
     filePreview := filePreview s; selectedModel := v;
     stats := stats s; error := error s; isProcessing := isProcessing s;
     showModelDropdown := showModelDropdown s |}.

Definition setStats (v : Stats) (s : State) : State :=
  {| text := text s; file := file s; fileType := fileType s;
     filePreview := filePreview s; selectedModel := selectedModel s;
     stats := v; error := error s; isProcessing := isProcessing s;
     showModelDropdown := showModelDropdown s |}.

Definition setError (v : option string) (s : State) : State :=
  {| text := text s; file := file s; fileType := fileType s;
     filePreview := filePreview s; selectedModel := selectedModel s;
     stats := stats s; error := v; isProcessing := isProcessing s;
     showModelDropdown := showModelDropdown s |}.

Definition setIsProcessing (v : bool) (s : State) : State :=
  {| text := text s; file := file s; fileType := fileType s;
     filePreview := filePreview s; selectedModel := selectedModel s;
     stats := stats s; error := error s; isProcessing := v;
     showModelDropdown := showModelDropdown s |}.

Definition setShowModelDropdown (v : bool) (s : State) : State :=
  {| text := text s; file := file s; fileType := fileType s;
     filePreview := filePreview s; selectedModel := selectedModel s;
     stats := stats s; error := error s; isProcessing := isProcessing s;
     showModelDropdown := v |}.

Definition no_stats : Stats :=
  {| tokens := None; gpt4oTokens := None; geminiTokens := None;
     chars := 0; fileName := None |}.

(** *** The handlers of [TokenizerInput]

    [fetch] is the request to ['/api']: it resolves to the response of the
    route, or rejects.  A handler reads the state of the render it was
    created in and returns the state after its updates; no other event is
    interleaved with it.  A response that is [ok] is a [Response_json], so
    the last case of the match on the response is never reached. *)

Section Handlers.

Variable fetch : Request -> M Response.

(** The file as the part of a multipart body: a part without a media type
    is given [application/octet-stream]. *)
Definition as_part (f : File) : File :=
  {| name := name f;
     type := if truthy_str (type f) then type f else "application/octet-stream";
     bytes := bytes f |}.

(** The request of lines 88-95: a JSON body with the text and the model. *)
Definition text_request (text : jsstring) (model : string) : Request :=
  {| content_type := Some "application/json";
     req_formData := None;
     req_json := Some {| json_text := Some text; json_model := Some model |} |}.

(** The request of lines 124-132: a form with the file, the model and the
    category; the browser sets the header and its boundary. *)
Definition file_request (file : File) (model : string)
    (fileType : FileTypeCategory) : Request :=
  {| content_type := Some "multipart/form-data; boundary=----FormBoundary";
     req_formData := Some {| form_file := Some (as_part file);
                             form_model := Some model;
                             form_fileType := Some (category_string fileType) |};
     req_json := None |}.

Definition handleAnalyzeText (s : State) (text : jsstring) : M State :=
  if negb (truthy (trim text)) then
    ret (setError None (setStats no_stats s))
  else
    let s := setIsProcessing true s in
    await s' <-
      try_catch
        (await response <-
           fetch (text_request text (selectedModel s));
         if negb (ok response) then throw
         else
           match response with
           | Response_json data =>
               ret (setError None
                      (setStats
                         {| tokens := Some (if input_tokens data >? 7
                                            then js_minus (input_tokens data) 7 else 0);
                            gpt4oTokens := Api.gpt4oTokens data;
                            geminiTokens := Api.geminiTokens data;
                            chars := js_length text;
                            fileName := None |} s))
           | Response_json_500 _ => throw
           end)
        (ret (setStats
                {| tokens := None; gpt4oTokens := None; geminiTokens := None;
                   chars := js_length text; fileName := None |}
                (setError (Some "Failed to analyze text. Please try again.") s)));
    ret (setIsProcessing false s').

Definition handleAnalyzeFile (s : State) : M State :=
  match file s with
  | None => ret s
  | Some file =>
      let s := setIsProcessing true s in
      await s' <-
        try_catch
          (await response <-
             fetch (file_request file (selectedModel s) (fileType s));
           if negb (ok response) then throw
           else
             match response with
             | Response_json data =>
                 ret (setError None
                        (setStats
                           {| tokens := Some (if input_tokens data >? 7
                                              then js_minus (input_tokens data) 7 else 0);
                              gpt4oTokens := Api.gpt4oTokens data;
                              geminiTokens := Api.geminiTokens data;
                              chars := if fileChars data =? 0 then 0
                                       else fileChars data;
                              fileName := Some (name file) |} s))
             | Response_json_500 _ => throw
             end)
          (ret (setStats no_stats
                  (setError (Some "Failed to analyze file. Please try again.") s)));
      ret (setIsProcessing false s')
  end.

End Handlers.

(** [debounce(handleAnalyzeText, 300)] (line 157), as created. *)
Definition debouncedHandleAnalyzeText : Debounced := debounce 300.

(** The effect of lines 159-163: the call it makes to the debounced
    function, if any. *)
Definition useEffect_call (s : State) : option jsstring :=
  match file s with
  | None => if truthy (text s) then Some (text s) else None
  | Some _ => None
  end.

Definition handleFileChange (selectedFile : option File) (s : State) : State :=
  match selectedFile with
  | Some f =>
      let type := getFileTypeCategory f in
      let s :=
        setStats {| tokens := None; gpt4oTokens := None; geminiTokens := None;
                    chars := 0; fileName := Some (name f) |}
          (setText [] (setFileType type (setFile (Some f) s))) in
      match type with
      | Image => s   (* the preview is set when the reader has loaded *)
      | _ => setFilePreview None s
      end
  | None => s
  end.

Definition clearFile (s : State) : State :=
  setStats no_stats (setFilePreview None (setFileType Unknown (setFile None s))).

Definition selectModel (modelId : string) (s : State) : State :=
  setShowModelDropdown false (setSelectedModel modelId s).

Definition selectedModelName (s : State) : string :=
  match find (fun m => String.eqb (model_id m) (selectedModel s)) CLAUDE_MODELS with
  | Some m => if truthy_str (model_name m) then model_name m else selectedModel s
  | None => selectedModel s
  end.

(** *** [TokenMetrics]

    What a metric shows: the pulsing ["..."], a number (through
    [toLocaleString]), or the dash. *)

Inductive cell := Pulse | Number (n : Z) | Dash.

(** The panel: the two estimator cells and the file cell are rendered or
    not. *)
Record Panel := {
  claude_cell : cell;
  gpt4o_cell : option cell;
  gemini_cell : option cell;
  chars_cell : cell;
  model_cell : string;
  file_cell : option (string * string)
}.

(** [!fileName] *)
Definition no_name (fileName : option string) : bool :=
  match fileName with
  | Some n => negb (truthy_str n)
  | None => true
  end.

Definition estimator_cell (isProcessing : bool) (n : option Z) : cell :=
  if isProcessing then Pulse
  else match n with Some n => Number n | None => Dash end.

Definition TokenMetrics (tokens : Z) (gpt4oTokens geminiTokens : option Z)
    (chars : Z) (isProcessing : bool) (fileName : option string)
    (fileType : FileTypeCategory) (model : string) : Panel :=
  let text_input :=
    match fileType with Text => true | _ => false end || no_name fileName in
  {| claude_cell := if isProcessing then Pulse else Number tokens;
     gpt4o_cell :=
       if text_input then Some (estimator_cell isProcessing gpt4oTokens)
       else None;
     gemini_cell :=
       if text_input then Some (estimator_cell isProcessing geminiTokens)
       else None;
     chars_cell := if isProcessing then Pulse else Number chars;
     model_cell := model;
     file_cell :=
       if no_name fileName then None
       else Some (match fileType with
                  | Image => "Image" | Pdf => "PDF" | _ => "File"
                  end,
                  match fileName with Some n => n | None => EmptyString end) |}.

(** The metrics panel as [TokenizerInput] renders it (lines 309-318). *)
Definition render (s : State) : Panel :=
  TokenMetrics
    (match tokens (stats s) with Some n => n | None => 0 end)
    (gpt4oTokens (stats s))
    (geminiTokens (stats s))
    (chars (stats s))
    (isProcessing s)
    (fileName (stats s))
    (match file s with Some _ => fileType s | None => Text end)
    (selectedModelName s).

End TokenComponents.

(** ** Classes of requests, and sample inputs *)

Import Api.
Import Route.
Module TC := TokenComponents.

(** The route takes the multipart branch. *)
Definition multipart (req : Request) : bool :=
  includes (or_else (content_type req) EmptyString) "multipart/form-data".

(** The declared kind of a form is neither [pdf] nor [image]: [text],
    [unknown], anything else, or absent. *)
Definition text_kind (fd : FormData) : bool :=
  negb (strict_eq (form_fileType fd) "pdf")
  && negb (strict_eq (form_fileType fd) "image").

(** A text payload: a JSON body, or a form with a file whose declared kind is
    a text kind.  The result is the text, the byte length of the file (0 for
    a JSON body) and the model of the request. *)
Definition text_payload (req : Request) : option (jsstring * Z * string) :=
  if multipart req then
    match req_formData req with
    | Some fd =>
        match form_file fd with
        | Some f =>
            if text_kind fd then
              Some (TextDecoder_decode (bytes f), Z.of_nat (length (bytes f)),
                    or_else (form_model fd) DEFAULT_MODEL)
            else None
        | None => None
        end
    | None => None
    end
  else
    match req_json req with
    | Some jd =>
        Some (or_empty (json_text jd), 0, or_else (json_model jd) DEFAULT_MODEL)
    | None => None
    end.

(** What the two estimators give for a text in a world. *)
Definition secondary (w : world) (text : jsstring) : option Z :=
  match gpt4o_encode w text with
  | Some tokens => Some (Z.of_nat (length tokens))
  | None => None
  end.

Definition tertiary (w : world) (text : jsstring) : option Z :=
  match GEMINI_API_KEY w with
  | Some key =>
      if truthy_str key then gemini_countTokens w key "gemini-1.5-flash" text
      else None
  | None => None
  end.

(** The call the third estimator makes: none without a credential. *)
Definition tertiary_calls (w : world) (text : jsstring) : list vendor_call :=
  match GEMINI_API_KEY w with
  | Some key =>
      if truthy_str key then [CallGemini "gemini-1.5-flash" text] else []
  | None => []
  end.

(** The primary call for a text. *)
Definition primary_text_call (model : string) (text : jsstring) : vendor_call :=
  CallAnthropic ["token-counting-2024-11-01"] model (TextContent text).

(** The two estimator cells are rendered: no file is selected, or the
    selected file is a text, or the stats carry no file name. *)
Definition estimators_shown (s : TC.State) : Prop :=
  TC.file s = None \/ TC.fileType s = TC.Text \/
  TC.no_name (TC.fileName (TC.stats s)) = true.

(** The state of a debounced function after the events [evs]: nothing is
    scheduled, or one callback is, which is the one [timeoutId] names and
    carries the arguments of the latest call. *)
Definition settled {A} (evs : list (TC.event A)) (s : TC.Running A) : Prop :=
  TC.pending (TC.timers s) = [] \/
  exists t,
    TC.pending (TC.timers s) = [t] /\
    TC.timeoutId (TC.closure s) = Some (TC.timer_id t) /\
    TC.latest evs = Some (TC.args t) /\
    (TC.timer_id t < TC.next_id (TC.timers s))%nat.

Definition ascii_only (bs : list byte) : Prop :=
  Forall (fun b => (Byte.to_N b < 0x80)%N) bs.

(** A world where every vendor answers: the primary count is the length of
    the content plus the overhead of 7, the encoder makes one token of every
    code unit, the third vendor counts 1. *)
Definition all_up : world :=
  {| GEMINI_API_KEY := Some "key";
     anthropic_countTokens := fun _ _ c =>
       Some (7 + match c with
                 | TextContent t => js_length t
                 | DocumentBlock _ d => Z.of_nat (String.length d)
                 | ImageBlock _ d => Z.of_nat (String.length d)
                 end);
     gpt4o_encode := fun t => Some t;
     gemini_countTokens := fun _ _ _ => Some 1 |}.

(** Only the primary vendor answers, and no credential for the third. *)
Definition primary_only : world :=
  {| GEMINI_API_KEY := None;
     anthropic_countTokens := fun _ _ _ => Some 12;
     gpt4o_encode := fun _ => None;
     gemini_countTokens := fun _ _ _ => None |}.

(** The primary vendor throws. *)
Definition primary_down : world :=
  {| GEMINI_API_KEY := Some "key";
     anthropic_countTokens := fun _ _ _ => None;
     gpt4o_encode := fun t => Some t;
     gemini_countTokens := fun _ _ _ => Some 1 |}.

(** "é" in UTF-8, and files made of it. *)
Definition e_acute : list byte := [xc3; xa9].

Definition one_e_acute : File :=
  {| name := "e.txt"; type := "text/plain"; bytes := e_acute |}.

Definition fifty_e_acute : File :=
  {| name := "fifty.txt"; type := "text/plain";
     bytes := concat (repeat e_acute 50) |}.

Definition hundred_x : File :=
  {| name := "x.txt"; type := "text/plain"; bytes := repeat x78 100 |}.

Definition a_png : File :=
  {| name := "a.png"; type := "image/png"; bytes := [x89; x50; x4e; x47] |}.

Definition a_bmp : File :=
  {| name := "a.bmp"; type := "image/bmp"; bytes := [x42; x4d] |}.

Definition a_pdf : File :=
  {| name := "a.pdf"; type := "application/pdf"; bytes := [x25; x50; x44; x46] |}.

(** "Hi" *)
Definition hi : jsstring := [0x48; 0x69]%N.

(** ** The first revision of the route

    Lines 1-102 of [src/app/api/route.ts]: one vendor, no declared kind (a
    PDF is recognised by the media type of the file), and a response without
    the two estimator fields. *)

Module RouteV1.

Definition DEFAULT_MODEL : string := "claude-3-7-sonnet-20250219".

(** [{...count, fileChars, model}] *)
Record TokenResult := {
  input_tokens : Z;
  fileChars : Z;
  model : string
}.

Inductive Response :=
| Response_json (data : TokenResult)
| Response_json_500 (error : string).

Definition POST_body (w : world) (req : Request) : M Response :=
  let contentType := or_else (content_type req) EmptyString in
  if includes contentType "multipart/form-data" then
    await formData <- attempt (req_formData req);
    let model := or_else (form_model formData) DEFAULT_MODEL in
    match form_file formData with
    | Some file =>
        let fileContent := bytes file in
        if String.eqb (type file) "application/pdf" then
          let base64Content := base64 fileContent in
          await count <-
            call (CallAnthropic
                    ["token-counting-2024-11-01"; "pdfs-2024-09-25"] model
                    (DocumentBlock "application/pdf" base64Content))
                 (anthropic_countTokens w
                    ["token-counting-2024-11-01"; "pdfs-2024-09-25"] model
                    (DocumentBlock "application/pdf" base64Content));
          ret (Response_json
                 {| input_tokens := count;
                    fileChars := Z.of_nat (length fileContent);
                    model := model |})
        else
          let text := TextDecoder_decode fileContent in
          let fileChars := js_length text in
          await count <-
            call (CallAnthropic ["token-counting-2024-11-01"] model
                    (TextContent text))
                 (anthropic_countTokens w ["token-counting-2024-11-01"] model
                    (TextContent text));
          ret (Response_json
                 {| input_tokens := count; fileChars := fileChars;
                    model := model |})
    | None =>
        await count <-
          call (CallAnthropic ["token-counting-2024-11-01"] model
                  (TextContent []))
               (anthropic_countTokens w ["token-counting-2024-11-01"] model
                  (TextContent []));
        ret (Response_json
               {| input_tokens := count; fileChars := 0; model := model |})
    end
  else
    await jsonData <- attempt (req_json req);
    let text := or_empty (json_text jsonData) in
    let model := or_else (json_model jsonData) DEFAULT_MODEL in
    await count <-
      call (CallAnthropic ["token-counting-2024-11-01"] model (TextContent text))
           (anthropic_countTokens w ["token-counting-2024-11-01"] model
              (TextContent text));
    ret (Response_json
           {| input_tokens := count; fileChars := 0; model := model |}).

Definition POST (w : world) (req : Request) : M Response :=
  try_catch (POST_body w req)
            (ret (Response_json_500 "Failed to count tokens")).

End RouteV1.

(** The model a request asks for: its own when it gives a non-empty one, the
    default otherwise ([None] for a body that does not parse). *)
Definition requested_model (req : Request) : option string :=
  if multipart req then
    match req_formData req with
    | Some fd => Some (or_else (form_model fd) DEFAULT_MODEL)
    | None => None
    end
  else
    match req_json req with
    | Some jd => Some (or_else (json_model jd) DEFAULT_MODEL)
    | None => None
    end.

(** The body of a request does not parse the way its header announces. *)
Definition unparsed (req : Request) : Prop :=
  if multipart req then req_formData req = None else req_json req = None.

(** A response of the route without its two estimator fields, as the first
    revision builds it. *)
Definition forget_estimators (r : Response) : RouteV1.Response :=
  match r with
  | Response_json d =>
      RouteV1.Response_json
        {| RouteV1.input_tokens := input_tokens d;
           RouteV1.fileChars := fileChars d;
           RouteV1.model := model d |}
  | Response_json_500 e => RouteV1.Response_json_500 e
  end.

(** ** Counting calls, and sequences of events *)

Definition is_primary (c : vendor_call) : bool :=
  match c with CallAnthropic _ _ _ => true | _ => false end.

Definition is_gpt4o (c : vendor_call) : bool :=
  match c with CallGPT4o _ => true | _ => false end.

Definition is_gemini (c : vendor_call) : bool :=
  match c with CallGemini _ _ => true | _ => false end.

(** The model a primary call was made with. *)
Definition primary_model (c : vendor_call) : option string :=
  match c with CallAnthropic _ m _ => Some m | _ => None end.

Definition is_invoke {A} (e : TC.event A) : bool :=
  match e with TC.Invoke _ => true | TC.Tick => false end.

(** The arguments of the calls among [evs], in order. *)
Definition invoked {A} (evs : list (TC.event A)) : list A :=
  flat_map (fun e => match e with TC.Invoke a => [a] | TC.Tick => [] end) evs.

(** A burst: calls, each followed by a number of milliseconds. *)
Definition burst_events {A} (burst : list (A * nat)) : list (TC.event A) :=
  flat_map (fun '(a, gap) => TC.Invoke a :: repeat TC.Tick gap) burst.

(** What a render does to the debounced function: the call of the effect. *)
Definition effect_events (s : TC.State) : list (TC.event jsstring) :=
  match TC.useEffect_call s with
  | Some t => [TC.Invoke t]
  | None => []
  end.

(** What is awaited after the bytes consumed so far: a started sequence
    accounts for one more code unit. *)
Definition utf8_owed (st : utf8_state) : nat :=
  if (bytes_needed st =? 0)%N then 0%nat else 1%nat.

(** [toggleModelDropdown] (lines 199-201) *)
Definition toggleModelDropdown (s : TC.State) : TC.State :=
  TC.setShowModelDropdown (negb (TC.showModelDropdown s)) s.

(** A file of unknown category. *)
Definition a_bin : File :=
  {| name := "a.bin"; type := "application/octet-stream"; bytes := [x48; x69] |}.

(** A note with no media type. *)
Definition a_md : File :=
  {| name := "notes.md"; type := EmptyString; bytes := [x48; x69] |}.

(** ** The component at work

    [TokenizerInput] between its renders: the state of its [useState] cells,
    the debounced function [useCallback] holds (line 157) with the
    [selectedModel] its [handleAnalyzeText] has captured, and the timer queue
    of the page.  [func] is called with a text; the request it makes carries
    the captured model (line 93), so a dispatch is recorded as the pair.
    What a dispatched [handleAnalyzeText] then does to the state is
    [TC.handleAnalyzeText]: it sets [stats], [error] and [isProcessing],
    none of which the memoised function or the effect depends on, so the
    dispatches are listed here and not run.  The text area is disabled while
    a request is in progress (line 301); the events below allow typing at
    any time, which is more than the page does. *)

Record Page := {
  ui : TC.State;
  captured_model : string;
  running : TC.Running (jsstring * string)
}.

(** What the user and the clock do. *)
Inductive ui_event :=
| TextTyped (v : jsstring)        (* [onChange] of the text area, line 300 *)
| ModelPicked (modelId : string)  (* [onClick] of a model, line 229 *)
| FilePicked (f : File)           (* [onChange] of the file input, line 247 *)
| FileCleared                     (* [onClick] of the X button, line 262 *)
| Millisecond.                    (* one millisecond passes *)

(** [Object.is] on two texts. *)
Fixpoint same_text (a b : jsstring) : bool :=
  match a, b with
  | [], [] => true
  | x :: a', y :: b' => (x =? y)%N && same_text a' b'
  | _, _ => false
  end.

(** The state an event handler sets, and whether it sets another [file]
    object.  The text area is rendered when no file is selected (line 293)
    and the X button when one is (line 255). *)
Definition handler (e : ui_event) (s : TC.State) : option (TC.State * bool) :=
  match e with
  | TextTyped v =>
      match TC.file s with
      | None => Some (TC.setText v s, false)
      | Some _ => None
      end
  | ModelPicked modelId => Some (TC.selectModel modelId s, false)
  | FilePicked f => Some (TC.handleFileChange (Some f) s, true)
  | FileCleared =>
      match TC.file s with
      | Some _ => Some (TC.clearFile s, true)
      | None => None
      end
  | Millisecond => None
  end.

(** [useCallback(..., [selectedModel])]: the function made by this render is
    adopted when [selectedModel] is not the one of the render before. *)
Definition adopts (s s' : TC.State) : bool :=
  negb (String.eqb (TC.selectedModel s') (TC.selectedModel s)).

(** [useEffect(..., [text, debouncedHandleAnalyzeText, file])]: the effect
    runs after a render in which one of the three has changed. *)
Definition effect_runs (s s' : TC.State) (file_changed : bool) : bool :=
  negb (same_text (TC.text s') (TC.text s)) || adopts s s' || file_changed.

(** The call the effect makes after the render of [s'], if any. *)
Definition effect_call (p : Page) (s' : TC.State) (file_changed : bool)
  : list (TC.event (jsstring * string)) :=
  if effect_runs (ui p) s' file_changed then
    match TC.useEffect_call s' with
    | Some t =>
        [TC.Invoke (t, if adopts (ui p) s' then TC.selectedModel s'
                       else captured_model p)]
    | None => []
    end
  else [].

(** The render of [s'] and its effect.  An adopted function is a new
    closure: its [timeoutId] is undefined; the timers of the page stay. *)
Definition rerender (p : Page) (s' : TC.State) (file_changed : bool) : Page :=
  let r := running p in
  let r1 :=
    if adopts (ui p) s' then
      {| TC.closure := TC.debouncedHandleAnalyzeText;
         TC.timers := TC.timers r;
         TC.dispatched := TC.dispatched r |}
    else r in
  {| ui := s';
     captured_model :=
       if adopts (ui p) s' then TC.selectedModel s' else captured_model p;
     running := TC.run r1 (effect_call p s' file_changed) |}.

Definition ui_step (p : Page) (e : ui_event) : Page :=
  match e with
  | Millisecond =>
      {| ui := ui p;
         captured_model := captured_model p;
         running := TC.step (running p) TC.Tick |}
  | _ =>
      match handler e (ui p) with
      | Some (s', file_changed) => rerender p s' file_changed
      | None => p
      end
  end.

Definition ui_run (p : Page) (evs : list ui_event) : Page :=
  fold_left ui_step evs p.

(** The component after its first render: the effect has run and made no
    call, the text being empty. *)
Definition page0 : Page :=
  {| ui := TC.initial;
     captured_model := TC.selectedModel TC.initial;
     running := TC.start TC.debouncedHandleAnalyzeText |}.

(** What an event sends to the debounced function the component holds. *)
Definition sent_by (p : Page) (e : ui_event)
  : list (TC.event (jsstring * string)) :=
  match e with
  | Millisecond => [TC.Tick]
  | _ =>
      match handler e (ui p) with
      | Some (s', file_changed) => effect_call p s' file_changed
      | None => []
      end
  end.

Fixpoint sent (p : Page) (evs : list ui_event)
  : list (TC.event (jsstring * string)) :=
  match evs with
  | [] => []
  | e :: evs' => sent_by p e ++ sent (ui_step p e) evs'
  end.

(** The event leaves the selected model [m] as it is. *)
Definition keeps_model (m : string) (e : ui_event) : Prop :=
  match e with
  | ModelPicked modelId => modelId = m
  | _ => True
  end.

(** Texts typed one after the other into a text area that shows [current]:
    each is not empty and is not the text before it. *)
Fixpoint typed_anew (current : jsstring) (texts : list jsstring) : Prop :=
  match texts with
  | [] => True
  | v :: texts' => truthy v = true /\ v <> current /\ typed_anew v texts'
  end.

(** Keystrokes, each followed by a number of milliseconds. *)
Definition keystrokes (burst : list (jsstring * nat)) : list ui_event :=
  flat_map (fun '(v, gap) => TextTyped v :: repeat Millisecond gap) burst.

(** The model all pages start with, and another one of the list. *)
Definition sonnet_3_7 : string := "claude-3-7-sonnet-20250219".
Definition opus_3 : string := "claude-3-opus-20240229".

(** * Properties *)

Arguments TextDecoder_decode : simpl never.
Arguments base64 : simpl never.
Arguments includes : simpl never.

(** ** The monad and the estimators *)

Lemma try_catch_ret_result {A} (m : M A) (a : A) :
  result (try_catch m (ret a)) =
  Some match result m with Some r => r | None => a end.
Proof. destruct m as [[r|] log]; reflexivity. Qed.

Lemma try_catch_ret_calls {A} (m : M A) (a : A) :
  calls (try_catch m (ret a)) = calls m.
Proof.
  destruct m as [[r|] log]; simpl; [reflexivity | apply app_nil_r].
Qed.

Lemma getGPT4oTokenCount_eq w t :
  getGPT4oTokenCount w t = (Some (secondary w t), [CallGPT4o t]).
Proof.
  unfold getGPT4oTokenCount, secondary, call.
  destruct (gpt4o_encode w t); reflexivity.
Qed.

Lemma getGeminiTokenCount_eq w t :
  getGeminiTokenCount w t = (Some (tertiary w t), tertiary_calls w t).
Proof.
  unfold getGeminiTokenCount, tertiary, tertiary_calls, call.
  destruct (GEMINI_API_KEY w) as [key|]; [|reflexivity].
  destruct (truthy_str key); [|reflexivity].
  destruct (gemini_countTokens w key _ t); reflexivity.
Qed.

Lemma count_text_eq w t fc m g ge :
  count_text w t fc m g ge =
  (match anthropic_countTokens w ["token-counting-2024-11-01"] m (TextContent t) with
   | Some n => Some (Response_json
                       {| input_tokens := n; fileChars := fc; model := m;
                          gpt4oTokens := g; geminiTokens := ge |})
   | None => None
   end,
   [primary_text_call m t]).
Proof.
  unfold count_text, call, primary_text_call.
  destruct (anthropic_countTokens w _ m (TextContent t)); reflexivity.
Qed.

(** ** The paths of [POST] *)

(** The response to a text payload, and the calls made for it. *)
Lemma POST_body_text_payload w req t fc m :
  text_payload req = Some (t, fc, m) ->
  POST_body w req =
  (match anthropic_countTokens w ["token-counting-2024-11-01"] m (TextContent t) with
   | Some n => Some (Response_json
                       {| input_tokens := n; fileChars := fc; model := m;
                          gpt4oTokens := secondary w t;
                          geminiTokens := tertiary w t |})
   | None => None
   end,
   CallGPT4o t :: tertiary_calls w t ++ [primary_text_call m t]).
Proof.
  unfold text_payload, POST_body, multipart, text_kind.
  destruct (includes _ _).
  - destruct (req_formData req) as [fd|]; [|discriminate].
    cbn [attempt bind].
    destruct (form_file fd) as [f|]; [|discriminate].
    destruct (strict_eq (form_fileType fd) "pdf"); [discriminate|].
    destruct (strict_eq (form_fileType fd) "image"); [discriminate|].
    intros [= <- <- <-].
    rewrite getGPT4oTokenCount_eq. cbn [bind].
    rewrite getGeminiTokenCount_eq. cbn [bind].
    rewrite count_text_eq.
    destruct (anthropic_countTokens w _ _ _); reflexivity.
  - destruct (req_json req) as [jd|]; [|discriminate].
    intros [= <- <- <-]. cbn [attempt bind].
    rewrite getGPT4oTokenCount_eq. cbn [bind].
    rewrite getGeminiTokenCount_eq. cbn [bind].
    rewrite count_text_eq.
    destruct (anthropic_countTokens w _ _ _); reflexivity.
Qed.

Lemma strict_eq_true a k : strict_eq a k = true -> a = Some k.
Proof.
  destruct a as [s|]; simpl; [|discriminate].
  intros H. apply String.eqb_eq in H. now subst.
Qed.

(** A form with a file declared [pdf]: one document count. *)
Lemma POST_body_pdf w req fd f :
  multipart req = true -> req_formData req = Some fd ->
  form_file fd = Some f -> strict_eq (form_fileType fd) "pdf" = true ->
  let m := or_else (form_model fd) DEFAULT_MODEL in
  let betas := ["token-counting-2024-11-01"; "pdfs-2024-09-25"] in
  let c := DocumentBlock "application/pdf" (base64 (bytes f)) in
  POST_body w req =
  (match anthropic_countTokens w betas m c with
   | Some n => Some (Response_json
                       {| input_tokens := n;
                          fileChars := Z.of_nat (length (bytes f)); model := m;
                          gpt4oTokens := None; geminiTokens := None |})
   | None => None
   end,
   [CallAnthropic betas m c]).
Proof.
  unfold multipart, POST_body. intros -> -> . cbn [attempt bind].
  intros -> ->. cbn zeta. unfold call.
  destruct (anthropic_countTokens w _ _ _); reflexivity.
Qed.

(** A form with a file declared [image]: one image count. *)
Lemma POST_body_image w req fd f :
  multipart req = true -> req_formData req = Some fd ->
  form_file fd = Some f -> strict_eq (form_fileType fd) "image" = true ->
  let m := or_else (form_model fd) DEFAULT_MODEL in
  let betas := ["token-counting-2024-11-01"] in
  let c := ImageBlock (mediaType (type f)) (base64 (bytes f)) in
  POST_body w req =
  (match anthropic_countTokens w betas m c with
   | Some n => Some (Response_json
                       {| input_tokens := n;
                          fileChars := Z.of_nat (length (bytes f)); model := m;
                          gpt4oTokens := None; geminiTokens := None |})
   | None => None
   end,
   [CallAnthropic betas m c]).
Proof.
  unfold multipart, POST_body. intros -> -> . cbn [attempt bind].
  intros -> Himg. rewrite Himg.
  apply strict_eq_true in Himg. rewrite Himg. cbn [strict_eq String.eqb Ascii.eqb Bool.eqb].
  cbn zeta. unfold call.
  destruct (anthropic_countTokens w _ _ _); reflexivity.
Qed.

(** Every request is a text payload, or is answered from a single primary
    call with both estimators null, or is not parsed. *)
Lemma POST_body_paths w req :
  (exists t fc m, text_payload req = Some (t, fc, m)) \/
  (exists betas m c fc,
     POST_body w req =
     (match anthropic_countTokens w betas m c with
      | Some n => Some (Response_json
                          {| input_tokens := n; fileChars := fc; model := m;
                             gpt4oTokens := None; geminiTokens := None |})
      | None => None
      end,
      [CallAnthropic betas m c])) \/
  POST_body w req = (None, []).
Proof.
  destruct (multipart req) eqn:Hm.
  - destruct (req_formData req) as [fd|] eqn:Hfd.
    + destruct (form_file fd) as [f|] eqn:Hf.
      * destruct (strict_eq (form_fileType fd) "pdf") eqn:Hpdf.
        { right; left. do 4 eexists. now apply (POST_body_pdf w req fd f). }
        destruct (strict_eq (form_fileType fd) "image") eqn:Himg.
        { right; left. do 4 eexists. now apply (POST_body_image w req fd f). }
        left. unfold text_payload, text_kind.
        rewrite Hm, Hfd, Hf, Hpdf, Himg. simpl. eauto.
      * right; left. unfold multipart in Hm. unfold POST_body.
        rewrite Hm, Hfd. cbn [attempt bind]. rewrite Hf, count_text_eq.
        exists ["token-counting-2024-11-01"],
               (or_else (form_model fd) DEFAULT_MODEL), (TextContent []), 0.
        reflexivity.
    + right; right. unfold multipart in Hm. unfold POST_body.
      now rewrite Hm, Hfd.
  - destruct (req_json req) as [jd|] eqn:Hjd.
    + left. unfold text_payload. rewrite Hm, Hjd. eauto.
    + right; right. unfold multipart in Hm. unfold POST_body.
      now rewrite Hm, Hjd.
Qed.

Lemma POST_result w req :
  result (POST w req) =
  Some match result (POST_body w req) with
       | Some r => r
       | None => Response_json_500 "Failed to count tokens"
       end.
Proof. apply try_catch_ret_result. Qed.

Lemma POST_calls w req : calls (POST w req) = calls (POST_body w req).
Proof. apply try_catch_ret_calls. Qed.

Lemma tertiary_calls_not_primary w t betas m c :
  ~ In (CallAnthropic betas m c) (tertiary_calls w t).
Proof.
  unfold tertiary_calls.
  destruct (GEMINI_API_KEY w) as [key|]; [destruct (truthy_str key)|];
    simpl; intros H; try tauto.
  destruct H as [H|[]]; discriminate.
Qed.

(** ** The route: errors *)

(** C4. Whenever the primary vendor call made for a request throws, the
    response of the endpoint is the one built with status 500 whose body has
    the single field [error] with the text "Failed to count tokens": no count
    and no other field is returned. *)
Theorem primary_failure_is_500 w req betas m c :
  In (CallAnthropic betas m c) (calls (POST w req)) ->
  anthropic_countTokens w betas m c = None ->
  result (POST w req) = Some (Response_json_500 "Failed to count tokens") /\
  status (Response_json_500 "Failed to count tokens") = 500.
Proof.
  intros Hin Hthrow. split; [|reflexivity].
  rewrite POST_result. rewrite POST_calls in Hin.
  destruct (POST_body_paths w req)
    as [(t & fc & m' & Ht) | [(b & m' & c' & fc & Hp) | Hu]].
  - rewrite (POST_body_text_payload w req t fc m' Ht) in *.
    cbn [calls snd result fst] in *.
    destruct Hin as [Hin | Hin]; [discriminate|].
    apply in_app_or in Hin. destruct Hin as [Hin | Hin].
    + now apply tertiary_calls_not_primary in Hin.
    + destruct Hin as [Hin | []]. unfold primary_text_call in Hin.
      injection Hin as <- <- <-. now rewrite Hthrow.
  - rewrite Hp in *. cbn [calls snd result fst] in *.
    destruct Hin as [Hin | []]. injection Hin as <- <- <-.
    now rewrite Hthrow.
  - now rewrite Hu.
Qed.

Lemma primary_failure_is_500_witness :
  result (POST primary_down (TC.text_request hi "m")) =
    Some (Response_json_500 "Failed to count tokens") /\
  status (Response_json_500 "Failed to count tokens") = 500.
Proof.
  apply (primary_failure_is_500 primary_down (TC.text_request hi "m")
           ["token-counting-2024-11-01"] "m" (TextContent hi)).
  - vm_compute. tauto.
  - reflexivity.
Defined.

(** C5. For every text payload (a JSON text, or a file whose declared kind is
    neither pdf nor image) for which the primary count succeeds, the request
    succeeds with that count whatever the two estimators do: a failing
    encoder leaves [gpt4oTokens] null, an absent credential or a failing
    call of the third vendor leaves [geminiTokens] null, and each of the two
    fields depends on its own vendor only. *)
Theorem estimator_failure_is_null_field w req t fc m n :
  text_payload req = Some (t, fc, m) ->
  anthropic_countTokens w ["token-counting-2024-11-01"] m (TextContent t) = Some n ->
  exists data,
    result (POST w req) = Some (Response_json data) /\
    status (Response_json data) = 200 /\
    input_tokens data = n /\
    gpt4oTokens data = secondary w t /\
    geminiTokens data = tertiary w t /\
    (gpt4o_encode w t = None -> gpt4oTokens data = None) /\
    (GEMINI_API_KEY w = None -> geminiTokens data = None) /\
    (forall key, GEMINI_API_KEY w = Some key ->
       gemini_countTokens w key "gemini-1.5-flash" t = None ->
       geminiTokens data = None).
Proof.
  intros Ht Hn. rewrite POST_result.
  rewrite (POST_body_text_payload w req t fc m Ht). cbn [result fst].
  rewrite Hn. eexists. split; [reflexivity|]. cbn.
  repeat split.
  - unfold secondary. now intros ->.
  - unfold tertiary. now intros ->.
  - unfold tertiary. intros key -> ->. now destruct (truthy_str key).
Qed.

Lemma estimator_failure_is_null_field_witness :
  exists data,
    result (POST primary_only
              (TC.file_request hundred_x "claude-3-opus-20240229" TC.Unknown))
      = Some (Response_json data) /\
    input_tokens data = 12 /\
    gpt4oTokens data = None /\ geminiTokens data = None.
Proof.
  destruct (estimator_failure_is_null_field primary_only
              (TC.file_request hundred_x "claude-3-opus-20240229" TC.Unknown)
              (TextDecoder_decode (bytes hundred_x)) 100
              "claude-3-opus-20240229" 12)
    as (data & Hr & _ & Hn & _ & _ & Hg & Hk & _).
  - reflexivity.
  - reflexivity.
  - exists data. split; [exact Hr|]. split; [exact Hn|].
    split; [apply Hg | apply Hk]; reflexivity.
Defined.

(** ** The route: which payloads get which counts *)

Lemma text_payload_declared req fd t fc m :
  multipart req = true -> req_formData req = Some fd ->
  text_payload req = Some (t, fc, m) -> text_kind fd = true.
Proof.
  unfold text_payload. intros -> ->.
  destruct (form_file fd); [|discriminate].
  now destruct (text_kind fd).
Qed.

(** C6. For every multipart request whose declared kind is pdf or image, in
    every world, [gpt4oTokens] and [geminiTokens] are null in the success
    response and neither estimator is called; and a success response where
    one of the two is not null answers a text payload. *)
Theorem estimators_only_for_text w req :
  (forall fd,
     multipart req = true -> req_formData req = Some fd ->
     strict_eq (form_fileType fd) "pdf" = true \/
     strict_eq (form_fileType fd) "image" = true ->
     (forall data,
        result (POST w req) = Some (Response_json data) ->
        gpt4oTokens data = None /\ geminiTokens data = None) /\
     (forall c, In c (calls (POST w req)) ->
        exists betas m k, c = CallAnthropic betas m k)) /\
  (forall data,
     result (POST w req) = Some (Response_json data) ->
     gpt4oTokens data <> None \/ geminiTokens data <> None ->
     exists t fc m, text_payload req = Some (t, fc, m)).
Proof.
  rewrite POST_result, POST_calls.
  destruct (POST_body_paths w req)
    as [(t & fc & m & Ht) | [(b & m & c & fc & Hp) | Hu]].
  - split; [|eauto]. intros fd Hm Hfd Hkind. exfalso.
    pose proof (text_payload_declared req fd t fc m Hm Hfd Ht) as Hk.
    unfold text_kind in Hk.
    destruct Hkind as [H | H]; rewrite H in Hk; simpl in Hk;
      [discriminate | now rewrite andb_false_r in Hk].
  - rewrite Hp. cbn [result fst calls snd].
    destruct (anthropic_countTokens w b m c) as [n|]; split.
    + intros fd _ _ _. split.
      * intros data [= <-]. now cbn.
      * intros c' [<- | []]. eauto.
    + intros data [= <-] [H | H]; now elim H.
    + intros fd _ _ _. split; [discriminate|].
      intros c' [<- | []]. eauto.
    + discriminate.
  - rewrite Hu. cbn [result fst calls snd]. split.
    + intros fd _ _ _. split; [discriminate | intros c' []].
    + discriminate.
Qed.

Lemma estimators_only_for_text_witness :
  exists data,
    result (POST all_up (TC.file_request a_pdf "m" TC.Pdf))
      = Some (Response_json data) /\
    gpt4oTokens data = None /\ geminiTokens data = None.
Proof.
  eexists. split; [reflexivity|].
  refine (proj1 (proj1 (estimators_only_for_text all_up
                          (TC.file_request a_pdf "m" TC.Pdf))
                   {| form_file := Some (TC.as_part a_pdf);
                      form_model := Some "m";
                      form_fileType := Some "pdf" |}
                   eq_refl eq_refl (or_introl eq_refl)) _ eq_refl).
Defined.

(** C8. For every multipart request with a file whose declared kind is
    image, the only vendor call is the primary image count, sent with the
    base64 of the bytes and a media type that is the file's own when it is
    image/png, image/gif or image/webp and image/jpeg otherwise; when that
    call answers, the response is the success response with its count, the
    byte length of the file as [fileChars] and both estimator fields null,
    and no other success response is given. *)
Theorem image_media_type_and_size w req fd f :
  multipart req = true -> req_formData req = Some fd ->
  form_file fd = Some f -> strict_eq (form_fileType fd) "image" = true ->
  calls (POST w req) =
    [CallAnthropic ["token-counting-2024-11-01"]
       (or_else (form_model fd) DEFAULT_MODEL)
       (ImageBlock (mediaType (type f)) (base64 (bytes f)))] /\
  (type f = "image/png" \/ type f = "image/gif" \/ type f = "image/webp" ->
   mediaType (type f) = type f) /\
  (type f <> "image/png" -> type f <> "image/gif" -> type f <> "image/webp" ->
   mediaType (type f) = "image/jpeg") /\
  (forall n,
     anthropic_countTokens w ["token-counting-2024-11-01"]
       (or_else (form_model fd) DEFAULT_MODEL)
       (ImageBlock (mediaType (type f)) (base64 (bytes f))) = Some n ->
     result (POST w req) =
       Some (Response_json
               {| input_tokens := n;
                  fileChars := Z.of_nat (length (bytes f));
                  model := or_else (form_model fd) DEFAULT_MODEL;
                  gpt4oTokens := None; geminiTokens := None |})) /\
  (forall data, result (POST w req) = Some (Response_json data) ->
     fileChars data = Z.of_nat (length (bytes f)) /\
     gpt4oTokens data = None /\ geminiTokens data = None).
Proof.
  intros Hm Hfd Hf Himg.
  pose proof (POST_body_image w req fd f Hm Hfd Hf Himg) as Hp. cbn zeta in Hp.
  rewrite POST_calls, POST_result, Hp. cbn [calls snd result fst].
  split; [reflexivity|]. unfold mediaType. split; [|split; [|split]].
  - intros [-> | [-> | ->]]; reflexivity.
  - intros Hpng Hgif Hwebp.
    apply String.eqb_neq in Hpng, Hgif, Hwebp. now rewrite Hpng, Hgif, Hwebp.
  - intros n Hn. fold (mediaType (type f)) in *. now rewrite Hn.
  - intros data Hr.
    destruct (anthropic_countTokens w _ _ _); [|discriminate].
    injection Hr as <-. cbn. auto.
Qed.

Lemma image_media_type_and_size_witness :
  calls (POST all_up (TC.file_request a_bmp "m" TC.Image)) =
    [CallAnthropic ["token-counting-2024-11-01"] "m"
       (ImageBlock "image/jpeg" (base64 (bytes a_bmp)))] /\
  calls (POST all_up (TC.file_request a_png "m" TC.Image)) =
    [CallAnthropic ["token-counting-2024-11-01"] "m"
       (ImageBlock "image/png" (base64 (bytes a_png)))] /\
  result (POST all_up (TC.file_request a_png "m" TC.Image)) =
    Some (Response_json
            {| input_tokens := 15; fileChars := 4; model := "m";
               gpt4oTokens := None; geminiTokens := None |}).
Proof.
  split; [|split].
  - exact (proj1 (image_media_type_and_size all_up
                    (TC.file_request a_bmp "m" TC.Image)
                    {| form_file := Some (TC.as_part a_bmp);
                       form_model := Some "m";
                       form_fileType := Some "image" |}
                    (TC.as_part a_bmp)
                    eq_refl eq_refl eq_refl eq_refl)).
  - exact (proj1 (image_media_type_and_size all_up
                    (TC.file_request a_png "m" TC.Image)
                    {| form_file := Some (TC.as_part a_png);
                       form_model := Some "m";
                       form_fileType := Some "image" |}
                    (TC.as_part a_png)
                    eq_refl eq_refl eq_refl eq_refl)).
  - exact (proj1 (proj2 (proj2 (proj2 (image_media_type_and_size all_up
                    (TC.file_request a_png "m" TC.Image)
                    {| form_file := Some (TC.as_part a_png);
                       form_model := Some "m";
                       form_fileType := Some "image" |}
                    (TC.as_part a_png)
                    eq_refl eq_refl eq_refl eq_refl)))) 15 eq_refl).
Defined.

(** ** Decoding ASCII *)

Lemma utf8_run_ascii bs :
  ascii_only bs -> utf8_run utf8_initial bs = map Byte.to_N bs.
Proof.
  induction 1 as [|b bs Hb _ IH]; [reflexivity|].
  cbn [utf8_run map]. unfold utf8_handler, utf8_lead. cbn [bytes_needed utf8_initial].
  cbn [N.eqb].
  assert ((Byte.to_N b <=? 0x7F)%N = true) as -> by (apply N.leb_le; lia).
  cbn [app]. now rewrite IH.
Qed.

Lemma strip_bom_ascii bs : ascii_only bs -> strip_bom bs = bs.
Proof.
  destruct 1 as [|a bs Ha Hbs]; [reflexivity|].
  destruct bs as [|b [|c rest]]; try reflexivity.
  cbn [strip_bom].
  destruct (Byte.eqb a xef) eqn:E; [|reflexivity].
  apply Byte.byte_dec_bl in E. subst a. vm_compute in Ha. discriminate.
Qed.

Lemma flat_map_utf16_small cps :
  Forall (fun cp => (cp < 0x10000)%N) cps -> flat_map utf16_units cps = cps.
Proof.
  induction 1 as [|cp cps Hcp _ IH]; [reflexivity|].
  cbn [flat_map]. rewrite IH. unfold utf16_units.
  apply N.ltb_lt in Hcp. now rewrite Hcp.
Qed.

(** An ASCII file decodes to as many code units as it has bytes. *)
Lemma TextDecoder_decode_ascii bs :
  ascii_only bs -> TextDecoder_decode bs = map Byte.to_N bs.
Proof.
  intros H. unfold TextDecoder_decode.
  rewrite (strip_bom_ascii bs H), (utf8_run_ascii bs H).
  apply flat_map_utf16_small. apply Forall_map.
  eapply Forall_impl; [|exact H]. cbn. intros b Hb. lia.
Qed.

Lemma TextDecoder_decode_ascii_length bs :
  ascii_only bs -> js_length (TextDecoder_decode bs) = Z.of_nat (length bs).
Proof.
  intros H. unfold js_length.
  now rewrite (TextDecoder_decode_ascii bs H), length_map.
Qed.

(** ** The handlers, by outcome of the request *)

Lemma handleAnalyzeText_blank fetch s t :
  truthy (trim t) = false ->
  TC.handleAnalyzeText fetch s t =
  (Some (TC.setError None (TC.setStats TC.no_stats s)), []).
Proof. unfold TC.handleAnalyzeText. now intros ->. Qed.

Lemma handleAnalyzeText_ok fetch s t data log :
  truthy (trim t) = true ->
  fetch (TC.text_request t (TC.selectedModel s)) = (Some (Response_json data), log) ->
  TC.handleAnalyzeText fetch s t =
  (Some (TC.setIsProcessing false
           (TC.setError None
              (TC.setStats
                 {| TC.tokens := Some (if input_tokens data >? 7
                                       then js_minus (input_tokens data) 7 else 0);
                    TC.gpt4oTokens := gpt4oTokens data;
                    TC.geminiTokens := geminiTokens data;
                    TC.chars := js_length t;
                    TC.fileName := None |}
                 (TC.setIsProcessing true s)))),
   log).
Proof.
  unfold TC.handleAnalyzeText. intros -> Hf. cbn [negb TC.selectedModel TC.setIsProcessing].
  rewrite Hf. cbn. now rewrite !app_nil_r.
Qed.

Lemma handleAnalyzeText_failed fetch s t r log :
  truthy (trim t) = true ->
  fetch (TC.text_request t (TC.selectedModel s)) = (r, log) ->
  (forall data, r <> Some (Response_json data)) ->
  TC.handleAnalyzeText fetch s t =
  (Some (TC.setIsProcessing false
           (TC.setStats
              {| TC.tokens := None; TC.gpt4oTokens := None;
                 TC.geminiTokens := None;
                 TC.chars := js_length t; TC.fileName := None |}
              (TC.setError (Some "Failed to analyze text. Please try again.")
                 (TC.setIsProcessing true s)))),
   log).
Proof.
  unfold TC.handleAnalyzeText. intros -> Hf Hr. cbn [negb TC.selectedModel TC.setIsProcessing].
  rewrite Hf. destruct r as [[data | e]|].
  - now elim (Hr data).
  - cbn. now rewrite !app_nil_r.
  - cbn. now rewrite !app_nil_r.
Qed.

Lemma handleAnalyzeFile_ok fetch s f data log :
  TC.file s = Some f ->
  fetch (TC.file_request f (TC.selectedModel s) (TC.fileType s))
    = (Some (Response_json data), log) ->
  TC.handleAnalyzeFile fetch s =
  (Some (TC.setIsProcessing false
           (TC.setError None
              (TC.setStats
                 {| TC.tokens := Some (if input_tokens data >? 7
                                       then js_minus (input_tokens data) 7 else 0);
                    TC.gpt4oTokens := gpt4oTokens data;
                    TC.geminiTokens := geminiTokens data;
                    TC.chars := if fileChars data =? 0 then 0 else fileChars data;
                    TC.fileName := Some (name f) |}
                 (TC.setIsProcessing true s)))),
   log).
Proof.
  unfold TC.handleAnalyzeFile. intros -> Hf.
  cbn [TC.selectedModel TC.fileType TC.setIsProcessing].
  rewrite Hf. cbn. now rewrite !app_nil_r.
Qed.

Lemma handleAnalyzeFile_failed fetch s f r log :
  TC.file s = Some f ->
  fetch (TC.file_request f (TC.selectedModel s) (TC.fileType s)) = (r, log) ->
  (forall data, r <> Some (Response_json data)) ->
  TC.handleAnalyzeFile fetch s =
  (Some (TC.setIsProcessing false
           (TC.setStats TC.no_stats
              (TC.setError (Some "Failed to analyze file. Please try again.")
                 (TC.setIsProcessing true s)))),
   log).
Proof.
  unfold TC.handleAnalyzeFile. intros -> Hf Hr.
  cbn [TC.selectedModel TC.fileType TC.setIsProcessing].
  rewrite Hf. destruct r as [[data | e]|].
  - now elim (Hr data).
  - cbn. now rewrite !app_nil_r.
  - cbn. now rewrite !app_nil_r.
Qed.

(** ** File sizes *)

Lemma file_request_text_payload f m k :
  k = TC.Text \/ k = TC.Unknown ->
  text_payload (TC.file_request f m k) =
  Some (TextDecoder_decode (bytes f), Z.of_nat (length (bytes f)),
        or_else (Some m) DEFAULT_MODEL).
Proof. intros [-> | ->]; reflexivity. Qed.

(** C1, as the code has it.  For every multipart request with a file whose
    declared kind is text (or unknown, or anything but pdf and image, or
    absent), the [fileChars] of the success response is the byte length of
    the file; it is the character length of the decoded text when every byte
    of the file is ASCII. *)
Theorem text_file_fileChars_is_byte_length w req fd f data :
  multipart req = true -> req_formData req = Some fd ->
  form_file fd = Some f -> text_kind fd = true ->
  result (POST w req) = Some (Response_json data) ->
  fileChars data = Z.of_nat (length (bytes f)) /\
  (ascii_only (bytes f) ->
   fileChars data = js_length (TextDecoder_decode (bytes f))).
Proof.
  intros Hm Hfd Hf Hk Hr.
  assert (text_payload req =
          Some (TextDecoder_decode (bytes f), Z.of_nat (length (bytes f)),
                or_else (form_model fd) DEFAULT_MODEL)) as Ht.
  { unfold text_payload. now rewrite Hm, Hfd, Hf, Hk. }
  rewrite POST_result, (POST_body_text_payload w req _ _ _ Ht) in Hr.
  cbn [result fst] in Hr.
  destruct (anthropic_countTokens w _ _ _); [|discriminate].
  injection Hr as <-. cbn [fileChars]. split; [reflexivity|].
  intros Hascii. now rewrite TextDecoder_decode_ascii_length.
Qed.

Lemma text_file_fileChars_is_byte_length_witness :
  exists data,
    result (POST primary_only (TC.file_request hundred_x "m" TC.Text))
      = Some (Response_json data) /\
    fileChars data = 100 /\
    fileChars data = js_length (TextDecoder_decode (bytes hundred_x)).
Proof.
  eexists. split; [reflexivity|].
  pose proof (text_file_fileChars_is_byte_length primary_only
                (TC.file_request hundred_x "m" TC.Text)
                {| form_file := Some (TC.as_part hundred_x);
                   form_model := Some "m";
                   form_fileType := Some "text" |}
                (TC.as_part hundred_x) _
                eq_refl eq_refl eq_refl eq_refl eq_refl) as [Hlen Hchars].
  split; [exact Hlen|]. apply Hchars.
  unfold ascii_only. cbn [bytes TC.as_part hundred_x].
  apply Forall_forall. intros b Hb. apply repeat_spec in Hb. subst b.
  vm_compute. reflexivity.
Defined.

(** C1 as stated fails: a text file holding the two bytes of "é" is answered
    with [fileChars] 2, and its decoded text has one character. *)
Lemma text_file_fileChars_not_character_length :
  exists data,
    result (POST all_up (TC.file_request one_e_acute "m" TC.Text))
      = Some (Response_json data) /\
    fileChars data = 2 /\
    js_length (TextDecoder_decode (bytes one_e_acute)) = 1 /\
    fileChars data <> js_length (TextDecoder_decode (bytes one_e_acute)).
Proof.
  eexists. split; [reflexivity|]. repeat split. discriminate.
Qed.

(** C2, as the code has it.  Selecting a text file of 100 bytes and
    submitting it, when the primary count succeeds: the [fileChars] of the
    response is 100, the byte length, and the [chars] the client then shows
    is that same 100; it is the number of characters of the decoded file
    when every byte of the file is ASCII. *)
Theorem hundred_byte_text_file w s0 f n :
  TC.getFileTypeCategory f = TC.Text ->
  length (bytes f) = 100%nat ->
  anthropic_countTokens w ["token-counting-2024-11-01"]
    (or_else (Some (TC.selectedModel s0)) DEFAULT_MODEL)
    (TextContent (TextDecoder_decode (bytes f))) = Some n ->
  let s := TC.handleFileChange (Some f) s0 in
  (exists data,
     result (POST w (TC.file_request f (TC.selectedModel s) (TC.fileType s)))
       = Some (Response_json data) /\
     fileChars data = 100) /\
  (exists s',
     result (TC.handleAnalyzeFile (POST w) s) = Some s' /\
     TC.chars (TC.stats s') = 100 /\
     (ascii_only (bytes f) ->
      TC.chars (TC.stats s') = js_length (TextDecoder_decode (bytes f)))).
Proof.
  intros Hcat Hlen Hn s.
  assert (TC.file s = Some f) as Hfile.
  { subst s. unfold TC.handleFileChange. now destruct (TC.getFileTypeCategory f). }
  assert (TC.fileType s = TC.Text) as Htype.
  { subst s. unfold TC.handleFileChange. now rewrite Hcat. }
  assert (TC.selectedModel s = TC.selectedModel s0) as Hmodel.
  { subst s. unfold TC.handleFileChange. now destruct (TC.getFileTypeCategory f). }
  pose proof (file_request_text_payload f (TC.selectedModel s) TC.Text
                (or_introl eq_refl)) as Ht.
  assert (POST w (TC.file_request f (TC.selectedModel s) (TC.fileType s)) =
          (Some (Response_json
                   {| input_tokens := n; fileChars := 100;
                      model := or_else (Some (TC.selectedModel s)) DEFAULT_MODEL;
                      gpt4oTokens := secondary w (TextDecoder_decode (bytes f));
                      geminiTokens := tertiary w (TextDecoder_decode (bytes f)) |}),
           calls (POST w (TC.file_request f (TC.selectedModel s) (TC.fileType s)))))
    as HPOST.
  { rewrite Htype. unfold POST.
    rewrite (POST_body_text_payload w _ _ _ _ Ht), Hmodel, Hn, Hlen.
    reflexivity. }
  split.
  - eexists. rewrite HPOST. split; reflexivity.
  - rewrite (handleAnalyzeFile_ok (POST w) s f _ _ Hfile HPOST).
    eexists. split; [reflexivity|]. cbn. split; [reflexivity|].
    intros Hascii. rewrite TextDecoder_decode_ascii_length by assumption.
    now rewrite Hlen.
Qed.

Lemma hundred_byte_text_file_witness :
  exists s',
    result (TC.handleAnalyzeFile (POST primary_only)
              (TC.handleFileChange (Some hundred_x) TC.initial)) = Some s' /\
    TC.chars (TC.stats s') = 100.
Proof.
  destruct (hundred_byte_text_file primary_only TC.initial hundred_x 12
              eq_refl eq_refl eq_refl) as [_ (s' & Hs' & Hchars & _)].
  exists s'. split; [exact Hs' | exact Hchars].
Defined.

(** C2 as stated fails: a text file of 100 bytes holding "é" fifty times is
    answered with [fileChars] 100 and the client shows 100 as [chars], but
    its decoded text has 50 characters. *)
Lemma hundred_byte_file_chars_not_character_count :
  length (bytes fifty_e_acute) = 100%nat /\
  TC.getFileTypeCategory fifty_e_acute = TC.Text /\
  js_length (TextDecoder_decode (bytes fifty_e_acute)) = 50 /\
  exists s',
    result (TC.handleAnalyzeFile (POST all_up)
              (TC.handleFileChange (Some fifty_e_acute) TC.initial)) = Some s' /\
    TC.chars (TC.stats s') = 100 /\
    TC.chars (TC.stats s') <>
      js_length (TextDecoder_decode (bytes fifty_e_acute)).
Proof.
  split; [reflexivity|]. split; [reflexivity|]. split; [vm_compute; reflexivity|].
  eexists. split; [vm_compute; reflexivity|].
  split; [reflexivity|]. vm_compute. discriminate.
Qed.

(** ** Blank text *)

Lemma trimStart_blank t : forallb is_white_space t = true -> trimStart t = [].
Proof.
  induction t as [|c t IH]; [reflexivity|].
  cbn [forallb trimStart]. intros H. apply andb_prop in H as [-> Ht]. auto.
Qed.

Lemma trim_blank t : forallb is_white_space t = true -> trim t = [].
Proof.
  intros H. unfold trim, trimEnd. now rewrite (trimStart_blank t H).
Qed.

Lemma trimStart_keeps_visible l c r :
  is_white_space c = false -> trimStart (l ++ c :: r) <> [].
Proof.
  intros Hc. induction l as [|x l IH]; cbn [app trimStart].
  - now rewrite Hc.
  - now destruct (is_white_space x).
Qed.

Lemma trimStart_visible t :
  forallb is_white_space t = false ->
  exists c u, trimStart t = c :: u /\ is_white_space c = false.
Proof.
  induction t as [|x t IH]; [discriminate|].
  cbn [forallb trimStart]. destruct (is_white_space x) eqn:Hx; cbn [andb]; eauto.
Qed.

(** [!text.trim()] holds exactly of the empty and the whitespace-only texts. *)
Lemma blank_iff t : truthy (trim t) = false <-> forallb is_white_space t = true.
Proof.
  split.
  - intros H. destruct (forallb is_white_space t) eqn:Hall; [reflexivity|].
    destruct (trimStart_visible t Hall) as (c & u & Hcu & Hc).
    unfold trim, trimEnd in H. rewrite Hcu in H. cbn [rev] in H.
    pose proof (trimStart_keeps_visible (rev u) c [] Hc) as Hne.
    destruct (trimStart (rev u ++ [c])) as [|y ys]; [now elim Hne|].
    cbn [rev] in H. destruct (rev ys ++ [y]) eqn:E; [|discriminate].
    now apply app_eq_nil in E as [_ E].
  - intros H. now rewrite (trim_blank t H).
Qed.

(** C3, as the code has it.  [handleAnalyzeText], given an empty or
    whitespace-only text, sends no request, so that no vendor is called, and
    sets the stats to null counts and 0 characters.  The route has no such
    short-circuit: a request whose body does not parse gets the 500 response
    without a vendor call, and a JSON request with an empty text is counted
    by every vendor like any other text. *)
Theorem blank_text_is_not_sent :
  (forall fetch s t,
     forallb is_white_space t = true ->
     exists s',
       TC.handleAnalyzeText fetch s t = (Some s', []) /\
       TC.tokens (TC.stats s') = None /\
       TC.gpt4oTokens (TC.stats s') = None /\
       TC.geminiTokens (TC.stats s') = None /\
       TC.chars (TC.stats s') = 0 /\
       TC.error s' = None) /\
  (forall w req,
     (if multipart req then req_formData req = None else req_json req = None) ->
     POST w req = (Some (Response_json_500 "Failed to count tokens"), [])) /\
  (forall w req jd,
     multipart req = false -> req_json req = Some jd ->
     or_empty (json_text jd) = [] ->
     calls (POST w req) =
       CallGPT4o [] :: tertiary_calls w [] ++
       [primary_text_call (or_else (json_model jd) DEFAULT_MODEL) []]).
Proof.
  split; [|split].
  - intros fetch s t Ht. apply blank_iff in Ht.
    rewrite (handleAnalyzeText_blank fetch s t Ht).
    eexists. split; [reflexivity|]. cbn. auto.
  - intros w req H. unfold POST, POST_body. fold (multipart req).
    destruct (multipart req); now rewrite H.
  - intros w req jd Hm Hjd Ht.
    assert (text_payload req = Some ([], 0, or_else (json_model jd) DEFAULT_MODEL)) as Hp.
    { unfold text_payload. now rewrite Hm, Hjd, Ht. }
    now rewrite POST_calls, (POST_body_text_payload w req _ _ _ Hp).
Qed.

Lemma blank_text_is_not_sent_witness :
  exists s',
    TC.handleAnalyzeText (POST all_up) TC.initial [0x20; 0x0A]%N = (Some s', []) /\
    TC.tokens (TC.stats s') = None /\
    TC.chars (TC.stats s') = 0.
Proof.
  destruct (proj1 blank_text_is_not_sent (POST all_up) TC.initial
              [0x20; 0x0A]%N eq_refl)
    as (s' & Hs' & Htokens & _ & _ & Hchars & _).
  exists s'. auto.
Defined.

(** C3 as stated fails on the route: a JSON request with the empty text is
    sent to the three vendors, and answered with their counts when they
    answer, with the 500 response when the primary one throws. *)
Lemma empty_text_reaches_the_vendors :
  POST all_up (TC.text_request [] "claude-3-opus-20240229") =
  (Some (Response_json
           {| input_tokens := 7; fileChars := 0;
              model := "claude-3-opus-20240229";
              gpt4oTokens := Some 0; geminiTokens := Some 1 |}),
   [CallGPT4o [];
    CallGemini "gemini-1.5-flash" [];
    CallAnthropic ["token-counting-2024-11-01"] "claude-3-opus-20240229"
      (TextContent [])]) /\
  POST primary_down (TC.text_request [] "claude-3-opus-20240229") =
  (Some (Response_json_500 "Failed to count tokens"),
   [CallGPT4o [];
    CallGemini "gemini-1.5-flash" [];
    CallAnthropic ["token-counting-2024-11-01"] "claude-3-opus-20240229"
      (TextContent [])]).
Proof. split; reflexivity. Qed.

(** The effect does not call the debounced function when the text has
    become empty, so [handleAnalyzeText] is not reached for it. *)
Remark cleared_text_is_not_analyzed s : TC.useEffect_call (TC.setText [] s) = None.
Proof. unfold TC.useEffect_call. cbn. now destruct (TC.file s). Qed.

(** ** The displayed counts *)

Lemma overhead_floor n : (if n >? 7 then n - 7 else 0) = Z.max (n - 7) 0.
Proof. destruct (Z.gtb_spec n 7); lia. Qed.

Lemma round_double_exact x : Z.abs x <= MAX_EXACT -> round_double x = x.
Proof.
  intros H. unfold round_double. apply Z.leb_le in H. now rewrite H.
Qed.

Lemma round_double_nonneg x : 0 <= x -> 0 <= round_double x.
Proof.
  intros Hx. unfold round_double.
  destruct (Z.abs x <=? MAX_EXACT); [exact Hx|].
  set (q := 2 ^ (Z.log2 (Z.abs x) - 52)).
  assert (0 <= q) as Hq by (apply Z.pow_nonneg; lia).
  assert (0 <= Z.abs x / q) as Hk.
  { destruct (Z.eq_dec q 0) as [-> | Hne]; [now rewrite Z.div_0_r|].
    apply Z.div_pos; lia. }
  apply Z.mul_nonneg_nonneg; [apply Z.sgn_nonneg; exact Hx|].
  apply Z.mul_nonneg_nonneg; [|exact Hq].
  destruct (_ <? _); [exact Hk|].
  destruct (_ <? _); [lia|]. destruct (Z.even _); lia.
Qed.

(** What a handler stores for an [input_tokens]. *)
Lemma stored_tokens n :
  0 <= (if n >? 7 then js_minus n 7 else 0) /\
  (n <= MAX_EXACT -> (if n >? 7 then js_minus n 7 else 0) = Z.max (n - 7) 0).
Proof.
  unfold js_minus. destruct (Z.gtb_spec n 7) as [Hgt | Hle].
  - split; [apply round_double_nonneg; lia|].
    intros Hmax. rewrite round_double_exact by lia. lia.
  - split; lia.
Qed.

(** C7, as the code has it.  For every [input_tokens] in a success response,
    either handler stores, and the panel then shows, a Claude count that is
    never negative; and for every [input_tokens] up to [2^53], the integers a
    double holds exactly, that count is [input_tokens - 7] when
    [input_tokens > 7] and 0 otherwise, that is [max (input_tokens - 7) 0]. *)
Theorem displayed_claude_tokens fetch s data :
  (forall t log,
     truthy (trim t) = true ->
     fetch (TC.text_request t (TC.selectedModel s)) = (Some (Response_json data), log) ->
     exists s' n,
       result (TC.handleAnalyzeText fetch s t) = Some s' /\
       TC.tokens (TC.stats s') = Some n /\
       TC.claude_cell (TC.render s') = TC.Number n /\
       0 <= n /\
       (input_tokens data <= MAX_EXACT -> n = Z.max (input_tokens data - 7) 0)) /\
  (forall f log,
     TC.file s = Some f ->
     fetch (TC.file_request f (TC.selectedModel s) (TC.fileType s))
       = (Some (Response_json data), log) ->
     exists s' n,
       result (TC.handleAnalyzeFile fetch s) = Some s' /\
       TC.tokens (TC.stats s') = Some n /\
       TC.claude_cell (TC.render s') = TC.Number n /\
       0 <= n /\
       (input_tokens data <= MAX_EXACT -> n = Z.max (input_tokens data - 7) 0)) /\
  (input_tokens data > 7 -> Z.max (input_tokens data - 7) 0 = input_tokens data - 7) /\
  (input_tokens data <= 7 -> Z.max (input_tokens data - 7) 0 = 0).
Proof.
  destruct (stored_tokens (input_tokens data)) as [Hpos Hexact].
  split; [|split; [|split; lia]].
  - intros t log Ht Hf. rewrite (handleAnalyzeText_ok fetch s t data log Ht Hf).
    do 2 eexists. split; [reflexivity|]. cbn. auto.
  - intros f log Hfile Hf. rewrite (handleAnalyzeFile_ok fetch s f data log Hfile Hf).
    do 2 eexists. split; [reflexivity|]. cbn. auto.
Qed.

Lemma displayed_claude_tokens_witness :
  (exists s',
     result (TC.handleAnalyzeText (POST all_up) TC.initial hi) = Some s' /\
     TC.tokens (TC.stats s') = Some 2) /\
  (exists s',
     result (TC.handleAnalyzeFile
               (fun _ => (Some (Response_json
                  {| input_tokens := 3; fileChars := 4; model := "m";
                     gpt4oTokens := None; geminiTokens := None |}), []))
               (TC.handleFileChange (Some a_pdf) TC.initial)) = Some s' /\
     TC.tokens (TC.stats s') = Some 0).
Proof.
  split.
  - destruct (proj1 (displayed_claude_tokens (POST all_up) TC.initial
                       {| input_tokens := 9; fileChars := 0;
                          model := "claude-3-7-sonnet-20250219";
                          gpt4oTokens := Some 2; geminiTokens := Some 1 |})
                hi _ eq_refl eq_refl) as (s' & n & Hs' & Ht & _ & _ & Hn).
    exists s'. split; [exact Hs'|]. rewrite Ht, Hn; [reflexivity|].
    cbn. unfold MAX_EXACT. lia.
  - destruct (proj1 (proj2 (displayed_claude_tokens
                (fun _ => (Some (Response_json
                   {| input_tokens := 3; fileChars := 4; model := "m";
                      gpt4oTokens := None; geminiTokens := None |}), []))
                (TC.handleFileChange (Some a_pdf) TC.initial)
                {| input_tokens := 3; fileChars := 4; model := "m";
                   gpt4oTokens := None; geminiTokens := None |}))
                a_pdf [] eq_refl eq_refl) as (s' & n & Hs' & Ht & _ & _ & Hn).
    exists s'. split; [exact Hs'|]. rewrite Ht, Hn; [reflexivity|].
    cbn. unfold MAX_EXACT. lia.
Defined.

(** C7 as stated fails beyond [2^53]: for [input_tokens = 2^53 + 8], which is
    a double, [input_tokens - 7] is not one, and the handler stores and the
    panel shows [2^53], not [2^53 + 1]. *)
Lemma displayed_claude_tokens_rounded :
  exists s',
    result (TC.handleAnalyzeText
              (fun _ => (Some (Response_json
                 {| input_tokens := 9007199254741000; fileChars := 0;
                    model := "m"; gpt4oTokens := None; geminiTokens := None |}),
                 []))
              TC.initial hi) = Some s' /\
    TC.tokens (TC.stats s') = Some 9007199254740992 /\
    TC.claude_cell (TC.render s') = TC.Number 9007199254740992 /\
    Z.max (9007199254741000 - 7) 0 = 9007199254740993.
Proof.
  eexists. split; [vm_compute; reflexivity|]. repeat split.
Qed.

Lemma estimators_shown_cells s :
  estimators_shown s ->
  TC.gpt4o_cell (TC.render s) =
    Some (TC.estimator_cell (TC.isProcessing s) (TC.gpt4oTokens (TC.stats s))) /\
  TC.gemini_cell (TC.render s) =
    Some (TC.estimator_cell (TC.isProcessing s) (TC.geminiTokens (TC.stats s))).
Proof.
  unfold estimators_shown, TC.render, TC.TokenMetrics.
  cbn [TC.gpt4o_cell TC.gemini_cell].
  intros [-> | [-> | ->]].
  - now cbn.
  - destruct (TC.file s); now cbn.
  - rewrite orb_true_r. now cbn.
Qed.

Lemma estimators_hidden_cells s :
  ~ estimators_shown s ->
  TC.gpt4o_cell (TC.render s) = None /\ TC.gemini_cell (TC.render s) = None.
Proof.
  unfold estimators_shown, TC.render, TC.TokenMetrics.
  cbn [TC.gpt4o_cell TC.gemini_cell]. intros H.
  destruct (TC.file s); [|tauto].
  destruct (TC.fileType s); try tauto;
    (destruct (TC.no_name (TC.fileName (TC.stats s))); [tauto | now cbn]).
Qed.

(** C10, as the code has it.  When no request is in progress, a null [tokens]
    metric is shown as the number 0, and a null [gpt4oTokens] or
    [geminiTokens] is shown as the dash provided its cell is rendered, which
    is when no file is selected, the selected file is a text, or the stats
    have no file name; otherwise these two cells are not rendered at all.
    While a request is in progress every rendered count (Claude, GPT-4o,
    Gemini, characters) shows the pulsing dots; when none is, the characters
    and a non-null [tokens] are shown as they are.  The first case covers the initial state, the state after clearing the
    file or analysing a blank text, and the state either handler leaves
    after a failed request. *)
Theorem null_counts_display fetch s :
  (TC.isProcessing s = false -> TC.tokens (TC.stats s) = None ->
   TC.claude_cell (TC.render s) = TC.Number 0) /\
  (TC.isProcessing s = false -> estimators_shown s ->
   (TC.gpt4oTokens (TC.stats s) = None ->
    TC.gpt4o_cell (TC.render s) = Some TC.Dash) /\
   (TC.geminiTokens (TC.stats s) = None ->
    TC.gemini_cell (TC.render s) = Some TC.Dash)) /\
  (~ estimators_shown s ->
   TC.gpt4o_cell (TC.render s) = None /\ TC.gemini_cell (TC.render s) = None) /\
  (TC.isProcessing s = true ->
   TC.claude_cell (TC.render s) = TC.Pulse /\
   TC.chars_cell (TC.render s) = TC.Pulse /\
   (estimators_shown s ->
    TC.gpt4o_cell (TC.render s) = Some TC.Pulse /\
    TC.gemini_cell (TC.render s) = Some TC.Pulse)) /\
  (TC.isProcessing s = false ->
   TC.chars_cell (TC.render s) = TC.Number (TC.chars (TC.stats s)) /\
   (forall n, TC.tokens (TC.stats s) = Some n ->
      TC.claude_cell (TC.render s) = TC.Number n)) /\
  (let shows_zero_and_dashes s' :=
     TC.tokens (TC.stats s') = None /\
     TC.claude_cell (TC.render s') = TC.Number 0 /\
     TC.gpt4o_cell (TC.render s') = Some TC.Dash /\
     TC.gemini_cell (TC.render s') = Some TC.Dash in
   shows_zero_and_dashes TC.initial /\
   (TC.isProcessing s = false -> shows_zero_and_dashes (TC.clearFile s)) /\
   (forall t, TC.isProcessing s = false -> truthy (trim t) = false ->
      exists s', result (TC.handleAnalyzeText fetch s t) = Some s' /\
                 shows_zero_and_dashes s') /\
   (forall t, truthy (trim t) = true ->
      (forall data, result (fetch (TC.text_request t (TC.selectedModel s)))
                      <> Some (Response_json data)) ->
      exists s', result (TC.handleAnalyzeText fetch s t) = Some s' /\
                 shows_zero_and_dashes s') /\
   (forall f, TC.file s = Some f ->
      (forall data,
         result (fetch (TC.file_request f (TC.selectedModel s) (TC.fileType s)))
           <> Some (Response_json data)) ->
      exists s', result (TC.handleAnalyzeFile fetch s) = Some s' /\
                 shows_zero_and_dashes s')).
Proof.
  split; [|split; [|split; [|split; [|split]]]].
  - intros Hp Ht. unfold TC.render, TC.TokenMetrics. cbn [TC.claude_cell].
    now rewrite Hp, Ht.
  - intros Hp Hshown.
    destruct (estimators_shown_cells s Hshown) as [-> ->]. rewrite Hp.
    split; now intros ->.
  - apply estimators_hidden_cells.
  - intros Hp. split; [|split].
    + unfold TC.render, TC.TokenMetrics. cbn [TC.claude_cell]. now rewrite Hp.
    + unfold TC.render, TC.TokenMetrics. cbn [TC.chars_cell]. now rewrite Hp.
    + intros Hshown. destruct (estimators_shown_cells s Hshown) as [-> ->].
      now rewrite Hp.
  - intros Hp. split.
    + unfold TC.render, TC.TokenMetrics. cbn [TC.chars_cell]. now rewrite Hp.
    + intros n Hn. unfold TC.render, TC.TokenMetrics. cbn [TC.claude_cell].
      now rewrite Hp, Hn.
  - cbv zeta. split; [|split; [|split; [|split]]].
    + repeat split.
    + intros Hp. unfold TC.render, TC.TokenMetrics. cbn. rewrite Hp. auto.
    + intros t Hp Ht. rewrite (handleAnalyzeText_blank fetch s t Ht).
      eexists. split; [reflexivity|].
      unfold TC.render, TC.TokenMetrics. cbn. rewrite Hp, orb_true_r. auto.
    + intros t Ht Hfail.
      destruct (fetch (TC.text_request t (TC.selectedModel s))) as [r log] eqn:Hf.
      rewrite (handleAnalyzeText_failed fetch s t r log Ht Hf Hfail).
      eexists. split; [reflexivity|].
      unfold TC.render, TC.TokenMetrics. cbn. rewrite orb_true_r. auto.
    + intros f Hfile Hfail.
      destruct (fetch (TC.file_request f (TC.selectedModel s) (TC.fileType s)))
        as [r log] eqn:Hf.
      rewrite (handleAnalyzeFile_failed fetch s f r log Hfile Hf Hfail).
      eexists. split; [reflexivity|].
      unfold TC.render, TC.TokenMetrics. cbn. rewrite orb_true_r. auto.
Qed.

Lemma null_counts_display_witness :
  TC.claude_cell (TC.render TC.initial) = TC.Number 0 /\
  TC.gpt4o_cell (TC.render TC.initial) = Some TC.Dash /\
  exists s',
    result (TC.handleAnalyzeText (POST primary_down) TC.initial hi) = Some s' /\
    TC.claude_cell (TC.render s') = TC.Number 0 /\
    TC.gemini_cell (TC.render s') = Some TC.Dash.
Proof.
  pose proof (null_counts_display (POST primary_down) TC.initial)
    as (Hzero & Hdash & _ & _ & _ & _ & _ & _ & Hfailed & _).
  split; [apply Hzero; reflexivity|].
  split; [apply Hdash; [reflexivity | left; reflexivity | reflexivity]|].
  destruct (Hfailed hi eq_refl) as (s' & Hs' & _ & Hc & _ & Hg).
  - intros data. vm_compute. discriminate.
  - exists s'. auto.
Defined.

(** C10 as stated fails: once a PDF is selected the two estimator counts are
    null and no request is in progress, but their cells are not rendered, so
    no dash is shown; and while the first request is in progress [tokens] is
    null and the Claude cell shows the pulsing dots, not 0. *)
Lemma null_estimators_not_always_a_dash :
  TC.isProcessing (TC.handleFileChange (Some a_pdf) TC.initial) = false /\
  TC.gpt4oTokens (TC.stats (TC.handleFileChange (Some a_pdf) TC.initial)) = None /\
  TC.geminiTokens (TC.stats (TC.handleFileChange (Some a_pdf) TC.initial)) = None /\
  TC.gpt4o_cell (TC.render (TC.handleFileChange (Some a_pdf) TC.initial)) = None /\
  TC.gemini_cell (TC.render (TC.handleFileChange (Some a_pdf) TC.initial)) = None /\
  TC.tokens (TC.stats (TC.setIsProcessing true TC.initial)) = None /\
  TC.claude_cell (TC.render (TC.setIsProcessing true TC.initial)) = TC.Pulse.
Proof. repeat split. Qed.

(** ** The debounced analysis *)

Section DebounceFacts.

Context {A : Type}.
Implicit Types (s : TC.Running A) (e : TC.event A) (evs : list (TC.event A)).

Lemma latest_app evs e :
  TC.latest (evs ++ [e]) =
  match e with TC.Invoke a => Some a | TC.Tick => TC.latest evs end.
Proof.
  induction evs as [|x evs IH]; cbn [app TC.latest].
  - now destruct e.
  - rewrite IH. now destruct e.
Qed.

Lemma run_app s evs evs' : TC.run s (evs ++ evs') = TC.run (TC.run s evs) evs'.
Proof. apply fold_left_app. Qed.

(** A call from a settled state leaves exactly the new callback. *)
Lemma invoke_settled evs s a :
  settled evs s ->
  TC.step s (TC.Invoke a) =
  {| TC.closure := {| TC.delay := TC.delay (TC.closure s);
                      TC.timeoutId := Some (TC.next_id (TC.timers s)) |};
     TC.timers :=
       {| TC.now := TC.now (TC.timers s);
          TC.next_id := S (TC.next_id (TC.timers s));
          TC.pending :=
            [{| TC.timer_id := TC.next_id (TC.timers s);
                TC.due := (TC.now (TC.timers s) + TC.delay (TC.closure s))%nat;
                TC.args := a |}] |};
     TC.dispatched := TC.dispatched s |}.
Proof.
  intros [Hnone | (t & Hone & Hid & _ & _)];
    unfold TC.step, TC.invoke, TC.setTimeout, TC.clearTimeout.
  - destruct (TC.timeoutId (TC.closure s)); cbn; now rewrite Hnone.
  - rewrite Hid. cbn. rewrite Hone. cbn. now rewrite Nat.eqb_refl.
Qed.

Lemma step_settled evs s e : settled evs s -> settled (evs ++ [e]) (TC.step s e).
Proof.
  intros Hs. destruct e as [a|].
  - rewrite (invoke_settled evs s a Hs). right. eexists.
    split; [reflexivity|]. cbn. rewrite latest_app. auto.
  - destruct Hs as [Hnone | (t & Hone & Hid & Hlatest & Hlt)];
      unfold TC.step, TC.tick.
    + left. cbn. now rewrite Hnone.
    + cbn. rewrite Hone. cbn.
      destruct (TC.due t <=? S (TC.now (TC.timers s)))%nat; cbn.
      * now left.
      * right. exists t. rewrite latest_app. auto.
Qed.

Lemma run_settled d evs : settled evs (TC.run (TC.start d) evs).
Proof.
  induction evs as [|e evs IH] using rev_ind.
  - now left.
  - rewrite run_app. now apply step_settled.
Qed.

(** Time passing before the callback is due changes the clock only. *)
Lemma ticks_before_due k : forall s t,
  TC.pending (TC.timers s) = [t] ->
  (TC.now (TC.timers s) + k < TC.due t)%nat ->
  TC.run s (repeat TC.Tick k) =
  {| TC.closure := TC.closure s;
     TC.timers := {| TC.now := (TC.now (TC.timers s) + k)%nat;
                     TC.next_id := TC.next_id (TC.timers s);
                     TC.pending := [t] |};
     TC.dispatched := TC.dispatched s |}.
Proof.
  induction k as [|k IH]; intros [c [n i p] ds] t Hp Hk; cbn in Hp, Hk; subst p.
  - cbn. now rewrite Nat.add_0_r.
  - cbn [repeat TC.run fold_left]. fold (TC.run (A := A)).
    unfold TC.step at 2, TC.tick. cbn.
    assert ((TC.due t <=? S n)%nat = false) as -> by (apply Nat.leb_gt; lia).
    cbn. rewrite app_nil_r.
    change (fold_left TC.step (repeat TC.Tick k) ?x) with (TC.run x (repeat TC.Tick k)).
    rewrite (IH _ t); cbn; [|reflexivity|lia].
    now rewrite Nat.add_succ_r.
Qed.

(** The tick at which the callback is due runs it and empties the queue. *)
Lemma tick_at_due s t :
  TC.pending (TC.timers s) = [t] ->
  (TC.due t <= S (TC.now (TC.timers s)))%nat ->
  TC.step s TC.Tick =
  {| TC.closure := TC.closure s;
     TC.timers := {| TC.now := S (TC.now (TC.timers s));
                     TC.next_id := TC.next_id (TC.timers s);
                     TC.pending := [] |};
     TC.dispatched := TC.dispatched s ++ [TC.args t] |}.
Proof.
  intros Hp Hdue. unfold TC.step, TC.tick. rewrite Hp. cbn.
  apply Nat.leb_le in Hdue. now rewrite Hdue.
Qed.

End DebounceFacts.

Lemma step_delay {A} (s : TC.Running A) e :
  TC.delay (TC.closure (TC.step s e)) = TC.delay (TC.closure s).
Proof. destruct e; reflexivity. Qed.

Lemma run_delay {A} d (evs : list (TC.event A)) :
  TC.delay (TC.closure (TC.run (TC.start d) evs)) = TC.delay d.
Proof.
  induction evs as [|e evs IH] using rev_ind; [reflexivity|].
  rewrite run_app. cbn [TC.run fold_left]. now rewrite step_delay.
Qed.

(** ** The clock, for any debounced function *)

Section DebounceClock.

Context {A : Type}.
Implicit Types (s : TC.Running A) (t : TC.timer A) (evs : list (TC.event A)).

Lemma invoked_app evs evs' : invoked (evs ++ evs') = invoked evs ++ invoked evs'.
Proof. apply flat_map_app. Qed.

Lemma latest_invoked evs a : TC.latest evs = Some a -> In a (invoked evs).
Proof.
  induction evs as [|e evs IH]; [discriminate|].
  cbn [TC.latest invoked flat_map]. fold (invoked evs).
  destruct (TC.latest evs) as [b|].
  - intros [= <-]. apply in_or_app. right. now apply IH.
  - destruct e as [b|]; [|discriminate]. intros [= <-]. now left.
Qed.

(** What is scheduled is due in the future, within the delay. *)
Lemma run_pending_future d (evs : list (TC.event A)) :
  Forall (fun t =>
            (TC.due t <= TC.now (TC.timers (TC.run (TC.start d) evs)) + TC.delay d)%nat /\
            ((0 < TC.delay d)%nat ->
             (TC.now (TC.timers (TC.run (TC.start d) evs)) < TC.due t)%nat))
         (TC.pending (TC.timers (TC.run (TC.start d) evs))).
Proof.
  induction evs as [|e evs IH] using rev_ind; [constructor|].
  rewrite run_app. pose proof (run_settled d evs) as Hs.
  pose proof (run_delay d evs) as Hd.
  set (s := TC.run (TC.start d) evs) in *.
  cbn [TC.run fold_left]. destruct e as [a|].
  - rewrite (invoke_settled evs s a Hs). cbn. rewrite Hd.
    constructor; [|constructor]. cbn. lia.
  - unfold TC.step, TC.tick. cbn. rewrite Forall_forall in *.
    intros t Hin. apply filter_In in Hin. destruct Hin as [Hin Hdue].
    apply negb_true_iff, Nat.leb_gt in Hdue.
    specialize (IH t Hin). lia.
Qed.

(** With nothing scheduled, time only moves the clock. *)
Lemma ticks_idle k : forall s,
  TC.pending (TC.timers s) = [] ->
  TC.run s (repeat TC.Tick k) =
  {| TC.closure := TC.closure s;
     TC.timers := {| TC.now := (TC.now (TC.timers s) + k)%nat;
                     TC.next_id := TC.next_id (TC.timers s);
                     TC.pending := [] |};
     TC.dispatched := TC.dispatched s |}.
Proof.
  induction k as [|k IH]; intros [c [n i p] ds] Hp; cbn in Hp; subst p.
  - cbn. now rewrite Nat.add_0_r.
  - cbn [repeat TC.run fold_left].
    change (fold_left TC.step (repeat TC.Tick k) ?x) with (TC.run x (repeat TC.Tick k)).
    rewrite IH by reflexivity. cbn. now rewrite app_nil_r, Nat.add_succ_r.
Qed.

(** One scheduled callback runs once its time has come. *)
Lemma ticks_past_due k s t :
  TC.pending (TC.timers s) = [t] ->
  (TC.now (TC.timers s) < TC.due t <= TC.now (TC.timers s) + k)%nat ->
  TC.dispatched (TC.run s (repeat TC.Tick k)) = TC.dispatched s ++ [TC.args t] /\
  TC.pending (TC.timers (TC.run s (repeat TC.Tick k))) = [].
Proof.
  intros Hp Hdue.
  set (j := (TC.due t - TC.now (TC.timers s) - 1)%nat).
  replace k with (j + (1 + (k - S j)))%nat by lia.
  rewrite !repeat_app, !run_app.
  rewrite (ticks_before_due j s t Hp) by lia.
  cbn [repeat TC.run fold_left].
  rewrite (tick_at_due _ t); [|reflexivity | cbn; lia].
  change (fold_left TC.step (repeat TC.Tick ?n) ?x) with (TC.run x (repeat TC.Tick n)).
  rewrite ticks_idle by reflexivity. split; reflexivity.
Qed.

(** Two scheduled callbacks run in the order of their times. *)
Lemma ticks_past_two k : forall s t t',
  TC.pending (TC.timers s) = [t; t'] ->
  (TC.now (TC.timers s) < TC.due t)%nat ->
  (TC.due t <= TC.due t')%nat ->
  (TC.due t' <= TC.now (TC.timers s) + k)%nat ->
  TC.dispatched (TC.run s (repeat TC.Tick k)) =
    TC.dispatched s ++ [TC.args t; TC.args t'] /\
  TC.pending (TC.timers (TC.run s (repeat TC.Tick k))) = [].
Proof.
  induction k as [|k IH]; intros [c [n i p] ds] t t' Hp Hnow Hle Hk;
    cbn in Hp, Hnow, Hk; subst p; [lia|].
  cbn [repeat TC.run fold_left].
  change (fold_left TC.step (repeat TC.Tick k) ?x) with (TC.run x (repeat TC.Tick k)).
  unfold TC.step at 2, TC.tick. cbn.
  destruct (TC.due t <=? S n)%nat eqn:E; destruct (TC.due t' <=? S n)%nat eqn:E'; cbn.
  - rewrite ticks_idle by reflexivity. split; reflexivity.
  - apply Nat.leb_gt in E'.
    destruct (ticks_past_due k
                {| TC.closure := c;
                   TC.timers := {| TC.now := S n; TC.next_id := i;
                                   TC.pending := [t'] |};
                   TC.dispatched := ds ++ [TC.args t] |} t' eq_refl)
      as [Hd Hq]; [cbn; lia|].
    rewrite Hd, Hq. cbn. now rewrite <- app_assoc.
  - apply Nat.leb_gt in E. apply Nat.leb_le in E'. lia.
  - apply Nat.leb_gt in E.
    destruct (IH {| TC.closure := c;
                    TC.timers := {| TC.now := S n; TC.next_id := i;
                                    TC.pending := [t; t'] |};
                    TC.dispatched := ds ++ [] |} t t' eq_refl)
      as [Hd Hq]; cbn; try lia.
    rewrite Hd, Hq. cbn. now rewrite app_nil_r.
Qed.

End DebounceClock.

(** ** The component: renders, effects and the clock *)

Lemma same_text_eq a : forall b, same_text a b = true <-> a = b.
Proof.
  induction a as [|x a IH]; intros [|y b]; cbn; try easy.
  rewrite andb_true_iff, N.eqb_eq, IH. split.
  - now intros [-> ->].
  - now intros [= -> ->].
Qed.

Lemma same_text_neq a b : a <> b -> same_text a b = false.
Proof.
  intros H. destruct (same_text a b) eqn:E; [|reflexivity].
  now apply same_text_eq in E.
Qed.

Lemma ui_run_app p evs evs' :
  ui_run p (evs ++ evs') = ui_run (ui_run p evs) evs'.
Proof. apply fold_left_app. Qed.

Lemma sent_app evs : forall p evs',
  sent p (evs ++ evs') = sent p evs ++ sent (ui_run p evs) evs'.
Proof.
  induction evs as [|e evs IH]; intros p evs'; [reflexivity|].
  cbn [app sent ui_run fold_left]. rewrite IH. apply app_assoc.
Qed.

(** Time passing in the component is time passing for its timers. *)
Lemma ui_run_milliseconds k : forall p,
  ui (ui_run p (repeat Millisecond k)) = ui p /\
  captured_model (ui_run p (repeat Millisecond k)) = captured_model p /\
  running (ui_run p (repeat Millisecond k)) =
    TC.run (running p) (repeat TC.Tick k).
Proof.
  induction k as [|k IH]; intros p; [easy|].
  cbn [repeat ui_run fold_left TC.run].
  change (fold_left ui_step (repeat Millisecond k) ?x)
    with (ui_run x (repeat Millisecond k)).
  destruct (IH (ui_step p Millisecond)) as (-> & -> & ->). easy.
Qed.

Lemma sent_milliseconds k : forall p, sent p (repeat Millisecond k) = repeat TC.Tick k.
Proof.
  induction k as [|k IH]; intros p; [reflexivity|].
  cbn [repeat sent sent_by app]. now rewrite IH.
Qed.

Lemma adopts_same s s' :
  TC.selectedModel s' = TC.selectedModel s -> adopts s s' = false.
Proof. intros H. unfold adopts. now rewrite H, String.eqb_refl. Qed.

Lemma adopts_other s s' :
  TC.selectedModel s' <> TC.selectedModel s -> adopts s s' = true.
Proof.
  intros H. unfold adopts. apply negb_true_iff. now apply String.eqb_neq.
Qed.

(** Every handler but [selectModel] leaves the selected model. *)
Lemma handler_model e s s' fc :
  keeps_model (TC.selectedModel s) e -> handler e s = Some (s', fc) ->
  TC.selectedModel s' = TC.selectedModel s.
Proof.
  destruct e as [v|modelId|f| |]; cbn; intros Hk H.
  - destruct (TC.file s); [discriminate|]. now injection H as <- _.
  - now injection H as <- _.
  - injection H as <- _. now destruct (TC.getFileTypeCategory f).
  - destruct (TC.file s); [|discriminate]. now injection H as <- _.
  - discriminate.
Qed.

(** As long as the model stays, the component calls one debounced function. *)
Lemma ui_step_same_model p e :
  captured_model p = TC.selectedModel (ui p) ->
  keeps_model (TC.selectedModel (ui p)) e ->
  running (ui_step p e) = TC.run (running p) (sent_by p e) /\
  TC.selectedModel (ui (ui_step p e)) = TC.selectedModel (ui p) /\
  captured_model (ui_step p e) = captured_model p /\
  Forall (fun a => snd a = TC.selectedModel (ui p)) (invoked (sent_by p e)).
Proof.
  intros Hc Hk.
  assert (forall s' fc, handler e (ui p) = Some (s', fc) ->
            running (rerender p s' fc) = TC.run (running p) (effect_call p s' fc) /\
            TC.selectedModel (ui (rerender p s' fc)) = TC.selectedModel (ui p) /\
            captured_model (rerender p s' fc) = captured_model p /\
            Forall (fun a => snd a = TC.selectedModel (ui p))
                   (invoked (effect_call p s' fc))) as Hrender.
  { intros s' fc H. pose proof (handler_model e (ui p) s' fc Hk H) as Hm.
    unfold rerender, effect_call. rewrite (adopts_same _ _ Hm). cbn.
    repeat split; try assumption.
    destruct (effect_runs (ui p) s' fc); [|constructor].
    destruct (TC.useEffect_call s'); repeat constructor. cbn. exact Hc. }
  destruct e as [v|modelId|f| |]; unfold ui_step, sent_by;
    try (destruct (handler _ (ui p)) as [[s' fc]|] eqn:H;
         [now apply Hrender | repeat split; constructor]).
  repeat split; constructor.
Qed.

Lemma ui_run_same_model evs : forall p,
  captured_model p = TC.selectedModel (ui p) ->
  Forall (keeps_model (TC.selectedModel (ui p))) evs ->
  running (ui_run p evs) = TC.run (running p) (sent p evs) /\
  TC.selectedModel (ui (ui_run p evs)) = TC.selectedModel (ui p) /\
  captured_model (ui_run p evs) = captured_model p /\
  Forall (fun a => snd a = TC.selectedModel (ui p)) (invoked (sent p evs)).
Proof.
  induction evs as [|e evs IH]; intros p Hc Hk.
  - repeat split; constructor.
  - inversion Hk as [|? ? He Hrest]; subst.
    destruct (ui_step_same_model p e Hc He) as (Hr & Hm & Hc' & Hi).
    destruct (IH (ui_step p e)) as (Hr' & Hm' & Hc'' & Hi').
    + congruence.
    + now rewrite Hm.
    + cbn [ui_run fold_left sent].
      change (fold_left ui_step evs ?x) with (ui_run x evs).
      rewrite Hr', Hr, Hm', Hm, Hc'', Hc', run_app.
      repeat split. unfold invoked. rewrite flat_map_app.
      apply Forall_app. split; [exact Hi|]. fold (invoked (sent (ui_step p e) evs)).
      now rewrite <- Hm.
Qed.

(** A keystroke that changes the text to a non-empty one calls the debounced
    function with it. *)
Lemma keystroke_call p v :
  TC.file (ui p) = None -> truthy v = true -> v <> TC.text (ui p) ->
  sent_by p (TextTyped v) = [TC.Invoke (v, captured_model p)] /\
  ui (ui_step p (TextTyped v)) = TC.setText v (ui p) /\
  captured_model (ui_step p (TextTyped v)) = captured_model p /\
  running (ui_step p (TextTyped v)) =
    TC.step (running p) (TC.Invoke (v, captured_model p)).
Proof.
  intros Hf Hv Hne.
  unfold sent_by, ui_step, handler. rewrite Hf.
  unfold rerender, effect_call, effect_runs.
  rewrite (adopts_same (ui p) (TC.setText v (ui p)) eq_refl).
  cbn [TC.text TC.setText]. rewrite (same_text_neq v _ Hne). cbn [negb orb].
  unfold TC.useEffect_call. cbn [TC.file TC.text TC.setText]. rewrite Hf, Hv.
  repeat split.
Qed.

(** A change of model adopts a new debounced function, which the effect
    calls with the text if there is one and no file. *)
Lemma model_change_call p m :
  TC.file (ui p) = None -> truthy (TC.text (ui p)) = true ->
  m <> TC.selectedModel (ui p) ->
  ui (ui_step p (ModelPicked m)) = TC.selectModel m (ui p) /\
  captured_model (ui_step p (ModelPicked m)) = m /\
  running (ui_step p (ModelPicked m)) =
    TC.step {| TC.closure := TC.debouncedHandleAnalyzeText;
               TC.timers := TC.timers (running p);
               TC.dispatched := TC.dispatched (running p) |}
            (TC.Invoke (TC.text (ui p), m)).
Proof.
  intros Hf Ht Hm.
  unfold ui_step, handler, rerender, effect_call, effect_runs.
  rewrite (adopts_other (ui p) (TC.selectModel m (ui p)) Hm).
  rewrite orb_true_r. cbn [orb].
  unfold TC.useEffect_call. cbn. rewrite Hf, Ht. repeat split.
Qed.

(** C9, amended.  For the text analysis debounced by 300 ms.

    One debounced function, after any sequence of calls and elapsed
    milliseconds: at most one dispatch is scheduled, and it is the one of the
    latest call, with its text; a new call removes the dispatch scheduled
    before it and schedules its own, which runs 300 ms later and not before
    if no other call comes; and whatever a tick dispatches is the text of the
    latest call.

    The component, after any sequence of keystrokes, file selections and
    elapsed milliseconds in which the selected model is not changed: it has
    called one and the same debounced function, so at most one dispatch is
    scheduled, with the text of the latest call and the selected model;
    whatever a millisecond dispatches is the text of the latest call; and a
    keystroke that changes the text to a non-empty one removes the scheduled
    dispatch and schedules its own, which runs 300 ms later and not before.

    A change of model while a dispatch is scheduled, with a text and no file:
    the debounced function adopted for the new model does not cancel it; two
    dispatches are scheduled, and 300 ms later both have run, the earlier
    one with the text and the model of its call. *)
Theorem debounce_one_pending_latest
    (evs : list (TC.event jsstring)) (uevs : list ui_event) :
  (let s := TC.run (TC.start TC.debouncedHandleAnalyzeText) evs in
   (length (TC.pending (TC.timers s)) <= 1)%nat /\
   (forall t, In t (TC.pending (TC.timers s)) ->
      TC.timeoutId (TC.closure s) = Some (TC.timer_id t) /\
      TC.latest evs = Some (TC.args t)) /\
   (forall text,
      let s' := TC.step s (TC.Invoke text) in
      (forall t, In t (TC.pending (TC.timers s)) ->
         ~ In t (TC.pending (TC.timers s'))) /\
      TC.pending (TC.timers s') =
        [{| TC.timer_id := TC.next_id (TC.timers s);
            TC.due := (TC.now (TC.timers s) + 300)%nat;
            TC.args := text |}] /\
      TC.dispatched (TC.run s' (repeat TC.Tick 299)) = TC.dispatched s /\
      TC.dispatched (TC.run s' (repeat TC.Tick 300)) = TC.dispatched s ++ [text]) /\
   (TC.dispatched (TC.step s TC.Tick) = TC.dispatched s \/
    exists text,
      TC.latest evs = Some text /\
      TC.dispatched (TC.step s TC.Tick) = TC.dispatched s ++ [text])) /\
  (Forall (keeps_model sonnet_3_7) uevs ->
   let p := ui_run page0 uevs in
   let r := running p in
   r = TC.run (TC.start TC.debouncedHandleAnalyzeText) (sent page0 uevs) /\
   TC.selectedModel (ui p) = sonnet_3_7 /\
   (length (TC.pending (TC.timers r)) <= 1)%nat /\
   (forall t, In t (TC.pending (TC.timers r)) ->
      TC.timeoutId (TC.closure r) = Some (TC.timer_id t) /\
      TC.latest (sent page0 uevs) = Some (TC.args t) /\
      snd (TC.args t) = sonnet_3_7) /\
   (TC.dispatched (running (ui_step p Millisecond)) = TC.dispatched r \/
    exists text,
      TC.latest (sent page0 uevs) = Some (text, sonnet_3_7) /\
      TC.dispatched (running (ui_step p Millisecond)) =
        TC.dispatched r ++ [(text, sonnet_3_7)]) /\
   (forall v,
      TC.file (ui p) = None -> truthy v = true -> v <> TC.text (ui p) ->
      let p' := ui_step p (TextTyped v) in
      (forall t, In t (TC.pending (TC.timers r)) ->
         ~ In t (TC.pending (TC.timers (running p')))) /\
      TC.pending (TC.timers (running p')) =
        [{| TC.timer_id := TC.next_id (TC.timers r);
            TC.due := (TC.now (TC.timers r) + 300)%nat;
            TC.args := (v, sonnet_3_7) |}] /\
      TC.dispatched (running (ui_run p' (repeat Millisecond 299))) =
        TC.dispatched r /\
      TC.dispatched (running (ui_run p' (repeat Millisecond 300))) =
        TC.dispatched r ++ [(v, sonnet_3_7)]) /\
   (forall t m,
      TC.pending (TC.timers r) = [t] ->
      TC.file (ui p) = None -> truthy (TC.text (ui p)) = true ->
      m <> sonnet_3_7 ->
      let p' := ui_step p (ModelPicked m) in
      TC.pending (TC.timers (running p')) =
        [t; {| TC.timer_id := TC.next_id (TC.timers r);
               TC.due := (TC.now (TC.timers r) + 300)%nat;
               TC.args := (TC.text (ui p), m) |}] /\
      TC.dispatched (running (ui_run p' (repeat Millisecond 300))) =
        TC.dispatched r ++ [TC.args t; (TC.text (ui p), m)])).
Proof.
  split.
  { intros s.
    pose proof (run_settled TC.debouncedHandleAnalyzeText evs) as Hs. fold s in Hs.
    pose proof (run_delay TC.debouncedHandleAnalyzeText evs) as Hd. fold s in Hd.
    cbn in Hd.
    split; [|split; [|split]].
    - destruct Hs as [-> | (t & -> & _)]; cbn; lia.
    - intros t Hin. destruct Hs as [Hnone | (t' & Hone & Hid & Hlatest & _)].
      + rewrite Hnone in Hin. now elim Hin.
      + rewrite Hone in Hin. destruct Hin as [<- | []]. auto.
    - intros text s'. subst s'. rewrite (invoke_settled evs s text Hs), Hd.
      cbn [TC.timers TC.pending]. split; [|split; [reflexivity|split]].
      + intros t Hin [Heq | []].
        destruct Hs as [Hnone | (t' & Hone & _ & _ & Hlt)].
        * rewrite Hnone in Hin. now elim Hin.
        * rewrite Hone in Hin. destruct Hin as [<- | []].
          rewrite <- Heq in Hlt. cbn in Hlt. lia.
      + rewrite (ticks_before_due 299 _
                   {| TC.timer_id := TC.next_id (TC.timers s);
                      TC.due := (TC.now (TC.timers s) + 300)%nat;
                      TC.args := text |});
          [reflexivity | reflexivity | cbn; lia].
      + change (repeat TC.Tick 300) with (@TC.Tick jsstring :: repeat TC.Tick 299).
        rewrite repeat_cons, run_app.
        rewrite (ticks_before_due 299 _
                   {| TC.timer_id := TC.next_id (TC.timers s);
                      TC.due := (TC.now (TC.timers s) + 300)%nat;
                      TC.args := text |});
          [|reflexivity | cbn; lia].
        cbn [TC.run fold_left].
        rewrite (tick_at_due _
                   {| TC.timer_id := TC.next_id (TC.timers s);
                      TC.due := (TC.now (TC.timers s) + 300)%nat;
                      TC.args := text |});
          [reflexivity | reflexivity | cbn; lia].
    - destruct Hs as [Hnone | (t & Hone & _ & Hlatest & _)];
        unfold TC.step, TC.tick; cbn.
      + rewrite Hnone. cbn. left. apply app_nil_r.
      + rewrite Hone. cbn.
        destruct (TC.due t <=? S (TC.now (TC.timers s)))%nat; cbn.
        * right. eauto.
        * left. apply app_nil_r. }
  intros Hkeep p r.
  destruct (ui_run_same_model uevs page0 eq_refl Hkeep) as (Hr & Hm & Hc & Hsent).
  fold p in Hr, Hm, Hc. fold r in Hr.
  change (TC.selectedModel (ui page0)) with sonnet_3_7 in Hm, Hsent.
  change (captured_model page0) with sonnet_3_7 in Hc.
  change (running page0) with
    (TC.start (A := jsstring * string) TC.debouncedHandleAnalyzeText) in Hr.
  set (calls := sent page0 uevs) in *.
  pose proof (run_settled TC.debouncedHandleAnalyzeText calls) as Hs.
  pose proof (run_delay TC.debouncedHandleAnalyzeText calls) as Hd.
  pose proof (run_pending_future TC.debouncedHandleAnalyzeText calls) as Hfut.
  rewrite <- Hr in Hs, Hd, Hfut. cbn in Hd.
  assert (forall t, In t (TC.pending (TC.timers r)) ->
            TC.timeoutId (TC.closure r) = Some (TC.timer_id t) /\
            TC.latest calls = Some (TC.args t) /\
            snd (TC.args t) = sonnet_3_7) as Hpending.
  { intros t Hin. destruct Hs as [Hnone | (t' & Hone & Hid & Hlatest & _)].
    - rewrite Hnone in Hin. now elim Hin.
    - rewrite Hone in Hin. destruct Hin as [<- | []].
      repeat split; try assumption.
      rewrite Forall_forall in Hsent. apply Hsent.
      now apply latest_invoked. }
  split; [exact Hr|]. split; [exact Hm|].
  split; [|split; [exact Hpending|split; [|split]]].
  - destruct Hs as [-> | (t & -> & _)]; cbn; lia.
  - change (running (ui_step p Millisecond)) with (TC.step r TC.Tick).
    destruct Hs as [Hnone | (t & Hone & _)]; unfold TC.step, TC.tick; cbn.
    + rewrite Hnone. cbn. left. apply app_nil_r.
    + destruct (Hpending t) as (_ & Hlatest & Hmodel);
        [rewrite Hone; now left|].
      rewrite Hone. cbn.
      destruct (TC.due t <=? S (TC.now (TC.timers r)))%nat; cbn.
      * right. exists (fst (TC.args t)). rewrite <- Hmodel.
        rewrite <- surjective_pairing. auto.
      * left. apply app_nil_r.
  - intros v Hf Hv Hne p'.
    destruct (keystroke_call p v Hf Hv Hne) as (_ & _ & _ & Hstep).
    rewrite Hc in Hstep. fold p' r in Hstep.
    destruct (ui_run_milliseconds 299 p') as (_ & _ & ->).
    destruct (ui_run_milliseconds 300 p') as (_ & _ & ->).
    rewrite Hstep, (invoke_settled calls r (v, sonnet_3_7) Hs), Hd.
    cbn [TC.timers TC.pending]. split; [|split; [reflexivity|split]].
    + intros t Hin [Heq | []].
      destruct Hs as [Hnone | (t' & Hone & _ & _ & Hlt)].
      * rewrite Hnone in Hin. now elim Hin.
      * rewrite Hone in Hin. destruct Hin as [<- | []].
        rewrite <- Heq in Hlt. cbn in Hlt. lia.
    + rewrite (ticks_before_due 299 _
                 {| TC.timer_id := TC.next_id (TC.timers r);
                    TC.due := (TC.now (TC.timers r) + 300)%nat;
                    TC.args := (v, sonnet_3_7) |});
        [reflexivity | reflexivity | cbn; lia].
    + match goal with
      | |- TC.dispatched (TC.run ?s0 _) = _ =>
          refine (proj1 (ticks_past_due 300 s0 _ eq_refl _))
      end.
      cbn. lia.
  - intros t m Hone Hf Ht Hm' p'.
    destruct (model_change_call p m Hf Ht) as (_ & _ & Hstep);
      [now rewrite Hm|].
    fold p' r in Hstep.
    destruct (ui_run_milliseconds 300 p') as (_ & _ & ->).
    assert (running p' =
            {| TC.closure := {| TC.delay := 300;
                                TC.timeoutId := Some (TC.next_id (TC.timers r)) |};
               TC.timers :=
                 {| TC.now := TC.now (TC.timers r);
                    TC.next_id := S (TC.next_id (TC.timers r));
                    TC.pending :=
                      [t; {| TC.timer_id := TC.next_id (TC.timers r);
                             TC.due := (TC.now (TC.timers r) + 300)%nat;
                             TC.args := (TC.text (ui p), m) |}] |};
               TC.dispatched := TC.dispatched r |}) as ->.
    { rewrite Hstep.
      unfold TC.step, TC.invoke, TC.setTimeout, TC.clearTimeout.
      cbn. now rewrite Hone. }
    cbn [TC.timers TC.pending]. split; [reflexivity|].
    rewrite Hone in Hfut. inversion Hfut as [|? ? [Hle Hlt] _]; subst.
    match goal with
    | |- TC.dispatched (TC.run ?s0 _) = _ =>
        refine (proj1 (ticks_past_two 300 s0 _ _ eq_refl _ _ _))
    end; cbn in *; lia.
Qed.

Lemma debounce_one_pending_latest_witness :
  (TC.latest [TC.Invoke [0x48]%N; TC.Tick; TC.Invoke hi; TC.Tick] = Some hi /\
   TC.dispatched
     (TC.run
        (TC.step
           (TC.run (TC.start TC.debouncedHandleAnalyzeText)
              [TC.Invoke [0x48]%N; TC.Tick; TC.Invoke hi; TC.Tick])
           (TC.Invoke hi))
        (repeat TC.Tick 300)) = [hi]) /\
  Forall (keeps_model sonnet_3_7)
    [TextTyped [0x48]%N; Millisecond; ModelPicked sonnet_3_7; TextTyped hi] /\
  TC.dispatched
    (running
       (ui_run
          (ui_step
             (ui_run page0
                [TextTyped [0x48]%N; Millisecond; ModelPicked sonnet_3_7;
                 TextTyped hi])
             (TextTyped [0x48]%N))
          (repeat Millisecond 300))) = [([0x48]%N, sonnet_3_7)] /\
  TC.dispatched
    (running
       (ui_run
          (ui_step
             (ui_run page0
                [TextTyped [0x48]%N; Millisecond; ModelPicked sonnet_3_7;
                 TextTyped hi])
             (ModelPicked opus_3))
          (repeat Millisecond 300))) = [(hi, sonnet_3_7); (hi, opus_3)].
Proof.
  assert (Forall (keeps_model sonnet_3_7)
            [TextTyped [0x48]%N; Millisecond; ModelPicked sonnet_3_7;
             TextTyped hi]) as Hkeep
    by (repeat constructor).
  pose proof (debounce_one_pending_latest
                [TC.Invoke [0x48]%N; TC.Tick; TC.Invoke hi; TC.Tick]
                [TextTyped [0x48]%N; Millisecond; ModelPicked sonnet_3_7;
                 TextTyped hi])
    as ((_ & Hlatest & Hcall & _) & Hpage).
  destruct (Hpage Hkeep) as (_ & _ & _ & _ & _ & Hkey & Hmodel).
  split; [split|split; [exact Hkeep|split]].
  - apply (Hlatest {| TC.timer_id := 2; TC.due := 301; TC.args := hi |}).
    left. reflexivity.
  - exact (proj2 (proj2 (proj2 (Hcall hi)))).
  - refine (proj2 (proj2 (proj2 (Hkey [0x48]%N eq_refl eq_refl _)))).
    discriminate.
  - refine (proj2 (Hmodel {| TC.timer_id := 2; TC.due := 301;
                             TC.args := (hi, sonnet_3_7) |}
                          opus_3 eq_refl eq_refl eq_refl _)).
    discriminate.
Defined.

(** C9 as stated fails in the component: a dispatch is scheduled for a typed
    text; the model is changed one millisecond later; the debounced function
    [useCallback] adopts for the new model is called by the effect and does
    not cancel the dispatch scheduled through the previous one.  Two
    dispatches are scheduled, and both run: the first with the model that
    was selected when the text was typed. *)
Lemma model_change_leaves_two_dispatches :
  let p := ui_run page0 [TextTyped hi; Millisecond; ModelPicked opus_3] in
  TC.pending (TC.timers (running p)) =
    [{| TC.timer_id := 1; TC.due := 300; TC.args := (hi, sonnet_3_7) |};
     {| TC.timer_id := 2; TC.due := 301; TC.args := (hi, opus_3) |}] /\
  TC.dispatched (running (ui_run p (repeat Millisecond 298))) = [] /\
  TC.dispatched (running (ui_run p (repeat Millisecond 299))) =
    [(hi, sonnet_3_7)] /\
  TC.dispatched (running (ui_run p (repeat Millisecond 300))) =
    [(hi, sonnet_3_7); (hi, opus_3)].
Proof. vm_compute. repeat split. Qed.

(** The property is one of a single debounced function.  [useCallback]
    (line 157) adopts a new one when [selectedModel] changes; its [timeoutId]
    starts undefined, so its first call leaves the dispatch scheduled by the
    previous one in the queue. *)
Remark new_debounced_function_does_not_cancel :
  TC.pending
    (TC.timers
       (TC.step
          {| TC.closure := TC.debouncedHandleAnalyzeText;
             TC.timers :=
               TC.timers (TC.run (TC.start TC.debouncedHandleAnalyzeText)
                            [TC.Invoke [0x48]%N]);
             TC.dispatched := [] |}
          (TC.Invoke hi))) =
  [{| TC.timer_id := 1; TC.due := 300; TC.args := [0x48]%N |};
   {| TC.timer_id := 2; TC.due := 300; TC.args := hi |}].
Proof. reflexivity. Qed.

(** * Further properties of the route *)

Lemma POST_body_unparsed w req : unparsed req -> POST_body w req = (None, []).
Proof.
  unfold unparsed, POST_body. fold (multipart req).
  destruct (multipart req); now intros ->.
Qed.

Lemma POST_body_no_file w req fd :
  multipart req = true -> req_formData req = Some fd -> form_file fd = None ->
  POST_body w req =
  count_text w [] 0 (or_else (form_model fd) DEFAULT_MODEL) None None.
Proof.
  unfold multipart, POST_body. intros -> ->. cbn [attempt bind].
  intros ->. now destruct (count_text w [] 0 _ None None) as [r log].
Qed.

(** Every request is exactly one of: not parsed, a form without a file, a
    form with a file declared pdf, one declared image, or a text payload. *)
Lemma request_cases req :
  unparsed req \/
  (exists fd, multipart req = true /\ req_formData req = Some fd /\
              form_file fd = None) \/
  (exists fd f, multipart req = true /\ req_formData req = Some fd /\
                form_file fd = Some f /\
                strict_eq (form_fileType fd) "pdf" = true) \/
  (exists fd f, multipart req = true /\ req_formData req = Some fd /\
                form_file fd = Some f /\
                strict_eq (form_fileType fd) "image" = true) \/
  (exists t fc m, text_payload req = Some (t, fc, m)).
Proof.
  unfold unparsed, text_payload, text_kind.
  destruct (multipart req).
  - destruct (req_formData req) as [fd|]; [|now left].
    destruct (form_file fd) as [f|] eqn:Hf; [|right; left; eauto].
    destruct (strict_eq (form_fileType fd) "pdf") eqn:Hpdf;
      [right; right; left; eauto 6|].
    destruct (strict_eq (form_fileType fd) "image") eqn:Himg;
      [right; right; right; left; eauto 6|].
    right; right; right; right. cbn. eauto.
  - destruct (req_json req) as [jd|]; [|now left].
    right; right; right; right. eauto.
Qed.

Ltac post_cases w req :=
  let fd := fresh "fd" in
  let f := fresh "f" in
  let Hm := fresh "Hm" in
  let Hfd := fresh "Hfd" in
  let Hf := fresh "Hf" in
  let Hk := fresh "Hk" in
  let Hp := fresh "Hp" in
  let t := fresh "t" in
  let fc := fresh "fc" in
  let m := fresh "m" in
  destruct (request_cases req)
    as [Hp | [(fd & Hm & Hfd & Hf) | [(fd & f & Hm & Hfd & Hf & Hk)
        | [(fd & f & Hm & Hfd & Hf & Hk) | (t & fc & m & Hp)]]]];
  [ pose proof (POST_body_unparsed w req Hp) as HPOST
  | pose proof (POST_body_no_file w req fd Hm Hfd Hf) as HPOST;
    rewrite count_text_eq in HPOST; unfold primary_text_call in HPOST
  | pose proof (POST_body_pdf w req fd f Hm Hfd Hf Hk) as HPOST;
    cbn zeta in HPOST
  | pose proof (POST_body_image w req fd f Hm Hfd Hf Hk) as HPOST;
    cbn zeta in HPOST
  | pose proof (POST_body_text_payload w req t fc m Hp) as HPOST ].

(** X1. The route never throws: every request gets a response, with status
    200 or 500.  A body that cannot be read the way the header announces is
    answered 500 before any vendor is called; a request whose primary call
    threw is answered 500; and a request whose primary call answered is
    answered 200, with the count of that call and the model it was made
    with, whatever the estimators did. *)
Theorem POST_status_by_primary_call w req :
  exists r,
    result (POST w req) = Some r /\
    (status r = 200 \/ status r = 500) /\
    (unparsed req ->
     r = Response_json_500 "Failed to count tokens" /\
     calls (POST w req) = []) /\
    (forall betas m c,
       In (CallAnthropic betas m c) (calls (POST w req)) ->
       match anthropic_countTokens w betas m c with
       | None => r = Response_json_500 "Failed to count tokens"
       | Some n =>
           exists data,
             r = Response_json data /\ input_tokens data = n /\ model data = m
       end).
Proof.
  rewrite POST_result, POST_calls. eexists. split; [reflexivity|].
  assert (forall fd, multipart req = true -> req_formData req = Some fd ->
                     ~ unparsed req) as Hparsed.
  { intros fd Hm Hfd Hu. unfold unparsed in Hu. rewrite Hm, Hfd in Hu.
    discriminate. }
  post_cases w req; rewrite HPOST; cbn [result fst calls snd].
  - split; [now right|]. split; [easy|]. intros b m c [].
  - split; [destruct (anthropic_countTokens w _ _ _); auto|].
    split; [intros Hu; now elim (Hparsed fd Hm Hfd)|].
    intros b m' c [Hin | []]. injection Hin as <- <- <-.
    destruct (anthropic_countTokens w _ _ _); [|reflexivity].
    eexists. repeat split.
  - split; [destruct (anthropic_countTokens w _ _ _); auto|].
    split; [intros Hu; now elim (Hparsed fd Hm Hfd)|].
    intros b m' c [Hin | []]. injection Hin as <- <- <-.
    destruct (anthropic_countTokens w _ _ _); [|reflexivity].
    eexists. repeat split.
  - split; [destruct (anthropic_countTokens w _ _ _); auto|].
    split; [intros Hu; now elim (Hparsed fd Hm Hfd)|].
    intros b m' c [Hin | []]. injection Hin as <- <- <-.
    destruct (anthropic_countTokens w _ _ _); [|reflexivity].
    eexists. repeat split.
  - split; [destruct (anthropic_countTokens w _ _ _); auto|]. split.
    + intros Hu. unfold unparsed, text_payload in *.
      destruct (multipart req); now rewrite Hu in Hp.
    + intros b m' c [Hin | Hin]; [discriminate|].
      apply in_app_or in Hin. destruct Hin as [Hin | [Hin | []]];
        [now apply tertiary_calls_not_primary in Hin|].
      unfold primary_text_call in Hin. injection Hin as <- <- <-.
      destruct (anthropic_countTokens w _ _ _); [|reflexivity].
      eexists. repeat split.
Qed.

Lemma POST_status_by_primary_call_witness :
  (exists data,
     result (POST primary_only (TC.text_request hi "m"))
       = Some (Response_json data) /\
     input_tokens data = 12 /\ model data = "m") /\
  result (POST all_up {| content_type := Some "application/json";
                         req_formData := None; req_json := None |})
    = Some (Response_json_500 "Failed to count tokens").
Proof.
  split.
  - destruct (POST_status_by_primary_call primary_only (TC.text_request hi "m"))
      as (r & Hr & _ & _ & Hcall).
    specialize (Hcall ["token-counting-2024-11-01"] "m" (TextContent hi)).
    destruct Hcall as (data & -> & Hn & Hm).
    + vm_compute. auto.
    + exists data. auto.
  - destruct (POST_status_by_primary_call all_up
                {| content_type := Some "application/json";
                   req_formData := None; req_json := None |})
      as (r & Hr & _ & Hu & _).
    destruct (Hu eq_refl) as [-> _]. exact Hr.
Defined.

(** X2. A request makes at most three vendor calls, one per vendor at most;
    the primary call, when there is one, is the last, and before it come
    either no call or the encoder followed by the third vendor's call (if a
    credential is set). *)
Theorem POST_call_order w req :
  (calls (POST w req) = [] \/
   exists pre betas m c,
     calls (POST w req) = pre ++ [CallAnthropic betas m c] /\
     (pre = [] \/ exists t, pre = CallGPT4o t :: tertiary_calls w t)) /\
  (length (filter is_primary (calls (POST w req))) <= 1)%nat /\
  (length (filter is_gpt4o (calls (POST w req))) <= 1)%nat /\
  (length (filter is_gemini (calls (POST w req))) <= 1)%nat.
Proof.
  rewrite POST_calls.
  post_cases w req; rewrite HPOST; cbn [calls snd].
  - cbn. split; [now left | lia].
  - cbn. split; [|lia]. right. exists []. do 3 eexists.
    split; [reflexivity | now left].
  - cbn. split; [|lia]. right. exists []. do 3 eexists.
    split; [reflexivity | now left].
  - cbn. split; [|lia]. right. exists []. do 3 eexists.
    split; [reflexivity | now left].
  - split.
    + right. exists (CallGPT4o t :: tertiary_calls w t). do 3 eexists.
      split; [reflexivity | eauto].
    + unfold tertiary_calls, primary_text_call.
      destruct (GEMINI_API_KEY w) as [key|]; [destruct (truthy_str key)|];
        cbn; lia.
Qed.

(** X3. For every multipart request with a file whose declared kind is pdf,
    whatever the media type of the file, the only vendor call is the primary
    document count, made with the two beta flags, the media type
    application/pdf and the base64 of the bytes; a success response has the
    byte length as [fileChars] and the count of that call. *)
Theorem pdf_document_count w req fd f :
  multipart req = true -> req_formData req = Some fd ->
  form_file fd = Some f -> strict_eq (form_fileType fd) "pdf" = true ->
  calls (POST w req) =
    [CallAnthropic ["token-counting-2024-11-01"; "pdfs-2024-09-25"]
       (or_else (form_model fd) DEFAULT_MODEL)
       (DocumentBlock "application/pdf" (base64 (bytes f)))] /\
  (forall data, result (POST w req) = Some (Response_json data) ->
     fileChars data = Z.of_nat (length (bytes f)) /\
     anthropic_countTokens w ["token-counting-2024-11-01"; "pdfs-2024-09-25"]
       (or_else (form_model fd) DEFAULT_MODEL)
       (DocumentBlock "application/pdf" (base64 (bytes f)))
     = Some (input_tokens data)).
Proof.
  intros Hm Hfd Hf Hpdf.
  pose proof (POST_body_pdf w req fd f Hm Hfd Hf Hpdf) as Hp. cbn zeta in Hp.
  rewrite POST_calls, POST_result, Hp. cbn [calls snd result fst].
  split; [reflexivity|]. intros data Hr.
  destruct (anthropic_countTokens w _ _ _); [|discriminate].
  injection Hr as <-. now cbn.
Qed.

Lemma pdf_document_count_witness :
  calls (POST all_up (TC.file_request a_pdf "m" TC.Pdf)) =
    [CallAnthropic ["token-counting-2024-11-01"; "pdfs-2024-09-25"] "m"
       (DocumentBlock "application/pdf" (base64 (bytes a_pdf)))].
Proof.
  exact (proj1 (pdf_document_count all_up
                  (TC.file_request a_pdf "m" TC.Pdf)
                  {| form_file := Some (TC.as_part a_pdf);
                     form_model := Some "m";
                     form_fileType := Some "pdf" |}
                  (TC.as_part a_pdf)
                  eq_refl eq_refl eq_refl eq_refl)).
Defined.

(** X4. A multipart request whose form has no file is not an error: whatever
    its declared kind, the empty text is counted by the primary vendor alone,
    and a success response has [fileChars] 0 and both estimator fields
    null. *)
Theorem form_without_file w req fd :
  multipart req = true -> req_formData req = Some fd -> form_file fd = None ->
  calls (POST w req) =
    [CallAnthropic ["token-counting-2024-11-01"]
       (or_else (form_model fd) DEFAULT_MODEL) (TextContent [])] /\
  (forall data, result (POST w req) = Some (Response_json data) ->
     fileChars data = 0 /\ gpt4oTokens data = None /\ geminiTokens data = None) /\
  (forall n,
     anthropic_countTokens w ["token-counting-2024-11-01"]
       (or_else (form_model fd) DEFAULT_MODEL) (TextContent []) = Some n ->
     exists data, result (POST w req) = Some (Response_json data) /\
                  input_tokens data = n).
Proof.
  intros Hm Hfd Hf.
  rewrite POST_calls, POST_result, (POST_body_no_file w req fd Hm Hfd Hf),
    count_text_eq.
  cbn [calls snd result fst]. split; [reflexivity|]. split.
  - intros data Hr. destruct (anthropic_countTokens w _ _ _); [|discriminate].
    injection Hr as <-. now cbn.
  - intros n ->. eexists. split; reflexivity.
Qed.

Lemma form_without_file_witness :
  calls (POST all_up
           {| content_type := Some "multipart/form-data; boundary=b";
              req_formData := Some {| form_file := None; form_model := None;
                                      form_fileType := Some "pdf" |};
              req_json := None |}) =
    [CallAnthropic ["token-counting-2024-11-01"] "claude-3-7-sonnet-20250219"
       (TextContent [])].
Proof.
  exact (proj1 (form_without_file all_up
                  {| content_type := Some "multipart/form-data; boundary=b";
                     req_formData := Some {| form_file := None;
                                             form_model := None;
                                             form_fileType := Some "pdf" |};
                     req_json := None |}
                  {| form_file := None; form_model := None;
                     form_fileType := Some "pdf" |}
                  eq_refl eq_refl eq_refl)).
Defined.

Lemma or_else_truthy a b : truthy_str b = true -> truthy_str (or_else a b) = true.
Proof.
  intros Hb. unfold or_else. destruct a as [s|]; [|exact Hb].
  now destruct (truthy_str s) eqn:Hs.
Qed.

(** X5. In every success response the [model] is the model the request asks
    for, or the default when it gives none or an empty one; it is never
    empty, and it is the model the primary call was made with.  The response
    to a JSON request has [fileChars] 0. *)
Theorem response_model w req data :
  result (POST w req) = Some (Response_json data) ->
  requested_model req = Some (model data) /\
  truthy_str (model data) = true /\
  (forall c, In c (calls (POST w req)) -> is_primary c = true ->
     primary_model c = Some (model data)) /\
  (multipart req = false -> fileChars data = 0).
Proof.
  rewrite POST_result, POST_calls.
  assert (truthy_str DEFAULT_MODEL = true) as Hd by reflexivity.
  post_cases w req; rewrite HPOST; cbn [result fst calls snd]; intros Hr;
    try discriminate;
    (destruct (anthropic_countTokens w _ _ _); [|discriminate]);
    injection Hr as <-; cbn [model fileChars]; unfold requested_model.
  - rewrite Hm, Hfd. split; [reflexivity|].
    split; [now apply or_else_truthy|]. split; [|discriminate].
    intros c [<- | []] _. reflexivity.
  - rewrite Hm, Hfd. split; [reflexivity|].
    split; [now apply or_else_truthy|]. split; [|discriminate].
    intros c [<- | []] _. reflexivity.
  - rewrite Hm, Hfd. split; [reflexivity|].
    split; [now apply or_else_truthy|]. split; [|discriminate].
    intros c [<- | []] _. reflexivity.
  - unfold text_payload in Hp. destruct (multipart req).
    + destruct (req_formData req) as [fd|]; [|discriminate].
      destruct (form_file fd); [|discriminate].
      destruct (text_kind fd); [|discriminate]. injection Hp as <- <- <-.
      split; [reflexivity|].
      split; [now apply or_else_truthy|]. split; [|discriminate].
      intros c [<- | Hin]; [discriminate|].
      apply in_app_or in Hin. destruct Hin as [Hin | [<- | []]]; [|reflexivity].
      intros Hprim. exfalso. destruct c; try discriminate.
      now apply tertiary_calls_not_primary in Hin.
    + destruct (req_json req) as [jd|]; [|discriminate].
      injection Hp as <- <- <-.
      split; [reflexivity|].
      split; [now apply or_else_truthy|]. split; [|reflexivity].
      intros c [<- | Hin]; [discriminate|].
      apply in_app_or in Hin. destruct Hin as [Hin | [<- | []]]; [|reflexivity].
      intros Hprim. exfalso. destruct c; try discriminate.
      now apply tertiary_calls_not_primary in Hin.
Qed.

Lemma response_model_witness :
  requested_model
    {| content_type := Some "application/json"; req_formData := None;
       req_json := Some {| json_text := Some hi; json_model := Some EmptyString |} |}
  = Some "claude-3-7-sonnet-20250219".
Proof.
  exact (proj1 (response_model primary_only
                  {| content_type := Some "application/json";
                     req_formData := None;
                     req_json := Some {| json_text := Some hi;
                                         json_model := Some EmptyString |} |}
                  {| input_tokens := 12; fileChars := 0;
                     model := "claude-3-7-sonnet-20250219";
                     gpt4oTokens := None; geminiTokens := None |}
                  eq_refl)).
Defined.

(** X6. Without a credential for the third vendor (absent or empty), no
    request ever calls it, and [geminiTokens] is null in every success
    response. *)
Theorem no_credential_no_gemini_call w req :
  GEMINI_API_KEY w = None \/ GEMINI_API_KEY w = Some EmptyString ->
  filter is_gemini (calls (POST w req)) = [] /\
  (forall data, result (POST w req) = Some (Response_json data) ->
     geminiTokens data = None).
Proof.
  intros Hkey. rewrite POST_result, POST_calls.
  assert (forall t, tertiary_calls w t = [] /\ tertiary w t = None) as Hnone.
  { intros t. unfold tertiary_calls, tertiary.
    destruct Hkey as [-> | ->]; now cbn. }
  post_cases w req; rewrite HPOST; cbn [result fst calls snd];
    try (destruct (anthropic_countTokens w _ _ _)); cbn;
    try (split; [reflexivity|]; (now intros data [= <-]) || discriminate).
  - destruct (Hnone t) as [-> ->]. cbn. split; [reflexivity|].
    now intros data [= <-].
  - destruct (Hnone t) as [-> _]. cbn. split; [reflexivity | discriminate].
Qed.

Lemma no_credential_no_gemini_call_witness :
  filter is_gemini (calls (POST primary_only (TC.text_request hi "m"))) = [].
Proof.
  exact (proj1 (no_credential_no_gemini_call primary_only
                  (TC.text_request hi "m") (or_introl eq_refl))).
Defined.

(** X7. The route never reads the name of the file, and reads its media type
    only for a file declared image: two multipart requests that differ in
    the name and the media type of the file alone get the same calls and the
    same response when the declared kind is not image. *)
Theorem file_name_and_type_unused w ct fd_model fd_kind j bs n1 t1 n2 t2 :
  strict_eq fd_kind "image" = false ->
  POST w {| content_type := ct;
            req_formData :=
              Some {| form_file := Some {| name := n1; type := t1; bytes := bs |};
                      form_model := fd_model; form_fileType := fd_kind |};
            req_json := j |} =
  POST w {| content_type := ct;
            req_formData :=
              Some {| form_file := Some {| name := n2; type := t2; bytes := bs |};
                      form_model := fd_model; form_fileType := fd_kind |};
            req_json := j |}.
Proof.
  intros Himg. unfold POST, POST_body. cbn [content_type req_formData req_json].
  destruct (includes _ _); [|reflexivity].
  cbn [attempt bind form_file form_model form_fileType bytes].
  now rewrite Himg.
Qed.

Lemma file_name_and_type_unused_witness :
  POST all_up (TC.file_request a_pdf "m" TC.Pdf) =
  POST all_up (TC.file_request
                 {| name := "renamed.txt"; type := "text/plain";
                    bytes := bytes a_pdf |} "m" TC.Pdf).
Proof.
  exact (file_name_and_type_unused all_up _ (Some "m") (Some "pdf") None
           (bytes a_pdf) "a.pdf" "application/pdf" "renamed.txt" "text/plain"
           eq_refl).
Defined.

(** ** The size of a decoded text *)

Lemma utf16_units_length cp : (length (utf16_units cp) <= 2)%nat.
Proof. unfold utf16_units. destruct (cp <? 0x10000)%N; cbn; lia. Qed.

Lemma utf8_lead_bound b st out :
  utf8_lead b = (st, out) ->
  (length (flat_map utf16_units out) + utf8_owed st <= 1)%nat.
Proof.
  unfold utf8_lead.
  destruct (b <=? 0x7F)%N eqn:Hascii.
  { intros [= <- <-]. apply N.leb_le in Hascii. cbn [flat_map].
    unfold utf16_units.
    assert ((b <? 0x10000)%N = true) as -> by (apply N.ltb_lt; lia).
    cbn. lia. }
  destruct ((0xC2 <=? b) && (b <=? 0xDF))%N; [intros [= <- <-]; cbn; lia|].
  destruct ((0xE0 <=? b) && (b <=? 0xEF))%N; [intros [= <- <-]; cbn; lia|].
  destruct ((0xF0 <=? b) && (b <=? 0xF4))%N; intros [= <- <-]; cbn; lia.
Qed.

Lemma utf8_handler_bound st b st' out :
  utf8_handler st b = (st', out) ->
  (length (flat_map utf16_units out) + utf8_owed st' <= 1 + utf8_owed st)%nat.
Proof.
  unfold utf8_handler, utf8_owed at 2.
  destruct (bytes_needed st =? 0)%N eqn:Hneeded.
  { intros H. apply utf8_lead_bound in H. lia. }
  destruct (negb _).
  { destruct (utf8_lead b) as [st1 out1] eqn:Hlead. intros [= <- <-].
    apply utf8_lead_bound in Hlead. cbn [flat_map].
    rewrite length_app. unfold REPLACEMENT, utf16_units at 1. cbn. lia. }
  destruct (bytes_seen st + 1 =? bytes_needed st)%N.
  - intros [= <- <-]. cbn [flat_map]. rewrite app_nil_r.
    pose proof (utf16_units_length
                  (N.lor (N.shiftl (code_point st) 6) (N.land b 0x3F))).
    cbn. lia.
  - intros [= <- <-]. unfold utf8_owed. cbn [bytes_needed flat_map length].
    rewrite Hneeded. lia.
Qed.

Lemma utf8_run_bound bs : forall st,
  (length (flat_map utf16_units (utf8_run st bs))
   <= length bs + utf8_owed st)%nat.
Proof.
  induction bs as [|b bs IH]; intros st; cbn [utf8_run length].
  - unfold utf8_owed. destruct (bytes_needed st =? 0)%N; cbn; lia.
  - destruct (utf8_handler st (Byte.to_N b)) as [st' out] eqn:Hh.
    apply utf8_handler_bound in Hh. rewrite flat_map_app, length_app.
    specialize (IH st'). lia.
Qed.

Lemma strip_bom_length bs : (length (strip_bom bs) <= length bs)%nat.
Proof.
  destruct bs as [|a [|b [|c rest]]]; cbn [strip_bom length]; try lia.
  destruct (_ && _); cbn [length]; lia.
Qed.

Lemma TextDecoder_decode_length bs :
  js_length (TextDecoder_decode bs) <= Z.of_nat (length bs).
Proof.
  unfold js_length, TextDecoder_decode.
  pose proof (utf8_run_bound (strip_bom bs) utf8_initial) as H.
  pose proof (strip_bom_length bs). cbn in H. lia.
Qed.

(** X8. The text decoded from a file never has more characters (UTF-16 code
    units) than the file has bytes, ill-formed input included; so in a
    success response to a text file [fileChars] is at least the length of
    the text that was sent to the vendors. *)
Theorem text_file_fileChars_bounds_characters w req fd f data :
  multipart req = true -> req_formData req = Some fd ->
  form_file fd = Some f -> text_kind fd = true ->
  result (POST w req) = Some (Response_json data) ->
  In (CallAnthropic ["token-counting-2024-11-01"] (model data)
        (TextContent (TextDecoder_decode (bytes f)))) (calls (POST w req)) /\
  js_length (TextDecoder_decode (bytes f)) <= fileChars data.
Proof.
  intros Hm Hfd Hf Hk Hr.
  assert (text_payload req =
          Some (TextDecoder_decode (bytes f), Z.of_nat (length (bytes f)),
                or_else (form_model fd) DEFAULT_MODEL)) as Ht.
  { unfold text_payload. now rewrite Hm, Hfd, Hf, Hk. }
  rewrite POST_result in Hr. rewrite POST_calls.
  rewrite (POST_body_text_payload w req _ _ _ Ht) in *.
  cbn [result fst calls snd] in *.
  destruct (anthropic_countTokens w _ _ _); [|discriminate].
  injection Hr as <-. cbn [fileChars model]. split.
  - right. apply in_or_app. right. now left.
  - apply TextDecoder_decode_length.
Qed.

Lemma text_file_fileChars_bounds_characters_witness :
  js_length (TextDecoder_decode (bytes fifty_e_acute)) <= 100.
Proof.
  exact (proj2 (text_file_fileChars_bounds_characters all_up
                  (TC.file_request fifty_e_acute "m" TC.Text)
                  {| form_file := Some (TC.as_part fifty_e_acute);
                     form_model := Some "m";
                     form_fileType := Some "text" |}
                  (TC.as_part fifty_e_acute)
                  {| input_tokens := 57; fileChars := 100; model := "m";
                     gpt4oTokens := Some 50; geminiTokens := Some 1 |}
                  eq_refl eq_refl eq_refl eq_refl eq_refl)).
Defined.

(** * Further properties of the client *)

(** X9. Whatever the request does (succeed, answer with an error, or
    reject), neither handler throws; each makes exactly the vendor calls of
    its one request, leaves the text, the file, its category and preview,
    the model and the dropdown as they were, and ends with [isProcessing]
    false.  With a blank text, or without a file, nothing is sent and
    [isProcessing] is left as it was. *)
Theorem handlers_always_settle fetch s :
  (forall t, exists s',
     result (TC.handleAnalyzeText fetch s t) = Some s' /\
     TC.text s' = TC.text s /\ TC.file s' = TC.file s /\
     TC.fileType s' = TC.fileType s /\ TC.filePreview s' = TC.filePreview s /\
     TC.selectedModel s' = TC.selectedModel s /\
     TC.showModelDropdown s' = TC.showModelDropdown s /\
     (if truthy (trim t)
      then TC.isProcessing s' = false /\
           calls (TC.handleAnalyzeText fetch s t) =
             calls (fetch (TC.text_request t (TC.selectedModel s)))
      else TC.isProcessing s' = TC.isProcessing s /\
           calls (TC.handleAnalyzeText fetch s t) = [])) /\
  (exists s',
     result (TC.handleAnalyzeFile fetch s) = Some s' /\
     TC.text s' = TC.text s /\ TC.file s' = TC.file s /\
     TC.fileType s' = TC.fileType s /\ TC.filePreview s' = TC.filePreview s /\
     TC.selectedModel s' = TC.selectedModel s /\
     TC.showModelDropdown s' = TC.showModelDropdown s /\
     match TC.file s with
     | Some f =>
         TC.isProcessing s' = false /\
         calls (TC.handleAnalyzeFile fetch s) =
           calls (fetch (TC.file_request f (TC.selectedModel s) (TC.fileType s)))
     | None => s' = s /\ calls (TC.handleAnalyzeFile fetch s) = []
     end).
Proof.
  split.
  - intros t. destruct (truthy (trim t)) eqn:Ht.
    + destruct (fetch (TC.text_request t (TC.selectedModel s)))
        as [[[data | e]|] log] eqn:Hf.
      * rewrite (handleAnalyzeText_ok fetch s t data log Ht Hf).
        eexists. split; [reflexivity|]. cbn. auto 10.
      * rewrite (handleAnalyzeText_failed fetch s t _ log Ht Hf)
          by discriminate.
        eexists. split; [reflexivity|]. cbn. auto 10.
      * rewrite (handleAnalyzeText_failed fetch s t _ log Ht Hf)
          by discriminate.
        eexists. split; [reflexivity|]. cbn. auto 10.
    + rewrite (handleAnalyzeText_blank fetch s t Ht).
      eexists. split; [reflexivity|]. cbn. auto 10.
  - destruct (TC.file s) as [f|] eqn:Hfile.
    + destruct (fetch (TC.file_request f (TC.selectedModel s) (TC.fileType s)))
        as [[[data | e]|] log] eqn:Hf.
      * rewrite (handleAnalyzeFile_ok fetch s f data log Hfile Hf).
        eexists. split; [reflexivity|]. cbn. auto 10.
      * rewrite (handleAnalyzeFile_failed fetch s f _ log Hfile Hf)
          by discriminate.
        eexists. split; [reflexivity|]. cbn. auto 10.
      * rewrite (handleAnalyzeFile_failed fetch s f _ log Hfile Hf)
          by discriminate.
        eexists. split; [reflexivity|]. cbn. auto 10.
    + unfold TC.handleAnalyzeFile. rewrite Hfile.
      eexists. split; [reflexivity|]. cbn. auto 10.
Qed.

(** X10. When a request fails (it rejects, or its response is not ok), the
    text handler sets the message "Failed to analyze text. Please try
    again.", nulls the three counts and keeps the length of the text as
    [chars]; the file handler sets "Failed to analyze file. Please try
    again.", nulls the counts, sets [chars] to 0 and drops the file name
    from the stats.  When a request succeeds the message is cleared and the
    estimator counts of the response are stored as they are. *)
Theorem request_outcome_policy fetch s :
  (forall t r log,
     truthy (trim t) = true ->
     fetch (TC.text_request t (TC.selectedModel s)) = (r, log) ->
     exists s',
       result (TC.handleAnalyzeText fetch s t) = Some s' /\
       match r with
       | Some (Response_json data) =>
           TC.error s' = None /\
           TC.gpt4oTokens (TC.stats s') = gpt4oTokens data /\
           TC.geminiTokens (TC.stats s') = geminiTokens data /\
           TC.chars (TC.stats s') = js_length t
       | _ =>
           TC.error s' = Some "Failed to analyze text. Please try again." /\
           TC.stats s' =
             {| TC.tokens := None; TC.gpt4oTokens := None;
                TC.geminiTokens := None; TC.chars := js_length t;
                TC.fileName := None |}
       end) /\
  (forall f r log,
     TC.file s = Some f ->
     fetch (TC.file_request f (TC.selectedModel s) (TC.fileType s)) = (r, log) ->
     exists s',
       result (TC.handleAnalyzeFile fetch s) = Some s' /\
       match r with
       | Some (Response_json data) =>
           TC.error s' = None /\
           TC.gpt4oTokens (TC.stats s') = gpt4oTokens data /\
           TC.geminiTokens (TC.stats s') = geminiTokens data /\
           TC.chars (TC.stats s') = fileChars data /\
           TC.fileName (TC.stats s') = Some (name f)
       | _ =>
           TC.error s' = Some "Failed to analyze file. Please try again." /\
           TC.stats s' = TC.no_stats
       end).
Proof.
  split.
  - intros t [[data | e]|] log Ht Hf.
    + rewrite (handleAnalyzeText_ok fetch s t data log Ht Hf).
      eexists. split; [reflexivity|]. cbn. auto.
    + rewrite (handleAnalyzeText_failed fetch s t _ log Ht Hf) by discriminate.
      eexists. split; [reflexivity|]. cbn. auto.
    + rewrite (handleAnalyzeText_failed fetch s t _ log Ht Hf) by discriminate.
      eexists. split; [reflexivity|]. cbn. auto.
  - intros f [[data | e]|] log Hfile Hf.
    + rewrite (handleAnalyzeFile_ok fetch s f data log Hfile Hf).
      eexists. split; [reflexivity|]. cbn.
      repeat split. destruct (Z.eqb_spec (fileChars data) 0); congruence.
    + rewrite (handleAnalyzeFile_failed fetch s f _ log Hfile Hf) by discriminate.
      eexists. split; [reflexivity|]. cbn. auto.
    + rewrite (handleAnalyzeFile_failed fetch s f _ log Hfile Hf) by discriminate.
      eexists. split; [reflexivity|]. cbn. auto.
Qed.

Lemma request_outcome_policy_witness :
  exists s',
    result (TC.handleAnalyzeText (POST primary_down) TC.initial hi) = Some s' /\
    TC.error s' = Some "Failed to analyze text. Please try again." /\
    TC.chars (TC.stats s') = 2.
Proof.
  destruct (proj1 (request_outcome_policy (POST primary_down) TC.initial)
              hi _ _ eq_refl eq_refl) as (s' & Hs' & He & Hst).
  exists s'. split; [exact Hs'|]. split; [exact He|]. now rewrite Hst.
Defined.

(** X11. The category the client attaches to a file decides the path of the
    route: a document count for pdf, an image count for image (with
    image/jpeg when the media type of the file is not png, gif or webp), and
    for text and unknown alike the decoded text sent to the encoder, to the
    third vendor (with a credential) and to the primary vendor. *)
Theorem category_decides_route w f m k :
  calls (POST w (TC.file_request f m k)) =
  match k with
  | TC.Pdf =>
      [CallAnthropic ["token-counting-2024-11-01"; "pdfs-2024-09-25"]
         (or_else (Some m) DEFAULT_MODEL)
         (DocumentBlock "application/pdf" (base64 (bytes f)))]
  | TC.Image =>
      [CallAnthropic ["token-counting-2024-11-01"]
         (or_else (Some m) DEFAULT_MODEL)
         (ImageBlock (mediaType (type (TC.as_part f))) (base64 (bytes f)))]
  | TC.Text | TC.Unknown =>
      CallGPT4o (TextDecoder_decode (bytes f))
      :: tertiary_calls w (TextDecoder_decode (bytes f))
      ++ [primary_text_call (or_else (Some m) DEFAULT_MODEL)
            (TextDecoder_decode (bytes f))]
  end.
Proof.
  rewrite POST_calls. destruct k.
  - pose proof (POST_body_image w (TC.file_request f m TC.Image) _
                  (TC.as_part f) eq_refl eq_refl eq_refl eq_refl) as H.
    cbn zeta in H. now rewrite H.
  - pose proof (POST_body_pdf w (TC.file_request f m TC.Pdf) _
                  (TC.as_part f) eq_refl eq_refl eq_refl eq_refl) as H.
    cbn zeta in H. now rewrite H.
  - now rewrite (POST_body_text_payload w _ _ _ _
                   (file_request_text_payload f m TC.Text (or_introl eq_refl))).
  - now rewrite (POST_body_text_payload w _ _ _ _
                   (file_request_text_payload f m TC.Unknown (or_intror eq_refl))).
Qed.

(** X12. A file of unknown category is analysed as a text, but its estimator
    counts are not shown: after a successful analysis of such a file (with a
    non-empty name) the stats hold the two counts of the response, and the
    panel renders neither the GPT-4o nor the Gemini cell. *)
Theorem unknown_file_estimators_hidden w s0 f n :
  TC.getFileTypeCategory f = TC.Unknown ->
  truthy_str (name f) = true ->
  anthropic_countTokens w ["token-counting-2024-11-01"]
    (or_else (Some (TC.selectedModel s0)) DEFAULT_MODEL)
    (TextContent (TextDecoder_decode (bytes f))) = Some n ->
  exists s',
    result (TC.handleAnalyzeFile (POST w) (TC.handleFileChange (Some f) s0))
      = Some s' /\
    TC.gpt4oTokens (TC.stats s') = secondary w (TextDecoder_decode (bytes f)) /\
    TC.geminiTokens (TC.stats s') = tertiary w (TextDecoder_decode (bytes f)) /\
    TC.gpt4o_cell (TC.render s') = None /\
    TC.gemini_cell (TC.render s') = None.
Proof.
  intros Hcat Hname Hn.
  remember (TC.handleFileChange (Some f) s0) as s eqn:Hs.
  assert (TC.file s = Some f /\ TC.fileType s = TC.Unknown /\
          TC.selectedModel s = TC.selectedModel s0) as (Hfile & Htype & Hmodel).
  { subst s. unfold TC.handleFileChange. rewrite Hcat. now cbn. }
  clear Hs.
  assert (POST w (TC.file_request f (TC.selectedModel s) (TC.fileType s)) =
          (Some (Response_json
                   {| input_tokens := n;
                      fileChars := Z.of_nat (length (bytes f));
                      model := or_else (Some (TC.selectedModel s)) DEFAULT_MODEL;
                      gpt4oTokens := secondary w (TextDecoder_decode (bytes f));
                      geminiTokens := tertiary w (TextDecoder_decode (bytes f)) |}),
           calls (POST w (TC.file_request f (TC.selectedModel s) (TC.fileType s)))))
    as HPOST.
  { rewrite Htype. unfold POST.
    rewrite (POST_body_text_payload w _ _ _ _
               (file_request_text_payload f _ TC.Unknown (or_intror eq_refl))).
    rewrite Hmodel, Hn. reflexivity. }
  rewrite (handleAnalyzeFile_ok (POST w) s f _ _ Hfile HPOST).
  eexists. split; [reflexivity|].
  unfold TC.render, TC.TokenMetrics. cbn. rewrite Hfile, Htype.
  unfold TC.no_name. rewrite Hname. cbn. auto.
Qed.

Lemma unknown_file_estimators_hidden_witness :
  exists s',
    result (TC.handleAnalyzeFile (POST all_up)
              (TC.handleFileChange (Some a_bin) TC.initial)) = Some s' /\
    TC.gpt4oTokens (TC.stats s') = Some 2 /\
    TC.gpt4o_cell (TC.render s') = None.
Proof.
  destruct (unknown_file_estimators_hidden all_up TC.initial a_bin 9
              eq_refl eq_refl eq_refl) as (s' & Hs' & Hg & _ & Hc & _).
  exists s'. split; [exact Hs'|]. split; [exact Hg | exact Hc].
Defined.

(** X13. With the route behind [fetch], analysing a text reaches the vendors
    exactly when the text has a character that is not white space: a blank
    text causes no vendor call, and any other text is sent to the encoder
    and to the primary vendor. *)
Theorem text_reaches_vendors_iff_visible w s t :
  (calls (TC.handleAnalyzeText (POST w) s t) = [] <->
   forallb is_white_space t = true) /\
  (forallb is_white_space t = false ->
   In (CallGPT4o t) (calls (TC.handleAnalyzeText (POST w) s t)) /\
   In (primary_text_call (or_else (Some (TC.selectedModel s)) DEFAULT_MODEL) t)
      (calls (TC.handleAnalyzeText (POST w) s t))).
Proof.
  assert (forallb is_white_space t = false ->
          calls (TC.handleAnalyzeText (POST w) s t) =
          CallGPT4o t :: tertiary_calls w t ++
          [primary_text_call (or_else (Some (TC.selectedModel s)) DEFAULT_MODEL) t])
    as Hsent.
  { intros Hvis.
    assert (truthy (trim t) = true) as Ht.
    { destruct (truthy (trim t)) eqn:E; [reflexivity|].
      apply blank_iff in E. congruence. }
    destruct (POST w (TC.text_request t (TC.selectedModel s))) as [r log] eqn:Hf.
    assert (log = calls (POST w (TC.text_request t (TC.selectedModel s)))) as Hlog
      by now rewrite Hf.
    rewrite POST_calls,
      (POST_body_text_payload w (TC.text_request t (TC.selectedModel s)) t 0
         (or_else (Some (TC.selectedModel s)) DEFAULT_MODEL) eq_refl) in Hlog.
    cbn [calls snd] in Hlog.
    destruct r as [[data | e]|].
    - now rewrite (handleAnalyzeText_ok (POST w) s t data log Ht Hf).
    - now rewrite (handleAnalyzeText_failed (POST w) s t _ log Ht Hf)
        by discriminate.
    - now rewrite (handleAnalyzeText_failed (POST w) s t _ log Ht Hf)
        by discriminate. }
  split.
  - split.
    + intros Hnone. destruct (forallb is_white_space t) eqn:E; [reflexivity|].
      rewrite (Hsent eq_refl) in Hnone. discriminate.
    + intros Hblank. apply blank_iff in Hblank.
      now rewrite (handleAnalyzeText_blank (POST w) s t Hblank).
  - intros Hvis. rewrite (Hsent Hvis). split; [now left|].
    right. apply in_or_app. right. now left.
Qed.

Lemma text_reaches_vendors_iff_visible_witness :
  In (CallGPT4o hi) (calls (TC.handleAnalyzeText (POST primary_down) TC.initial hi)).
Proof.
  exact (proj1 (proj2 (text_reaches_vendors_iff_visible primary_down
                         TC.initial hi) eq_refl)).
Defined.

(** X14. The model shown is the name of the selected model: selecting any
    model of the list shows its name, selecting an identifier that is not in
    the list shows the identifier itself; selecting closes the dropdown; and
    the model selected at the start is the one the route defaults to. *)
Theorem selected_model_name s :
  (forall m, In m TC.CLAUDE_MODELS ->
     TC.selectedModelName (TC.selectModel (TC.model_id m) s) = TC.model_name m) /\
  (forall id, (forall m, In m TC.CLAUDE_MODELS -> TC.model_id m <> id) ->
     TC.selectedModelName (TC.selectModel id s) = id) /\
  (forall id,
     TC.showModelDropdown (TC.selectModel id (toggleModelDropdown s)) = false /\
     TC.selectedModel (TC.selectModel id s) = id) /\
  TC.selectedModel TC.initial = DEFAULT_MODEL.
Proof.
  split; [|split; [|split]].
  - intros m Hin. cbn in Hin.
    repeat (destruct Hin as [<- | Hin]; [reflexivity|]). now elim Hin.
  - intros id Hnot. unfold TC.selectedModelName, TC.selectModel, TC.CLAUDE_MODELS.
    cbn [TC.selectedModel TC.setShowModelDropdown TC.setSelectedModel find TC.model_id].
    repeat match goal with
    | |- context [String.eqb ?a id] =>
        let H := fresh in
        assert (String.eqb a id = false) as H
          by (apply String.eqb_neq;
              refine (Hnot {| TC.model_id := a; TC.model_name := _ |} _);
              cbn; tauto);
        rewrite H; clear H
    end.
    reflexivity.
  - intros id. split; reflexivity.
  - reflexivity.
Qed.

Lemma selected_model_name_witness :
  TC.selectedModelName (TC.selectModel "claude-3-opus-20240229" TC.initial)
    = "Claude 3 Opus" /\
  TC.selectedModelName (TC.selectModel "claude-x" TC.initial) = "claude-x".
Proof.
  split.
  - apply (proj1 (selected_model_name TC.initial)
             {| TC.model_id := "claude-3-opus-20240229";
                TC.model_name := "Claude 3 Opus" |}).
    cbn. tauto.
  - apply (proj1 (proj2 (selected_model_name TC.initial)) "claude-x").
    intros m Hin. cbn in Hin.
    repeat (destruct Hin as [<- | Hin]; [discriminate|]). now elim Hin.
Defined.

(** X16. A file whose media type is missing is a text when its name ends in
    .md or .csv and unknown otherwise, whatever else its name says; either
    way it is analysed as a text: its bytes are decoded and sent to the
    encoder and to the primary vendor. *)
Theorem file_without_media_type w f m :
  type f = EmptyString ->
  TC.getFileTypeCategory f =
    (if endsWith (name f) ".md" || endsWith (name f) ".csv"
     then TC.Text else TC.Unknown) /\
  calls (POST w (TC.file_request f m (TC.getFileTypeCategory f))) =
    CallGPT4o (TextDecoder_decode (bytes f))
    :: tertiary_calls w (TextDecoder_decode (bytes f))
    ++ [primary_text_call (or_else (Some m) DEFAULT_MODEL)
          (TextDecoder_decode (bytes f))].
Proof.
  intros Htype.
  assert (TC.getFileTypeCategory f =
          (if endsWith (name f) ".md" || endsWith (name f) ".csv"
           then TC.Text else TC.Unknown)) as Hcat.
  { unfold TC.getFileTypeCategory. rewrite Htype. reflexivity. }
  split; [exact Hcat|]. rewrite POST_calls.
  assert (TC.getFileTypeCategory f = TC.Text \/
          TC.getFileTypeCategory f = TC.Unknown) as Hk.
  { rewrite Hcat. destruct (_ || _); auto. }
  now rewrite (POST_body_text_payload w _ _ _ _
                 (file_request_text_payload f m _ Hk)).
Qed.

Lemma file_without_media_type_witness :
  TC.getFileTypeCategory a_md = TC.Text /\
  TC.getFileTypeCategory
    {| name := "scan.pdf"; type := EmptyString; bytes := bytes a_pdf |}
    = TC.Unknown.
Proof.
  split.
  - exact (proj1 (file_without_media_type all_up a_md "m" eq_refl)).
  - exact (proj1 (file_without_media_type all_up
                    {| name := "scan.pdf"; type := EmptyString;
                       bytes := bytes a_pdf |} "m" eq_refl)).
Defined.

(** * Further properties of the debounced analysis *)

Section DebounceBursts.

Context {A : Type}.
Implicit Types (s : TC.Running A) (e : TC.event A) (evs : list (TC.event A)).

(** A call followed by less than [delay] milliseconds dispatches nothing. *)
Lemma invoke_then_wait evs s a g :
  settled evs s -> (g < TC.delay (TC.closure s))%nat ->
  TC.run s (TC.Invoke a :: repeat TC.Tick g) =
  {| TC.closure := {| TC.delay := TC.delay (TC.closure s);
                      TC.timeoutId := Some (TC.next_id (TC.timers s)) |};
     TC.timers :=
       {| TC.now := (TC.now (TC.timers s) + g)%nat;
          TC.next_id := S (TC.next_id (TC.timers s));
          TC.pending :=
            [{| TC.timer_id := TC.next_id (TC.timers s);
                TC.due := (TC.now (TC.timers s) + TC.delay (TC.closure s))%nat;
                TC.args := a |}] |};
     TC.dispatched := TC.dispatched s |}.
Proof.
  intros Hs Hg. cbn [TC.run fold_left]. fold (TC.run (A := A)).
  change (fold_left TC.step (repeat TC.Tick g) ?x) with (TC.run x (repeat TC.Tick g)).
  rewrite (invoke_settled evs s a Hs).
  rewrite (ticks_before_due g _
             {| TC.timer_id := TC.next_id (TC.timers s);
                TC.due := (TC.now (TC.timers s) + TC.delay (TC.closure s))%nat;
                TC.args := a |});
    [reflexivity | reflexivity | cbn; lia].
Qed.

(** A call followed by [delay] milliseconds dispatches its arguments. *)
Lemma invoke_then_fire d evs a k :
  TC.delay d = S k ->
  TC.dispatched (TC.run (TC.start d) (evs ++ TC.Invoke a :: repeat TC.Tick (S k))) =
  TC.dispatched (TC.run (TC.start d) evs) ++ [a].
Proof.
  intros Hd. rewrite run_app.
  pose proof (run_settled d evs) as Hs. pose proof (run_delay d evs) as Hdelay.
  set (s := TC.run (TC.start d) evs) in *.
  change (TC.Invoke a :: repeat TC.Tick (S k))
    with (TC.Invoke a :: (TC.Tick :: repeat TC.Tick k)).
  rewrite repeat_cons, app_comm_cons, run_app.
  rewrite (invoke_then_wait evs s a k Hs) by lia.
  cbn [TC.run fold_left].
  rewrite (tick_at_due _
             {| TC.timer_id := TC.next_id (TC.timers s);
                TC.due := (TC.now (TC.timers s) + TC.delay (TC.closure s))%nat;
                TC.args := a |});
    [reflexivity | reflexivity | cbn; lia].
Qed.

Lemma burst_quiet d (burst : list (A * nat)) : forall evs,
  Forall (fun c => (snd c < TC.delay d)%nat) burst ->
  TC.dispatched (TC.run (TC.start d) (evs ++ burst_events burst)) =
  TC.dispatched (TC.run (TC.start d) evs).
Proof.
  induction burst as [|[a g] burst IH]; intros evs Hgaps.
  - cbn. now rewrite app_nil_r.
  - inversion Hgaps as [|? ? Hg Hrest]; subst. cbn in Hg.
    cbn [burst_events flat_map]. fold (burst_events burst).
    change (evs ++ (TC.Invoke a :: repeat TC.Tick g) ++ burst_events burst)
      with (evs ++ ((TC.Invoke a :: repeat TC.Tick g) ++ burst_events burst)).
    rewrite app_assoc, (IH _ Hrest), run_app.
    rewrite (invoke_then_wait evs _ a g (run_settled d evs));
      [reflexivity | now rewrite run_delay].
Qed.

Lemma dispatches_are_calls d evs :
  incl (TC.dispatched (TC.run (TC.start d) evs)) (invoked evs) /\
  (length (TC.dispatched (TC.run (TC.start d) evs))
   + length (TC.pending (TC.timers (TC.run (TC.start d) evs)))
   <= length (invoked evs))%nat.
Proof.
  induction evs as [|e evs [IHin IHlen]] using rev_ind.
  - cbn. split; [easy | lia].
  - rewrite run_app, invoked_app, length_app.
    pose proof (run_settled d evs) as Hs.
    set (s := TC.run (TC.start d) evs) in *.
    cbn [TC.run fold_left]. destruct e as [a|].
    + rewrite (invoke_settled evs s a Hs). cbn. split.
      * intros x Hx. apply in_or_app. left. now apply IHin.
      * destruct Hs as [Hnone | (t & Hone & _)].
        -- rewrite Hnone in IHlen. cbn in IHlen. lia.
        -- rewrite Hone in IHlen. cbn in IHlen. lia.
    + cbn [invoked flat_map app length]. rewrite app_nil_r, Nat.add_0_r.
      unfold TC.step, TC.tick.
      destruct Hs as [Hnone | (t & Hone & _ & Hlatest & _)].
      * rewrite Hnone in *. cbn. rewrite app_nil_r. auto.
      * rewrite Hone in *. cbn.
        destruct (TC.due t <=? S (TC.now (TC.timers s)))%nat; cbn.
        -- split.
           ++ intros x Hx. apply in_app_or in Hx.
              destruct Hx as [Hx | [<- | []]]; [now apply IHin|].
              now apply latest_invoked.
           ++ rewrite length_app. cbn in *. lia.
        -- rewrite app_nil_r. auto.
Qed.

End DebounceBursts.

(** X18. The debounced analysis dispatches nothing of its own: after any
    sequence of calls and elapsed milliseconds every dispatched text is one
    that was passed to a call, and the dispatches, together with the one
    still scheduled, are no more than the calls. *)
Theorem dispatches_come_from_calls (evs : list (TC.event jsstring)) :
  (forall text,
     In text (TC.dispatched (TC.run (TC.start TC.debouncedHandleAnalyzeText) evs)) ->
     In text (invoked evs)) /\
  (length (TC.dispatched (TC.run (TC.start TC.debouncedHandleAnalyzeText) evs))
   + length (TC.pending
               (TC.timers (TC.run (TC.start TC.debouncedHandleAnalyzeText) evs)))
   <= length (invoked evs))%nat.
Proof.
  destruct (dispatches_are_calls TC.debouncedHandleAnalyzeText evs) as [Hin Hlen].
  split; [exact Hin | exact Hlen].
Qed.

Lemma dispatches_come_from_calls_witness :
  In hi (invoked ([TC.Invoke [0x48]%N; TC.Tick]
                  ++ TC.Invoke hi :: repeat TC.Tick 300)).
Proof.
  apply (proj1 (dispatches_come_from_calls
                  ([TC.Invoke [0x48]%N; TC.Tick]
                   ++ TC.Invoke hi :: repeat TC.Tick 300))).
  rewrite (invoke_then_fire TC.debouncedHandleAnalyzeText
             [TC.Invoke [0x48]%N; TC.Tick] hi 299 eq_refl).
  apply in_or_app. right. now left.
Defined.

(** X19. Clearing the text does not cancel a scheduled analysis: the effect
    calls the debounced function for a non-empty text, makes no call when
    the text becomes empty, and the text typed before is then dispatched
    300 ms after it was typed although the text area is empty. *)
Theorem clearing_text_keeps_scheduled_analysis s t :
  TC.file s = None -> truthy t = true ->
  effect_events (TC.setText t s) = [TC.Invoke t] /\
  effect_events (TC.setText [] (TC.setText t s)) = [] /\
  TC.dispatched
    (TC.run (TC.start TC.debouncedHandleAnalyzeText)
       (effect_events (TC.setText t s)
        ++ effect_events (TC.setText [] (TC.setText t s))
        ++ repeat TC.Tick 300)) = [t].
Proof.
  intros Hfile Ht.
  assert (effect_events (TC.setText t s) = [TC.Invoke t]) as H1.
  { unfold effect_events, TC.useEffect_call. cbn. now rewrite Hfile, Ht. }
  assert (effect_events (TC.setText [] (TC.setText t s)) = []) as H2.
  { unfold effect_events, TC.useEffect_call. cbn. now rewrite Hfile. }
  rewrite H1, H2. split; [reflexivity|]. split; [reflexivity|].
  exact (invoke_then_fire TC.debouncedHandleAnalyzeText [] t 299 eq_refl).
Qed.

Lemma clearing_text_keeps_scheduled_analysis_witness :
  TC.dispatched
    (TC.run (TC.start TC.debouncedHandleAnalyzeText)
       (effect_events (TC.setText hi TC.initial)
        ++ effect_events (TC.setText [] (TC.setText hi TC.initial))
        ++ repeat TC.Tick 300)) = [hi].
Proof.
  exact (proj2 (proj2 (clearing_text_keeps_scheduled_analysis TC.initial hi
                         eq_refl eq_refl))).
Defined.

(** * The component: files and bursts of keystrokes *)

(** Selecting a file sends nothing to the debounced function, and leaves
    its timers as they are. *)
Lemma file_selection_step p f :
  ui (ui_step p (FilePicked f)) = TC.handleFileChange (Some f) (ui p) /\
  captured_model (ui_step p (FilePicked f)) = captured_model p /\
  running (ui_step p (FilePicked f)) = running p /\
  sent_by p (FilePicked f) = [].
Proof.
  unfold ui_step, sent_by, handler, rerender, effect_call.
  assert (TC.selectedModel (TC.handleFileChange (Some f) (ui p))
          = TC.selectedModel (ui p)) as Hm
    by (unfold TC.handleFileChange; now destruct (TC.getFileTypeCategory f)).
  assert (TC.useEffect_call (TC.handleFileChange (Some f) (ui p)) = None) as ->
    by (unfold TC.handleFileChange, TC.useEffect_call;
        now destruct (TC.getFileTypeCategory f)).
  rewrite (adopts_same _ _ Hm).
  destruct (effect_runs _ _ _); repeat split.
Qed.

(** X15. Selecting a file empties the text and the counts, and while it is
    selected nothing is sent to the debounced analysis; but it does not
    cancel the analysis of a text typed less than 300 ms before.  That
    analysis is still scheduled, it is dispatched 300 ms after the
    keystroke with the typed text, and its response replaces the stats of
    the file by the counts of the text, without a file name, while the file
    stays selected and the text area stays hidden. *)
Theorem file_selection_keeps_scheduled_analysis
    (uevs : list ui_event) (t : jsstring) (g : nat) (f : File) :
  Forall (keeps_model sonnet_3_7) uevs ->
  let p := ui_run page0 uevs in
  TC.file (ui p) = None -> truthy t = true -> t <> TC.text (ui p) ->
  (g < 300)%nat ->
  let q := ui_run p (TextTyped t :: repeat Millisecond g ++ [FilePicked f]) in
  let q' := ui_run q (repeat Millisecond (300 - g)) in
  (TC.text (ui q) = [] /\
   TC.file (ui q) = Some f /\
   TC.fileType (ui q) = TC.getFileTypeCategory f /\
   TC.stats (ui q) =
     {| TC.tokens := None; TC.gpt4oTokens := None; TC.geminiTokens := None;
        TC.chars := 0; TC.fileName := Some (name f) |}) /\
  (forall v, sent_by q (TextTyped v) = [] /\ ui_step q (TextTyped v) = q) /\
  sent_by q FileCleared = [] /\
  TC.pending (TC.timers (running q)) =
    [{| TC.timer_id := TC.next_id (TC.timers (running p));
        TC.due := (TC.now (TC.timers (running p)) + 300)%nat;
        TC.args := (t, sonnet_3_7) |}] /\
  TC.dispatched (running q) = TC.dispatched (running p) /\
  ui q' = ui q /\
  TC.dispatched (running q') = TC.dispatched (running p) ++ [(t, sonnet_3_7)] /\
  (forall fetch data log,
     truthy (trim t) = true ->
     fetch (TC.text_request t sonnet_3_7) = (Some (Response_json data), log) ->
     exists s',
       result (TC.handleAnalyzeText fetch (ui q') t) = Some s' /\
       TC.file s' = Some f /\
       TC.text s' = [] /\
       TC.chars (TC.stats s') = js_length t /\
       TC.gpt4oTokens (TC.stats s') = gpt4oTokens data /\
       TC.geminiTokens (TC.stats s') = geminiTokens data /\
       TC.fileName (TC.stats s') = None /\
       estimators_shown s').
Proof.
  intros Hkeep p Hf Ht Hne Hg q q'.
  destruct (ui_run_same_model uevs page0 eq_refl Hkeep) as (Hr & Hm & Hc & _).
  fold p in Hr, Hm, Hc.
  change (TC.selectedModel (ui page0)) with sonnet_3_7 in Hm.
  change (captured_model page0) with sonnet_3_7 in Hc.
  change (running page0) with
    (TC.start (A := jsstring * string) TC.debouncedHandleAnalyzeText) in Hr.
  pose proof (run_settled TC.debouncedHandleAnalyzeText (sent page0 uevs)) as Hs.
  pose proof (run_delay TC.debouncedHandleAnalyzeText (sent page0 uevs)) as Hd.
  rewrite <- Hr in Hs, Hd. cbn in Hd.
  destruct (keystroke_call p t Hf Ht Hne) as (_ & Hu1 & Hc1 & Hr1).
  destruct (ui_run_milliseconds g (ui_step p (TextTyped t))) as (Hu2 & Hc2 & Hr2).
  destruct (file_selection_step
              (ui_run (ui_step p (TextTyped t)) (repeat Millisecond g)) f)
    as (Hu3 & Hc3 & Hr3 & _).
  assert (q = ui_step (ui_run (ui_step p (TextTyped t)) (repeat Millisecond g))
                      (FilePicked f)) as Hq.
  { subst q. unfold ui_run. cbn [fold_left]. now rewrite fold_left_app. }
  rewrite <- Hq in Hu3, Hc3, Hr3. clear Hq.
  rewrite Hu2, Hu1 in Hu3. rewrite Hc2, Hc1, Hc in Hc3.
  rewrite Hr2, Hr1, Hc in Hr3.
  change (TC.run (TC.step (running p) (TC.Invoke (t, sonnet_3_7)))
            (repeat TC.Tick g))
    with (TC.run (running p) (TC.Invoke (t, sonnet_3_7) :: repeat TC.Tick g))
    in Hr3.
  rewrite (invoke_then_wait (sent page0 uevs) (running p) (t, sonnet_3_7) g Hs)
    in Hr3 by lia.
  rewrite Hd in Hr3.
  destruct (ui_run_milliseconds (300 - g) q) as (Hu4 & _ & Hr4).
  fold q' in Hu4, Hr4.
  assert (TC.text (ui q) = [] /\ TC.file (ui q) = Some f /\
          TC.fileType (ui q) = TC.getFileTypeCategory f /\
          TC.stats (ui q) =
            {| TC.tokens := None; TC.gpt4oTokens := None;
               TC.geminiTokens := None; TC.chars := 0;
               TC.fileName := Some (name f) |} /\
          TC.selectedModel (ui q) = sonnet_3_7) as (Htext & Hfile & Htype & Hstats & Hmodel).
  { rewrite Hu3. unfold TC.handleFileChange.
    destruct (TC.getFileTypeCategory f); cbn; auto. }
  split; [auto|]. split; [|split; [|split; [|split; [|split; [|split]]]]].
  - intros v. unfold sent_by, ui_step, handler. now rewrite Hfile.
  - unfold sent_by, handler, effect_call. rewrite Hfile.
    rewrite (adopts_same (ui q) (TC.clearFile (ui q)) eq_refl).
    assert (TC.useEffect_call (TC.clearFile (ui q)) = None) as ->.
    { unfold TC.useEffect_call.
      change (TC.file (TC.clearFile (ui q))) with (@None File).
      change (TC.text (TC.clearFile (ui q))) with (TC.text (ui q)).
      now rewrite Htext. }
    now destruct (effect_runs _ _ _).
  - now rewrite Hr3.
  - now rewrite Hr3.
  - exact Hu4.
  - rewrite Hr4.
    destruct (ticks_past_due (300 - g) (running q)
                {| TC.timer_id := TC.next_id (TC.timers (running p));
                   TC.due := (TC.now (TC.timers (running p)) + 300)%nat;
                   TC.args := (t, sonnet_3_7) |}) as [-> _].
    + now rewrite Hr3.
    + rewrite Hr3. cbn [TC.timers TC.now TC.due]. lia.
    + now rewrite Hr3.
  - intros fetch data log Htrim Hfetch. rewrite Hu4.
    rewrite <- Hmodel in Hfetch.
    rewrite (handleAnalyzeText_ok fetch (ui q) t data log Htrim Hfetch).
    eexists. split; [reflexivity|]. cbn.
    repeat split; try assumption. right. right. reflexivity.
Qed.

Lemma file_selection_keeps_scheduled_analysis_witness :
  TC.dispatched
    (running
       (ui_run
          (ui_run (ui_run page0 [])
             (TextTyped hi :: repeat Millisecond 120 ++ [FilePicked a_pdf]))
          (repeat Millisecond (300 - 120)))) =
    TC.dispatched (running (ui_run page0 [])) ++ [(hi, sonnet_3_7)] /\
  exists s',
    result
      (TC.handleAnalyzeText (POST all_up)
         (ui (ui_run
                (ui_run (ui_run page0 [])
                   (TextTyped hi :: repeat Millisecond 120 ++ [FilePicked a_pdf]))
                (repeat Millisecond (300 - 120))))
         hi) = Some s' /\
    TC.file s' = Some a_pdf /\
    TC.chars (TC.stats s') = 2 /\
    TC.fileName (TC.stats s') = None.
Proof.
  assert (hi <> TC.text (ui (ui_run page0 []))) as Hne by discriminate.
  assert (120 < 300)%nat as Hg by lia.
  pose proof (file_selection_keeps_scheduled_analysis [] hi 120 a_pdf
                (Forall_nil _) eq_refl eq_refl Hne Hg)
    as (_ & _ & _ & _ & _ & _ & Hfire & Hresp).
  split; [exact Hfire|].
  destruct (Hresp (POST all_up)
              _ _ eq_refl eq_refl)
    as (s' & Hs' & Hfile & _ & Hchars & _ & _ & Hname & _).
  exists s'. auto.
Defined.

Lemma keystrokes_keep_model m burst : Forall (keeps_model m) (keystrokes burst).
Proof.
  induction burst as [|[v g] burst IH]; [constructor|].
  cbn [keystrokes flat_map]. constructor; [exact I|].
  apply Forall_app. split; [|exact IH].
  clear. induction g; constructor; easy.
Qed.

(** What a burst of keystrokes sends to the debounced function: one call
    for every keystroke, with the typed text. *)
Lemma sent_keystrokes burst : forall p rest,
  TC.file (ui p) = None ->
  typed_anew (TC.text (ui p)) (map fst burst ++ rest) ->
  sent p (keystrokes burst) =
    burst_events (map (fun c => ((fst c, captured_model p), snd c)) burst) /\
  TC.file (ui (ui_run p (keystrokes burst))) = None /\
  captured_model (ui_run p (keystrokes burst)) = captured_model p /\
  typed_anew (TC.text (ui (ui_run p (keystrokes burst)))) rest.
Proof.
  induction burst as [|[v g] burst IH]; intros p rest Hf Hnew.
  - cbn. auto.
  - cbn [map fst app typed_anew] in Hnew. destruct Hnew as (Hv & Hne & Hnew).
    destruct (keystroke_call p v Hf Hv Hne) as (Hsent & Hu & Hc & _).
    destruct (ui_run_milliseconds g (ui_step p (TextTyped v))) as (Hu' & Hc' & _).
    cbn [keystrokes flat_map]. fold (keystrokes burst).
    change ((TextTyped v :: repeat Millisecond g) ++ keystrokes burst)
      with (TextTyped v :: (repeat Millisecond g ++ keystrokes burst)).
    cbn [sent ui_run fold_left].
    change (fold_left ui_step ?l ?x) with (ui_run x l).
    rewrite sent_app, ui_run_app, sent_milliseconds, Hsent.
    destruct (IH (ui_run (ui_step p (TextTyped v)) (repeat Millisecond g)) rest)
      as (Hs & Hf' & Hc'' & Hnew').
    + now rewrite Hu', Hu.
    + now rewrite Hu', Hu.
    + rewrite Hs, Hf', Hc'', Hc', Hc. split; [reflexivity|]. auto.
Qed.

(** X17. In the component, as long as the selected model is not changed and
    no file is selected: however many texts are typed, each not empty and
    not the text before it, and each followed by less than 300 ms before the
    next keystroke, none of them is dispatched; only the last one is, 300 ms
    after it was typed, with the selected model; and earlier dispatches are
    left as they were. *)
Theorem burst_dispatches_last_only
    (uevs : list ui_event) (burst : list (jsstring * nat)) (last : jsstring) :
  Forall (keeps_model sonnet_3_7) uevs ->
  let p := ui_run page0 uevs in
  TC.file (ui p) = None ->
  typed_anew (TC.text (ui p)) (map fst burst ++ [last]) ->
  Forall (fun c => (snd c < 300)%nat) burst ->
  TC.dispatched (running (ui_run p (keystrokes burst))) =
    TC.dispatched (running p) /\
  TC.dispatched
    (running (ui_run p (keystrokes burst
                        ++ TextTyped last :: repeat Millisecond 299))) =
    TC.dispatched (running p) /\
  TC.dispatched
    (running (ui_run p (keystrokes burst
                        ++ TextTyped last :: repeat Millisecond 300))) =
    TC.dispatched (running p) ++ [(last, sonnet_3_7)].
Proof.
  intros Hkeep p Hf Hnew Hgaps.
  destruct (ui_run_same_model uevs page0 eq_refl Hkeep) as (Hr & Hm & Hc & _).
  fold p in Hr, Hm, Hc.
  change (captured_model page0) with sonnet_3_7 in Hc.
  change (running page0) with
    (TC.start (A := jsstring * string) TC.debouncedHandleAnalyzeText) in Hr.
  destruct (sent_keystrokes burst p [last] Hf Hnew) as (Hsent & Hf' & Hc' & Hlast).
  rewrite Hc in Hsent, Hc'.
  cbn [typed_anew] in Hlast. destruct Hlast as (Hv & Hne & _).
  set (calls := map (fun c : jsstring * nat => ((fst c, sonnet_3_7), snd c)) burst) in *.
  assert (Forall (fun c => (snd c < TC.delay TC.debouncedHandleAnalyzeText)%nat)
            calls) as Hgaps'.
  { subst calls. rewrite Forall_map. exact Hgaps. }
  assert (forall tail,
            Forall (keeps_model sonnet_3_7) tail ->
            running (ui_run p (keystrokes burst ++ tail)) =
            TC.run (TC.start TC.debouncedHandleAnalyzeText)
              ((sent page0 uevs ++ burst_events calls)
               ++ sent (ui_run p (keystrokes burst)) tail)) as Hrun.
  { intros tail Htail.
    destruct (ui_run_same_model (uevs ++ keystrokes burst ++ tail) page0 eq_refl)
      as (Hr' & _).
    - apply Forall_app. split; [exact Hkeep|].
      apply Forall_app. split; [apply keystrokes_keep_model | exact Htail].
    - rewrite ui_run_app in Hr'. fold p in Hr'. rewrite Hr'.
      rewrite sent_app. fold p. rewrite sent_app, Hsent.
      now rewrite app_assoc. }
  destruct (keystroke_call (ui_run p (keystrokes burst)) last Hf' Hv Hne)
    as (Hcall & _).
  rewrite Hc' in Hcall.
  assert (forall k,
            sent (ui_run p (keystrokes burst))
                 (TextTyped last :: repeat Millisecond k) =
            TC.Invoke (last, sonnet_3_7) :: repeat TC.Tick k) as Htail.
  { intros k. cbn [sent]. now rewrite Hcall, sent_milliseconds. }
  assert (forall k, Forall (keeps_model sonnet_3_7)
                      (TextTyped last :: repeat Millisecond k)) as Hk.
  { intros k. constructor; [exact I|]. induction k; constructor; easy. }
  split; [|split].
  - pose proof (Hrun [] (Forall_nil _)) as H0.
    rewrite !app_nil_r in H0. rewrite H0.
    now rewrite burst_quiet, <- Hr.
  - rewrite (Hrun _ (Hk 299%nat)), Htail, run_app.
    rewrite (invoke_then_wait (sent page0 uevs ++ burst_events calls) _
               (last, sonnet_3_7) 299 (run_settled _ _))
      by (rewrite run_delay; cbn; lia).
    cbn [TC.dispatched]. now rewrite burst_quiet, <- Hr.
  - rewrite (Hrun _ (Hk 300%nat)), Htail.
    rewrite (invoke_then_fire TC.debouncedHandleAnalyzeText _
               (last, sonnet_3_7) 299 eq_refl).
    now rewrite burst_quiet, <- Hr.
Qed.

Lemma burst_dispatches_last_only_witness :
  TC.dispatched
    (running
       (ui_run (ui_run page0 [TextTyped hi; Millisecond])
          (keystrokes [([0x48]%N, 120%nat); (hi, 299%nat)]
           ++ TextTyped [0x48]%N :: repeat Millisecond 300))) =
  TC.dispatched (running (ui_run page0 [TextTyped hi; Millisecond]))
  ++ [([0x48]%N, sonnet_3_7)].
Proof.
  refine (proj2 (proj2 (burst_dispatches_last_only
                          [TextTyped hi; Millisecond]
                          [([0x48]%N, 120%nat); (hi, 299%nat)]
                          [0x48]%N _ eq_refl _ _))).
  - repeat constructor.
  - cbn. repeat split; discriminate.
  - repeat constructor; cbn; lia.
Defined.

(** * The two revisions of the route *)

Lemma filter_primary_text_calls w t m :
  filter is_primary (CallGPT4o t :: tertiary_calls w t ++ [primary_text_call m t]) =
  [primary_text_call m t].
Proof.
  unfold tertiary_calls.
  destruct (GEMINI_API_KEY w) as [key|]; [destruct (truthy_str key)|]; reflexivity.
Qed.

(** X20. The first revision of the route decides by the media type of the
    file and ignores the declared kind: a file of type application/pdf gets
    the document count and its byte length as [fileChars]; any other file is
    decoded as text, counted by the primary vendor alone, and gets the
    character length of the decoded text as [fileChars]. *)
Theorem v1_file_by_media_type w req fd f data :
  multipart req = true -> req_formData req = Some fd -> form_file fd = Some f ->
  result (RouteV1.POST w req) = Some (RouteV1.Response_json data) ->
  if String.eqb (type f) "application/pdf" then
    calls (RouteV1.POST w req) =
      [CallAnthropic ["token-counting-2024-11-01"; "pdfs-2024-09-25"]
         (RouteV1.model data)
         (DocumentBlock "application/pdf" (base64 (bytes f)))] /\
    RouteV1.fileChars data = Z.of_nat (length (bytes f))
  else
    calls (RouteV1.POST w req) =
      [primary_text_call (RouteV1.model data) (TextDecoder_decode (bytes f))] /\
    RouteV1.fileChars data = js_length (TextDecoder_decode (bytes f)).
Proof.
  unfold multipart, RouteV1.POST, RouteV1.POST_body. intros -> ->.
  cbn [attempt bind]. intros ->.
  destruct (String.eqb (type f) "application/pdf"); unfold call;
    destruct (anthropic_countTokens w _ _ _); cbn; try discriminate;
    intros [= <-]; now cbn.
Qed.

Lemma v1_file_by_media_type_witness :
  RouteV1.fileChars
    {| RouteV1.input_tokens := 8; RouteV1.fileChars := 1; RouteV1.model := "m" |}
  = js_length (TextDecoder_decode (bytes one_e_acute)).
Proof.
  exact (proj2 (v1_file_by_media_type all_up
                  (TC.file_request one_e_acute "m" TC.Text)
                  {| form_file := Some (TC.as_part one_e_acute);
                     form_model := Some "m";
                     form_fileType := Some "text" |}
                  (TC.as_part one_e_acute)
                  {| RouteV1.input_tokens := 8; RouteV1.fileChars := 1;
                     RouteV1.model := "m" |}
                  eq_refl eq_refl eq_refl eq_refl)).
Defined.

(** X21. The second revision changes nothing of what the first answers to a
    JSON request, to a form without a file, or to a PDF declared as one: the
    response is the same without the two estimator fields, and the primary
    call is the same.  For a file declared as text that is not a PDF the two
    make the same primary call and differ in [fileChars] alone: characters
    in the first, bytes in the second. *)
Theorem revisions_agree w req :
  (multipart req = false \/
   (exists fd, req_formData req = Some fd /\ form_file fd = None) \/
   (exists fd f, req_formData req = Some fd /\ form_file fd = Some f /\
                 strict_eq (form_fileType fd) "pdf" = true /\
                 type f = "application/pdf") ->
   result (RouteV1.POST w req) = option_map forget_estimators (result (POST w req)) /\
   calls (RouteV1.POST w req) = filter is_primary (calls (POST w req))) /\
  (forall fd f,
     multipart req = true -> req_formData req = Some fd ->
     form_file fd = Some f -> text_kind fd = true ->
     type f <> "application/pdf" ->
     calls (RouteV1.POST w req) = filter is_primary (calls (POST w req)) /\
     (forall d2, result (POST w req) = Some (Response_json d2) ->
        result (RouteV1.POST w req) =
          Some (RouteV1.Response_json
                  {| RouteV1.input_tokens := input_tokens d2;
                     RouteV1.fileChars := js_length (TextDecoder_decode (bytes f));
                     RouteV1.model := model d2 |}) /\
        fileChars d2 = Z.of_nat (length (bytes f)))).
Proof.
  split.
  - intros Hcase. unfold RouteV1.POST, RouteV1.POST_body, POST, POST_body.
    fold (multipart req).
    destruct (multipart req) eqn:Hm.
    + destruct Hcase as [Hc | [(fd & Hfd & Hf) | (fd & f & Hfd & Hf & Hpdf & Htype)]];
        [discriminate | |]; rewrite Hfd; cbn [attempt bind]; rewrite Hf.
      * rewrite count_text_eq. unfold call, primary_text_call.
        change RouteV1.DEFAULT_MODEL with DEFAULT_MODEL.
        destruct (anthropic_countTokens w _ _ _); split; reflexivity.
      * rewrite Hpdf, Htype. cbn [String.eqb Ascii.eqb Bool.eqb]. unfold call.
        change RouteV1.DEFAULT_MODEL with DEFAULT_MODEL.
        destruct (anthropic_countTokens w _ _ _); split; reflexivity.
    + destruct (req_json req) as [jd|]; [|split; reflexivity].
      cbn [attempt bind].
      rewrite getGPT4oTokenCount_eq. cbn [bind].
      rewrite getGeminiTokenCount_eq. cbn [bind].
      rewrite count_text_eq. unfold call.
      change RouteV1.DEFAULT_MODEL with DEFAULT_MODEL.
      destruct (anthropic_countTokens w _ _ _);
        cbn [try_catch result calls fst snd ret app];
        rewrite ?app_nil_r, filter_primary_text_calls; split; reflexivity.
  - intros fd f Hm Hfd Hf Hk Htype.
    assert (text_payload req =
            Some (TextDecoder_decode (bytes f), Z.of_nat (length (bytes f)),
                  or_else (form_model fd) DEFAULT_MODEL)) as Ht.
    { unfold text_payload. now rewrite Hm, Hfd, Hf, Hk. }
    rewrite POST_calls, POST_result, (POST_body_text_payload w req _ _ _ Ht).
    cbn [calls snd result fst]. rewrite filter_primary_text_calls.
    unfold RouteV1.POST, RouteV1.POST_body. fold (multipart req).
    rewrite Hm, Hfd. cbn [attempt bind]. rewrite Hf.
    apply String.eqb_neq in Htype. rewrite Htype. unfold call, primary_text_call.
    change RouteV1.DEFAULT_MODEL with DEFAULT_MODEL.
    destruct (anthropic_countTokens w _ _ _); cbn.
    + split; [reflexivity|]. intros d2 [= <-]. now cbn.
    + split; [reflexivity|]. discriminate.
Qed.

Lemma revisions_agree_witness :
  result (RouteV1.POST all_up (TC.text_request hi "m")) =
    option_map forget_estimators (result (POST all_up (TC.text_request hi "m"))).
Proof.
  exact (proj1 (proj1 (revisions_agree all_up (TC.text_request hi "m"))
                  (or_introl eq_refl))).
Defined.

(** * Further properties of the encodings and of the panel *)

Lemma base64_length_upto n : forall bs,
  (length bs <= n)%nat ->
  String.length (base64 bs) = (4 * ((length bs + 2) / 3))%nat.
Proof.
  induction n as [n IH] using lt_wf_ind. intros bs Hlen.
  destruct bs as [|a [|b [|c rest]]]; try reflexivity.
  assert (exists d1 d2 d3 d4,
            base64 (a :: b :: c :: rest) =
            String d1 (String d2 (String d3 (String d4 (base64 rest)))))
    as (d1 & d2 & d3 & d4 & ->) by (do 4 eexists; reflexivity).
  cbn [String.length length] in *.
  rewrite (IH (length rest)) by lia.
  replace (S (S (S (length rest))) + 2)%nat with (length rest + 2 + 1 * 3)%nat by lia.
  rewrite Nat.div_add by lia. lia.
Qed.

Lemma base64_length bs :
  String.length (base64 bs) = (4 * ((length bs + 2) / 3))%nat.
Proof. now apply (base64_length_upto (length bs)). Qed.

(** X22. For a file of n bytes declared pdf or image, the one call the route
    makes carries the file as a base64 text of 4 * ceil(n / 3) characters:
    the request is a third larger than the file. *)
Theorem binary_payload_size w req fd f :
  multipart req = true -> req_formData req = Some fd -> form_file fd = Some f ->
  strict_eq (form_fileType fd) "pdf" = true \/
  strict_eq (form_fileType fd) "image" = true ->
  exists betas m media_type data,
    (calls (POST w req) = [CallAnthropic betas m (DocumentBlock media_type data)] \/
     calls (POST w req) = [CallAnthropic betas m (ImageBlock media_type data)]) /\
    data = base64 (bytes f) /\
    String.length data = (4 * ((length (bytes f) + 2) / 3))%nat.
Proof.
  intros Hm Hfd Hf [Hk | Hk]; rewrite POST_calls.
  - pose proof (POST_body_pdf w req fd f Hm Hfd Hf Hk) as Hp. cbn zeta in Hp.
    rewrite Hp. do 4 eexists. split; [left; reflexivity|].
    split; [reflexivity | apply base64_length].
  - pose proof (POST_body_image w req fd f Hm Hfd Hf Hk) as Hp. cbn zeta in Hp.
    rewrite Hp. do 4 eexists. split; [right; reflexivity|].
    split; [reflexivity | apply base64_length].
Qed.

Lemma binary_payload_size_witness :
  exists data,
    calls (POST all_up (TC.file_request a_png "m" TC.Image)) =
      [CallAnthropic ["token-counting-2024-11-01"] "m" (ImageBlock "image/png" data)] /\
    String.length data = 8%nat.
Proof.
  destruct (binary_payload_size all_up (TC.file_request a_png "m" TC.Image)
              {| form_file := Some (TC.as_part a_png);
                 form_model := Some "m";
                 form_fileType := Some "image" |}
              (TC.as_part a_png) eq_refl eq_refl eq_refl (or_intror eq_refl))
    as (betas & m & mt & data & _ & Hdata & Hlen).
  exists data. split; [now rewrite Hdata | exact Hlen].
Defined.

(** X23. An ASCII text file is sent to the vendors byte for byte, and its
    [fileChars] is its number of characters.  When a byte order mark
    precedes the ASCII bytes the mark is not part of the text sent, but its
    three bytes are counted: [fileChars] is the number of characters
    plus 3. *)
Theorem ascii_text_and_byte_order_mark w m k bs n t fname :
  ascii_only bs ->
  k = TC.Text \/ k = TC.Unknown ->
  (calls (POST w (TC.file_request {| name := fname; type := t; bytes := bs |} m k)) =
     CallGPT4o (map Byte.to_N bs) :: tertiary_calls w (map Byte.to_N bs)
     ++ [primary_text_call (or_else (Some m) DEFAULT_MODEL) (map Byte.to_N bs)]) /\
  (calls (POST w (TC.file_request
                    {| name := fname; type := t; bytes := xef :: xbb :: xbf :: bs |}
                    m k)) =
     CallGPT4o (map Byte.to_N bs) :: tertiary_calls w (map Byte.to_N bs)
     ++ [primary_text_call (or_else (Some m) DEFAULT_MODEL) (map Byte.to_N bs)]) /\
  (anthropic_countTokens w ["token-counting-2024-11-01"]
     (or_else (Some m) DEFAULT_MODEL) (TextContent (map Byte.to_N bs)) = Some n ->
   exists d d',
     result (POST w (TC.file_request {| name := fname; type := t; bytes := bs |} m k))
       = Some (Response_json d) /\
     fileChars d = js_length (map Byte.to_N bs) /\
     result (POST w (TC.file_request
                       {| name := fname; type := t;
                          bytes := xef :: xbb :: xbf :: bs |} m k))
       = Some (Response_json d') /\
     fileChars d' = js_length (map Byte.to_N bs) + 3 /\
     input_tokens d' = input_tokens d).
Proof.
  intros Hascii Hk.
  assert (TextDecoder_decode (xef :: xbb :: xbf :: bs) = map Byte.to_N bs) as Hbom.
  { unfold TextDecoder_decode. cbn [strip_bom Byte.eqb andb].
    change (Byte.eqb xef xef && Byte.eqb xbb xbb && Byte.eqb xbf xbf) with true.
    cbn iota. rewrite (utf8_run_ascii bs Hascii).
    apply flat_map_utf16_small. apply Forall_map.
    eapply Forall_impl; [|exact Hascii]. cbn. intros b Hb.
    eapply N.lt_trans; [exact Hb | reflexivity]. }
  pose proof (TextDecoder_decode_ascii bs Hascii) as Hplain.
  pose proof (file_request_text_payload
                {| name := fname; type := t; bytes := bs |} m k Hk) as H1.
  pose proof (file_request_text_payload
                {| name := fname; type := t; bytes := xef :: xbb :: xbf :: bs |}
                m k Hk) as H2.
  cbn [bytes] in H1, H2. rewrite Hplain in H1. rewrite Hbom in H2.
  rewrite !POST_calls, !POST_result.
  rewrite (POST_body_text_payload w _ _ _ _ H1),
          (POST_body_text_payload w _ _ _ _ H2).
  cbn [calls snd result fst]. split; [reflexivity|]. split; [reflexivity|].
  intros ->. do 2 eexists. split; [reflexivity|]. cbn [fileChars input_tokens].
  split; [unfold js_length; now rewrite length_map|].
  split; [reflexivity|]. split; [|reflexivity].
  unfold js_length. rewrite length_map. cbn [fileChars length]. lia.
Qed.

Lemma ascii_text_and_byte_order_mark_witness :
  calls (POST primary_only
           (TC.file_request
              {| name := "bom.txt"; type := "text/plain";
                 bytes := [xef; xbb; xbf; x48; x69] |} "m" TC.Text)) =
  CallGPT4o hi :: tertiary_calls primary_only hi ++ [primary_text_call "m" hi].
Proof.
  refine (proj1 (proj2 (ascii_text_and_byte_order_mark primary_only "m" TC.Text
                          [x48; x69] 12 "text/plain" "bom.txt" _
                          (or_introl eq_refl)))).
  repeat constructor.
Defined.

(** X24. Right after a file with a non-empty name is selected, and no
    request is in progress, the panel shows 0 for the Claude count and for
    the characters, names the file under the label Image, PDF or File
    according to its category, and renders the two estimator cells, as
    dashes, only when the file is a text.  After a failed analysis the file
    is still selected but its name is gone from the panel. *)
Theorem panel_after_selecting_a_file fetch f s :
  truthy_str (name f) = true ->
  TC.isProcessing s = false ->
  TC.claude_cell (TC.render (TC.handleFileChange (Some f) s)) = TC.Number 0 /\
  TC.chars_cell (TC.render (TC.handleFileChange (Some f) s)) = TC.Number 0 /\
  TC.file_cell (TC.render (TC.handleFileChange (Some f) s)) =
    Some (match TC.getFileTypeCategory f with
          | TC.Image => "Image"
          | TC.Pdf => "PDF"
          | _ => "File"
          end, name f) /\
  TC.gpt4o_cell (TC.render (TC.handleFileChange (Some f) s)) =
    (match TC.getFileTypeCategory f with
     | TC.Text => Some TC.Dash
     | _ => None
     end) /\
  TC.gemini_cell (TC.render (TC.handleFileChange (Some f) s)) =
    (match TC.getFileTypeCategory f with
     | TC.Text => Some TC.Dash
     | _ => None
     end) /\
  ((forall data,
      result (fetch (TC.file_request f (TC.selectedModel s)
                       (TC.getFileTypeCategory f))) <> Some (Response_json data)) ->
   exists s',
     result (TC.handleAnalyzeFile fetch (TC.handleFileChange (Some f) s)) = Some s' /\
     TC.file s' = Some f /\
     TC.file_cell (TC.render s') = None).
Proof.
  intros Hname Hp.
  assert (forall k,
            TC.no_name (TC.fileName (TC.stats
              (TC.setStats
                 {| TC.tokens := None; TC.gpt4oTokens := None;
                    TC.geminiTokens := None; TC.chars := 0;
                    TC.fileName := Some (name f) |} k))) = false) as Hnn.
  { intros k. cbn. now rewrite Hname. }
  repeat split.
  - unfold TC.handleFileChange, TC.render, TC.TokenMetrics.
    destruct (TC.getFileTypeCategory f); cbn; now rewrite Hp.
  - unfold TC.handleFileChange, TC.render, TC.TokenMetrics.
    destruct (TC.getFileTypeCategory f); cbn; now rewrite Hp.
  - unfold TC.handleFileChange, TC.render, TC.TokenMetrics.
    destruct (TC.getFileTypeCategory f); cbn; now rewrite Hname.
  - unfold TC.handleFileChange, TC.render, TC.TokenMetrics.
    destruct (TC.getFileTypeCategory f); cbn; now rewrite ?Hname, ?Hp.
  - unfold TC.handleFileChange, TC.render, TC.TokenMetrics.
    destruct (TC.getFileTypeCategory f); cbn; now rewrite ?Hname, ?Hp.
  - intros Hfail.
    remember (TC.handleFileChange (Some f) s) as s1 eqn:Hs1.
    assert (TC.file s1 = Some f /\ TC.fileType s1 = TC.getFileTypeCategory f /\
            TC.selectedModel s1 = TC.selectedModel s) as (Hfile & Htype & Hmodel).
    { subst s1. unfold TC.handleFileChange.
      now destruct (TC.getFileTypeCategory f). }
    clear Hs1.
    destruct (fetch (TC.file_request f (TC.selectedModel s1) (TC.fileType s1)))
      as [r log] eqn:Hf.
    rewrite (handleAnalyzeFile_failed fetch s1 f r log Hfile Hf).
    + eexists. split; [reflexivity|]. cbn. auto.
    + intros data ->. rewrite Hmodel, Htype in Hf.
      apply (Hfail data). now rewrite Hf.
Qed.

Lemma panel_after_selecting_a_file_witness :
  TC.file_cell (TC.render (TC.handleFileChange (Some a_pdf) TC.initial)) =
    Some ("PDF", "a.pdf") /\
  TC.gpt4o_cell (TC.render (TC.handleFileChange (Some hundred_x) TC.initial)) =
    Some TC.Dash.
Proof.
  split.
  - exact (proj1 (proj2 (proj2 (panel_after_selecting_a_file (POST all_up)
                                  a_pdf TC.initial eq_refl eq_refl)))).
  - exact (proj1 (proj2 (proj2 (proj2 (panel_after_selecting_a_file (POST all_up)
                                  hundred_x TC.initial eq_refl eq_refl))))).
Defined.
